(** * Confluence and JIRA tools of the CLI agent: model and properties

    A shallow embedding of [deepagents_cli/confluence_tools.py] and
    [deepagents_cli/jira_tools.py], and the properties of the tools.

    The model:
    - A Python [str] is a Rocq [string], read as its sequence of code
      points; the model covers code points below 256, and the character
      classes ([is_space], [lower_char], [is_printable]) are Python's on
      that range.
    - A decoded JSON body, and every dict or list the tools build, is a
      [value]: Python's int is [Z], a dict is the list of its items in
      insertion order, and floats are kept abstract ([PyFloat]).
    - Evaluation returns or raises ([outcome]).  An exception is its
      class, as far as the [except] clauses tell classes apart, and its
      message; only instances of [Exception] are modelled.
    - [str] of an int raises ValueError beyond 4300 digits, CPython's
      default limit ([py_str_int]); this matters for [str(max_results)]
      in [confluence_search], which stands before the [try] statement.
      The status code of a response and the ints of a decoded body are
      within the limit: the HTTP library and the JSON decoder give no
      others.
    - The module state ([settings], [_api_version]) and the calls of
      [requests.request] are threaded through the state-and-exception
      monad [M].  Every call of [requests.request] is appended to the log
      [sent] and answered by the environment: [transport w n] is the
      reply to the call number [n].  A property that holds for every
      [transport] holds for every server.
    - [settings.has_confluence] and [settings.has_jira] belong to
      [deepagents_cli.config], which is not among the sources; they are
      modelled from the specification.
    - Keyword arguments are passed explicitly, their defaults included;
      the calls of [logger.debug] are left out. *)

From Stdlib Require Import ZArith List String Ascii Bool Arith Lia DecimalString.
Import ListNotations.

Open Scope string_scope.
Open Scope Z_scope.
Open Scope bool_scope.

(* ================================================================== *)
(** * Part I: definitions                                              *)
(* ================================================================== *)

(** ** Python strings *)

Module PyStr.

(** The characters the code names. *)
Definition nl : ascii := "010"%char.
Definition tab : ascii := "009"%char.
Definition cr : ascii := "013"%char.
Definition lt_c : ascii := "<"%char.
Definition gt_c : ascii := ">"%char.
Definition slash : ascii := "/"%char.
Definition squote : ascii := "'"%char.
Definition dquote : ascii := "034"%char.
Definition backslash : ascii := "\"%char.

Definition code (c : ascii) : nat := nat_of_ascii c.

Definition between (lo hi n : nat) : bool := (lo <=? n)%nat && (n <=? hi)%nat.

(** [c.isspace()]: what [str.strip()] removes and what the regular
    expression class [\s] matches in a str pattern. *)
Definition is_space (c : ascii) : bool :=
  let n := code c in
  between 9 13 n || between 28 32 n || (n =? 133)%nat || (n =? 160)%nat.

(** [c.lower()] for one character. *)
Definition lower_char (c : ascii) : ascii :=
  let n := code c in
  if between 65 90 n || between 192 214 n || between 216 222 n
  then ascii_of_nat (n + 32)
  else c.

(** [s.lower()] *)
Fixpoint lower (s : string) : string :=
  match s with
  | EmptyString => EmptyString
  | String c r => String (lower_char c) (lower r)
  end.

(** [s.startswith(p)] *)
Fixpoint startswith (p s : string) : bool :=
  match p, s with
  | EmptyString, _ => true
  | String a p', String b s' => Ascii.eqb a b && startswith p' s'
  | String _ _, EmptyString => false
  end.

(** [p in s] for two strings: [p] occurs as a substring of [s]. *)
Fixpoint contains (p s : string) : bool :=
  startswith p s ||
  match s with
  | EmptyString => false
  | String _ r => contains p r
  end.

(** [s.rstrip(chars)] for a set of characters given by a predicate. *)
Fixpoint rstrip_with (p : ascii -> bool) (s : string) : string :=
  match s with
  | EmptyString => EmptyString
  | String c r =>
      match rstrip_with p r with
      | EmptyString => if p c then EmptyString else String c EmptyString
      | r' => String c r'
      end
  end.

(** [s.lstrip(chars)] *)
Fixpoint lstrip_with (p : ascii -> bool) (s : string) : string :=
  match s with
  | EmptyString => EmptyString
  | String c r => if p c then lstrip_with p r else s
  end.

(** [s.rstrip("/")] *)
Definition rstrip_slash (s : string) : string :=
  rstrip_with (Ascii.eqb slash) s.

(** [s.strip()] *)
Definition strip (s : string) : string :=
  rstrip_with is_space (lstrip_with is_space s).

(** The decimal text of an int: what [str(n)] gives when it gives
    something ([py_str_int] below is [str(n)] with its limit). *)
Definition str_of_int (n : Z) : string :=
  NilZero.string_of_int (Z.to_int n).

(** The least int [str] refuses: CPython (3.11 and later, and the
    security releases before it) converts an int of at most
    [sys.int_info.default_max_str_digits] = 4300 decimal digits, the sign
    not counted. *)
Definition str_digits_limit : Z := 10 ^ 4300.

(** [n] has at most 4300 digits. *)
Definition fits_str (n : Z) : bool := (Z.abs n <? str_digits_limit)%Z.

(** [sep.join(parts)] *)
Fixpoint join (sep : string) (parts : list string) : string :=
  match parts with
  | [] => ""
  | [x] => x
  | x :: rest => x ++ sep ++ join sep rest
  end.

(** *** [repr] of a str *)

Definition hex_digit (n : nat) : ascii :=
  match n with
  | 0 => "0" | 1 => "1" | 2 => "2" | 3 => "3" | 4 => "4" | 5 => "5"
  | 6 => "6" | 7 => "7" | 8 => "8" | 9 => "9" | 10 => "a" | 11 => "b"
  | 12 => "c" | 13 => "d" | 14 => "e" | _ => "f"
  end%nat%char.

(** The code points below 256 that [repr] prints as they are. *)
Definition is_printable (c : ascii) : bool :=
  let n := code c in
  between 32 126 n || (between 161 255 n && negb (n =? 173)%nat).

Fixpoint mem_char (c : ascii) (s : string) : bool :=
  match s with
  | EmptyString => false
  | String a r => Ascii.eqb a c || mem_char c r
  end.

Definition repr_char (quote c : ascii) : string :=
  if Ascii.eqb c quote || Ascii.eqb c backslash then String backslash (String c "")
  else if Ascii.eqb c tab then "\t"
  else if Ascii.eqb c nl then "\n"
  else if Ascii.eqb c cr then "\r"
  else if is_printable c then String c ""
  else String backslash
         (String "x" (String (hex_digit (code c / 16))
                        (String (hex_digit (code c mod 16)) ""))).

Fixpoint repr_chars (quote : ascii) (s : string) : string :=
  match s with
  | EmptyString => EmptyString
  | String c r => repr_char quote c ++ repr_chars quote r
  end.

(** [repr(s)]: single quotes, unless the string has a single quote and
    no double quote. *)
Definition repr_str (s : string) : string :=
  let quote := if mem_char squote s && negb (mem_char dquote s)
               then dquote else squote in
  String quote (repr_chars quote s ++ String quote "").

End PyStr.

Arguments PyStr.fits_str : simpl never.

(** ** The HTML-to-text normalizer's regular expressions

    [re.sub(pattern, repl, text)] scans [text] from the left; where the
    pattern matches at the current position the match is replaced and the
    scan resumes after it, otherwise the character is copied.  None of the
    five patterns of [_strip_html_tags] matches the empty string.  A
    pattern is given by its matcher: at a position it returns what is left
    of the text after the match. *)

Module Re.
Import PyStr.

Definition matcher := string -> option string.

Fixpoint drop (n : nat) (s : string) : string :=
  match n, s with
  | O, _ => s
  | S _, EmptyString => EmptyString
  | S k, String _ r => drop k r
  end.

(** Number of leading characters of [s] in the class [p]: what a greedy
    [p*] takes. *)
Fixpoint span_len (p : ascii -> bool) (s : string) : nat :=
  match s with
  | String c r => if p c then S (span_len p r) else O
  | EmptyString => O
  end.

(** The scan of [re.sub]; [skip] counts the characters of a match that
    are still to be dropped. *)
Fixpoint sub_scan (m : matcher) (repl : string) (skip : nat) (s : string)
  : string :=
  match s with
  | EmptyString => EmptyString
  | String c r =>
      match skip with
      | S k => sub_scan m repl k r
      | O =>
          match m s with
          | Some rest =>
              match (String.length s - String.length rest)%nat with
              | S k => repl ++ sub_scan m repl k r
              | O => String c (sub_scan m repl O r)
              end
          | None => String c (sub_scan m repl O r)
          end
      end
  end.

Definition sub (m : matcher) (repl s : string) : string :=
  sub_scan m repl O s.

(** A literal, with [re.IGNORECASE]; the literals are in lower case. *)
Fixpoint lit_ci (lit s : string) : option string :=
  match lit, s with
  | EmptyString, _ => Some s
  | String a lit', String b s' =>
      if Ascii.eqb (lower_char b) a then lit_ci lit' s' else None
  | String _ _, EmptyString => None
  end.

(** One character, exactly. *)
Definition chr (a : ascii) (s : string) : option string :=
  match s with
  | String b r => if Ascii.eqb b a then Some r else None
  | EmptyString => None
  end.

(** [h[1-6]] *)
Definition heading (s : string) : option string :=
  match s with
  | String h (String d r) =>
      if Ascii.eqb (lower_char h) "h" && between 49 54 (code d)
      then Some r else None
  | _ => None
  end.

(** The group [(p|div|h[1-6]|li|tr)], in the order it is tried. *)
Definition block_tag : list matcher :=
  [lit_ci "p"; lit_ci "div"; heading; lit_ci "li"; lit_ci "tr"].

(** Alternation followed by the rest [k] of the pattern: the first
    alternative after which [k] matches. *)
Fixpoint alt (alts : list matcher) (k : matcher) (s : string)
  : option string :=
  match alts with
  | [] => None
  | a :: more =>
      match a s with
      | Some t =>
          match k t with
          | Some rest => Some rest
          | None => alt more k s
          end
      | None => alt more k s
      end
  end.

Definition not_gt (c : ascii) : bool := negb (Ascii.eqb c gt_c).

(** [<br\s*/?>] with IGNORECASE *)
Definition br_tag : matcher := fun s =>
  match chr lt_c s with
  | Some s1 =>
      match lit_ci "br" s1 with
      | Some s2 =>
          let s3 := drop (span_len is_space s2) s2 in
          match chr slash s3 with
          | Some s4 =>
              match chr gt_c s4 with
              | Some rest => Some rest
              | None => chr gt_c s3
              end
          | None => chr gt_c s3
          end
      | None => None
      end
  | None => None
  end.

(** [</(p|div|h[1-6]|li|tr)>] with IGNORECASE *)
Definition block_close : matcher := fun s =>
  match chr lt_c s with
  | Some s1 =>
      match chr slash s1 with
      | Some s2 => alt block_tag (chr gt_c) s2
      | None => None
      end
  | None => None
  end.

(** [<(p|div|h[1-6]|li|tr)[^>]*>] with IGNORECASE *)
Definition block_open : matcher := fun s =>
  match chr lt_c s with
  | Some s1 =>
      alt block_tag (fun t => chr gt_c (drop (span_len not_gt t) t)) s1
  | None => None
  end.

(** [<[^>]+>] *)
Definition any_tag : matcher := fun s =>
  match chr lt_c s with
  | Some s1 =>
      let n := span_len not_gt s1 in
      if (1 <=? n)%nat then chr gt_c (drop n s1) else None
  | None => None
  end.

(** [\n{3,}] *)
Definition newlines3 : matcher := fun s =>
  let n := span_len (Ascii.eqb nl) s in
  if (3 <=? n)%nat then Some (drop n s) else None.

(** *** Shapes of text, for the properties of the normalizer *)

(** The text starts with [>]. *)
Definition head_gt (s : string) : bool :=
  match s with
  | String x _ => Ascii.eqb x gt_c
  | EmptyString => false
  end.

(** A text is [settled] when each of its [<] is directly followed by
    [>] or has no [>] after it: no tag pattern matches anywhere in it. *)
Fixpoint settled (s : string) : bool :=
  match s with
  | EmptyString => true
  | String c r =>
      (negb (Ascii.eqb c lt_c) || head_gt r || negb (mem_char gt_c r))
      && settled r
  end.

(** Where a tag pattern can match: at a [<] that is followed by another
    character than [>] and, later, by a [>]. *)
Definition tag_start (s : string) : bool :=
  match s with
  | String c (String x r) =>
      Ascii.eqb c lt_c && negb (Ascii.eqb x gt_c) && mem_char gt_c r
  | _ => false
  end.

(** A text is [calm] when it has no run of three newlines. *)
Fixpoint calm (s : string) : bool :=
  match s with
  | EmptyString => true
  | String _ r => (span_len (Ascii.eqb nl) s <? 3)%nat && calm r
  end.

(** The first character of a block tag name is a letter, not [>]. *)
Definition head_not_gt (s : string) : Prop :=
  match s with
  | String x _ => Ascii.eqb x gt_c = false
  | EmptyString => False
  end.

(** What an alternative does: it consumes a name that does not start
    with [>]. *)
Definition names_tag (a : matcher) : Prop :=
  forall s t, a s = Some t ->
    head_not_gt s /\ (mem_char gt_c t = true -> mem_char gt_c s = true).

(** Length of the run of newlines a text starts with. *)
Definition run (s : string) : nat := span_len (Ascii.eqb nl) s.

Definition two_nl : string := String nl (String nl "").

End Re.

(** [_strip_html_tags] of [confluence_tools.py]. *)
Definition _strip_html_tags (html : string) : string :=
  let text := Re.sub Re.br_tag (String PyStr.nl "") html in
  let text := Re.sub Re.block_close (String PyStr.nl "") text in
  let text := Re.sub Re.block_open "" text in
  let text := Re.sub Re.any_tag "" text in
  let text := Re.sub Re.newlines3 (String PyStr.nl (String PyStr.nl "")) text in
  PyStr.strip text.

Definition hello_world_html : string := "<p>Hello</p><p>World</p>".
Definition hello_world_text : string :=
  "Hello" ++ String PyStr.nl "World".

(** ** Python values

    The floats of a decoded JSON body are kept abstract: the tools only
    test them for truth, add an int to them and print them. *)

Class PyFloat := {
  float : Type;
  float_bool : float -> bool;            (* bool(x) *)
  float_add_int : float -> Z -> float;   (* x + n *)
  float_repr : float -> string           (* repr(x) *)
}.

#[warnings="-register-all"] Inductive value {F : PyFloat} : Type :=
| VNone
| VBool (b : bool)
| VInt (n : Z)
| VFloat (x : float)
| VStr (s : string)
| VList (items : list value)
| VDict (entries : list (string * value)).

(** The exception classes the tools tell apart, and the ones they let
    through.  Only instances of [Exception] are modelled. *)
Inductive exn_class :=
| ValueError          (* the builtin, raised by the request builders *)
| JSONDecodeError     (* raised by resp.json(); a ValueError *)
| RequestException    (* requests.exceptions: ConnectionError, Timeout, ... *)
| InvalidURL          (* requests' MissingSchema, InvalidSchema, InvalidURL,
                         InvalidHeader: RequestException and ValueError *)
| AttributeError
| TypeError
| KeyError
| OtherException.

Record exn := { exn_class_of : exn_class; exn_msg : string }.

(** [isinstance(e, ValueError)] *)
Definition is_ValueError (e : exn) : bool :=
  match exn_class_of e with
  | ValueError | JSONDecodeError | InvalidURL => true
  | _ => false
  end.

(** [isinstance(e, requests.exceptions.RequestException)] *)
Definition is_RequestException (e : exn) : bool :=
  match exn_class_of e with
  | RequestException | InvalidURL | JSONDecodeError => true
  | _ => false
  end.

(** What evaluating an expression or a call gives. *)
Inductive outcome (A : Type) : Type :=
| Returned (a : A)
| Raised (e : exn).
Arguments Returned {A} a.
Arguments Raised {A} e.

Definition bind_o {A B} (o : outcome A) (k : A -> outcome B) : outcome B :=
  match o with
  | Returned a => k a
  | Raised e => Raised e
  end.

Notation "'let!' x ':=' e 'in' k" := (bind_o e (fun x => k))
  (at level 10, x name, e at level 100, k at level 200).

Fixpoint map_o {A B} (f : A -> outcome B) (l : list A) : outcome (list B) :=
  match l with
  | [] => Returned []
  | a :: rest =>
      let! b := f a in
      let! bs := map_o f rest in
      Returned (b :: bs)
  end.

Section Values.
Context {F : PyFloat}.

Definition dict := list (string * value).

Fixpoint dict_lookup (k : string) (d : dict) : option value :=
  match d with
  | [] => None
  | (k', v) :: rest => if String.eqb k' k then Some v else dict_lookup k rest
  end.

(** [d[k] = v]: a present key keeps its place. *)
Fixpoint dict_set (k : string) (v : value) (d : dict) : dict :=
  match d with
  | [] => [(k, v)]
  | (k', v') :: rest =>
      if String.eqb k' k then (k, v) :: rest else (k', v') :: dict_set k v rest
  end.

(** [d.update(extra)] *)
Definition dict_update (d extra : dict) : dict :=
  fold_left (fun acc kv => dict_set (fst kv) (snd kv) acc) extra d.

Definition is_nil {A} (l : list A) : bool :=
  match l with [] => true | _ => false end.

(** [bool(v)] *)
Definition truthy (v : value) : bool :=
  match v with
  | VNone => false
  | VBool b => b
  | VInt n => negb (n =? 0)
  | VFloat x => float_bool x
  | VStr s => negb (String.eqb s "")
  | VList l => negb (is_nil l)
  | VDict d => negb (is_nil d)
  end.

(** [bool(s)] of an optional str argument. *)
Definition given (o : option string) : bool :=
  match o with
  | Some s => negb (String.eqb s "")
  | None => false
  end.

(** [str(s)] of an optional str argument, as an f-string prints it. *)
Definition fmt (o : option string) : string :=
  match o with
  | Some s => s
  | None => "None"
  end.

Definition type_name (v : value) : string :=
  match v with
  | VNone => "NoneType"
  | VBool _ => "bool"
  | VInt _ => "int"
  | VFloat _ => "float"
  | VStr _ => "str"
  | VList _ => "list"
  | VDict _ => "dict"
  end.

Definition no_attribute (v : value) (attr : string) : exn :=
  {| exn_class_of := AttributeError;
     exn_msg := "'" ++ type_name v ++ "' object has no attribute '" ++ attr ++ "'" |}.

(** [v.get(key, default)] *)
Definition py_get (v : value) (key : string) (default : value) : outcome value :=
  match v with
  | VDict d =>
      Returned (match dict_lookup key d with Some x => x | None => default end)
  | _ => Raised (no_attribute v "get")
  end.

(** [v.lower()] *)
Definition py_lower (v : value) : outcome string :=
  match v with
  | VStr s => Returned (PyStr.lower s)
  | _ => Raised (no_attribute v "lower")
  end.

(** The items a [for] loop or a comprehension draws from [v]. *)
Definition py_iter (v : value) : outcome (list value) :=
  match v with
  | VList l => Returned l
  | VDict d => Returned (map (fun kv => VStr (fst kv)) d)
  | VStr s => Returned (map (fun c => VStr (String c "")) (list_ascii_of_string s))
  | _ => Raised {| exn_class_of := TypeError;
                   exn_msg := "'" ++ type_name v ++ "' object is not iterable" |}
  end.

(** [v[0]] *)
Definition py_first (v : value) : outcome value :=
  match v with
  | VList (x :: _) => Returned x
  | VList [] => Raised {| exn_class_of := OtherException;
                          exn_msg := "list index out of range" |}
  | VStr (String c _) => Returned (VStr (String c ""))
  | VStr EmptyString => Raised {| exn_class_of := OtherException;
                                  exn_msg := "string index out of range" |}
  | VDict _ => Raised {| exn_class_of := KeyError; exn_msg := "0" |}
  | _ => Raised {| exn_class_of := TypeError;
                   exn_msg := "'" ++ type_name v ++ "' object is not subscriptable" |}
  end.

(** [v[key]] for a str key. *)
Definition py_item (v : value) (key : string) : outcome value :=
  match v with
  | VDict d =>
      match dict_lookup key d with
      | Some x => Returned x
      | None => Raised {| exn_class_of := KeyError; exn_msg := PyStr.repr_str key |}
      end
  | VStr _ => Raised {| exn_class_of := TypeError;
                       exn_msg := "string indices must be integers" |}
  | VList _ => Raised {| exn_class_of := TypeError;
                        exn_msg := "list indices must be integers or slices, not str" |}
  | _ => Raised {| exn_class_of := TypeError;
                   exn_msg := "'" ++ type_name v ++ "' object is not subscriptable" |}
  end.

(** [v + n] for an int [n]. *)
Definition py_add_int (v : value) (n : Z) : outcome value :=
  match v with
  | VInt m => Returned (VInt (m + n))
  | VBool b => Returned (VInt ((if b then 1 else 0) + n))
  | VFloat x => Returned (VFloat (float_add_int x n))
  | VStr _ | VList _ =>
      Raised {| exn_class_of := TypeError;
                exn_msg := "can only concatenate " ++ type_name v ++ " (not "
                           ++ String PyStr.dquote ("int" ++ String PyStr.dquote "")
                           ++ ") to " ++ type_name v |}
  | _ => Raised {| exn_class_of := TypeError;
                   exn_msg := "unsupported operand type(s) for +: '"
                              ++ type_name v ++ "' and 'int'" |}
  end.

(** [str(n)] for an int [n]: a ValueError for an int of more than 4300
    digits. *)
Definition py_str_int (n : Z) : outcome string :=
  if PyStr.fits_str n then Returned (PyStr.str_of_int n)
  else Raised {| exn_class_of := ValueError;
                 exn_msg := "Exceeds the limit (4300 digits) for integer string "
                            ++ "conversion; use sys.set_int_max_str_digits() "
                            ++ "to increase the limit" |}.

(** [repr(v)]; the ints of a decoded body have at most 4300 digits, the
    decoder refuses others. *)
Fixpoint py_repr (v : value) : string :=
  match v with
  | VNone => "None"
  | VBool true => "True"
  | VBool false => "False"
  | VInt n => PyStr.str_of_int n
  | VFloat x => float_repr x
  | VStr s => PyStr.repr_str s
  | VList l => "[" ++ PyStr.join ", " (map py_repr l) ++ "]"
  | VDict d =>
      "{" ++ PyStr.join ", "
               (map (fun kv => PyStr.repr_str (fst kv) ++ ": " ++ py_repr (snd kv)) d)
          ++ "}"
  end.

End Values.

(** ** The HTTP library and the module state *)

Section World.
Context {F : PyFloat}.

(** The arguments of one call of [requests.request]. *)
Record request := {
  req_method : string;
  req_url : string;
  req_auth : option string * option string;   (* HTTPBasicAuth(username, password) *)
  req_headers : list (string * string);
  req_verify : bool;
  req_timeout : Z;
  req_params : option (list (string * string));
  req_json : option value
}.

(** What the tools read of a [requests.Response]; [status_code] is the
    status of three digits the HTTP library parsed, and [resp_json] is
    [None] when the body is not valid JSON. *)
Record response := {
  status_code : Z;
  ok : bool;
  text : string;
  resp_json : option value
}.

(** [requests.request] returns a response or raises. *)
Inductive reply :=
| Replies (r : response)
| Fails (e : exn).

(** The fields of [deepagents_cli.config.settings] the tools use. *)
Record Settings := {
  confluence_url : option string;
  confluence_username : option string;
  confluence_password : option string;
  confluence_verify_ssl : bool;
  jira_url : option string;
  jira_username : option string;
  jira_password : option string;
  jira_verify_ssl : bool
}.

(** Modelled from the spec: the property [settings.has_confluence] of
    [deepagents_cli.config], which is not among the sources; the spec
    derives "is configured" as: base URL, username and password are all
    set. *)
Definition has_confluence (s : Settings) : bool :=
  match confluence_url s, confluence_username s, confluence_password s with
  | Some _, Some _, Some _ => true
  | _, _, _ => false
  end.

(** Modelled from the spec: the property [settings.has_jira], as
    [has_confluence]. *)
Definition has_jira (s : Settings) : bool :=
  match jira_url s, jira_username s, jira_password s with
  | Some _, Some _, Some _ => true
  | _, _, _ => false
  end.

(** The state the tools run in: the settings, the cache [_api_version] of
    [jira_tools], the calls of [requests.request] made so far, oldest
    first, and the environment, which answers the call number [n]
    (counting from 0) with [transport n]. *)
Record world := {
  settings : Settings;
  _api_version : option string;
  sent : list request;
  transport : nat -> reply
}.

Definition M (A : Type) : Type := world -> outcome A * world.

Definition ret {A} (a : A) : M A := fun w => (Returned a, w).

Definition raise {A} (e : exn) : M A := fun w => (Raised e, w).

Definition lift {A} (o : outcome A) : M A := fun w => (o, w).

Definition bind {A B} (m : M A) (k : A -> M B) : M B := fun w =>
  match m w with
  | (Returned a, w') => k a w'
  | (Raised e, w') => (Raised e, w')
  end.

(** [try: body  except ...: handler]: [handler e] is the clause that
    catches [e], if one does. *)
Definition try_except {A} (body : M A) (handler : exn -> option (M A)) : M A :=
  fun w =>
    match body w with
    | (Returned a, w') => (Returned a, w')
    | (Raised e, w') =>
        match handler e with
        | Some h => h w'
        | None => (Raised e, w')
        end
    end.

Definition get_settings : M Settings := fun w => (Returned (settings w), w).

(** [requests.request(...)] *)
Definition requests_request (r : request) : M response := fun w =>
  let w' := {| settings := settings w; _api_version := _api_version w;
               sent := sent w ++ [r]; transport := transport w |} in
  match transport w (List.length (sent w)) with
  | Replies resp => (Returned resp, w')
  | Fails e => (Raised e, w')
  end.

(** [resp.json()] *)
Definition json (resp : response) : outcome value :=
  match resp_json resp with
  | Some v => Returned v
  | None => Raised {| exn_class_of := JSONDecodeError; exn_msg := "" |}
  end.

(** The keyword arguments the request builders pass on. *)
Record kwargs := {
  kw_headers : option (list (string * string));
  kw_params : option (list (string * string));
  kw_json : option value
}.

Definition with_params (p : list (string * string)) : kwargs :=
  {| kw_headers := None; kw_params := Some p; kw_json := None |}.

Definition with_json (j : value) : kwargs :=
  {| kw_headers := None; kw_params := None; kw_json := Some j |}.

Definition no_kwargs : kwargs :=
  {| kw_headers := None; kw_params := None; kw_json := None |}.

(** [headers.setdefault(k, v)] *)
Definition setdefault (k v : string) (h : list (string * string))
  : list (string * string) :=
  if existsb (fun kv => String.eqb (fst kv) k) h then h else h ++ [(k, v)].

(** [kwargs.pop("headers", {})] with the two defaults set. *)
Definition json_headers (kw : kwargs) : list (string * string) :=
  let headers := match kw_headers kw with Some h => h | None => [] end in
  let headers := setdefault "Content-Type" "application/json" headers in
  setdefault "Accept" "application/json" headers.

(** [x.rstrip("/")] where [x] is a setting: [None] has no [rstrip]. *)
Definition base_url_of (u : option string) : outcome string :=
  match u with
  | Some s => Returned (PyStr.rstrip_slash s)
  | None => Raised {| exn_class_of := AttributeError;
                      exn_msg := "'NoneType' object has no attribute 'rstrip'" |}
  end.

(** [_err] and [_resp_err], the same in both modules. *)
Definition _err (msg : string) : value :=
  VDict [("success", VBool false); ("error", VStr msg)].

Definition _resp_err (label : string) (resp : response) : value :=
  _err (label ++ " (" ++ PyStr.str_of_int (status_code resp) ++ "): " ++ text resp).

(** [re.sub] and so [_strip_html_tags] want a str. *)
Definition strip_html_tags_of (v : value) : outcome value :=
  match v with
  | VStr s => Returned (VStr (_strip_html_tags s))
  | _ => Raised {| exn_class_of := TypeError;
                   exn_msg := "expected string or bytes-like object" |}
  end.

Definition quoted (s : string) : string :=
  String PyStr.dquote (s ++ String PyStr.dquote "").

End World.

Notation "x <- m ;; k" := (bind m (fun x => k))
  (at level 61, m at next level, right associativity).

(** ** [confluence_tools.py] *)

Module confluence_tools.
Section Tools.
Context {F : PyFloat}.

(** [_confluence_request] *)
Definition _confluence_request (method path : string)
    (verify_ssl : option bool) (kw : kwargs) : M response :=
  s <- get_settings ;;
  if negb (has_confluence s) then
    raise {| exn_class_of := ValueError;
             exn_msg := "Confluence is not configured. Set CONFLUENCE_URL "
                        ++ "and credentials (CONFLUENCE_USERNAME/PASSWORD or "
                        ++ "JIRA_USERNAME/PASSWORD)." |}
  else
    let verify_ssl :=
      match verify_ssl with
      | None => confluence_verify_ssl s
      | Some b => b
      end in
    base_url <- lift (base_url_of (confluence_url s)) ;;
    let url := base_url ++ path in
    let auth := (confluence_username s, confluence_password s) in
    let headers := json_headers kw in
    requests_request
      {| req_method := method; req_url := url; req_auth := auth;
         req_headers := headers; req_verify := verify_ssl; req_timeout := 30;
         req_params := kw_params kw; req_json := kw_json kw |}.

Definition _NOT_CONFIGURED_MSG : string :=
  "Confluence is not configured. Ask the user for their "
  ++ "Confluence URL, username, and password, then call "
  ++ "confluence_configure(url, username, password) before "
  ++ "retrying.".

(** The two [except] clauses every tool ends with. *)
Definition handlers (e : exn) : option (M value) :=
  if is_ValueError e then Some (ret (_err _NOT_CONFIGURED_MSG))
  else if is_RequestException e
       then Some (ret (_err ("Confluence request error: " ++ exn_msg e)))
       else None.

(** [confluence_configure] *)
Definition confluence_configure (url username password : string) : M value :=
  fun w =>
    let s := settings w in
    let s' := {| confluence_url := Some (PyStr.rstrip_slash url);
                 confluence_username := Some username;
                 confluence_password := Some password;
                 confluence_verify_ssl := confluence_verify_ssl s;
                 jira_url := jira_url s;
                 jira_username := jira_username s;
                 jira_password := jira_password s;
                 jira_verify_ssl := jira_verify_ssl s |} in
    (Returned (VDict [("success", VBool true);
                      ("message", VStr ("Confluence configured for " ++ url))]),
     {| settings := s'; _api_version := _api_version w;
        sent := sent w; transport := transport w |}).

Definition cql_ops : list string :=
  ["="; "~"; "AND"; "OR"; "NOT"; "IN"; "type"; "space"; "label"].

(** The CQL string [confluence_search] builds. *)
Definition search_cql (query : string) (space_key : option string) : string :=
  let cql := query in
  let cql :=
    if given space_key && negb (PyStr.contains "space" (PyStr.lower query))
    then "space = " ++ quoted (fmt space_key) ++ " AND (" ++ query ++ ")"
    else cql in
  if negb (existsb (fun op => PyStr.contains op query) cql_ops) then
    let cql := "type = page AND text ~ " ++ quoted query in
    if given space_key
    then "space = " ++ quoted (fmt space_key) ++ " AND " ++ cql
    else cql
  else cql.

(** The body of the loop of [confluence_search], for one item. *)
Definition search_item (item : value) : outcome value :=
  let! metadata := py_get item "metadata" (VDict []) in
  let! lbl := py_get metadata "labels" (VDict []) in
  let! lbl_results := py_get lbl "results" VNone in
  let! labels :=
    (if truthy lbl_results
     then let! lbls := py_iter lbl_results in
          map_o (fun lbl => py_get lbl "name" VNone) lbls
     else Returned []) in
  let! space := py_get item "space" VNone in
  let! id := py_get item "id" VNone in
  let! title := py_get item "title" VNone in
  let! type := py_get item "type" VNone in
  let! space_key := (if truthy space then py_get space "key" VNone
                     else Returned VNone) in
  let! links := py_get item "_links" (VDict []) in
  let! url := py_get links "webui" VNone in
  Returned (VDict [("id", id); ("title", title); ("type", type);
                   ("space_key", space_key); ("labels", VList labels);
                   ("url", url)]).

(** The [try] statement of [confluence_search], for the parameters
    [cql] and [limit] built before it. *)
Definition search_steps (cql limit : string) (verify_ssl : option bool)
  : M value :=
  let params := [("cql", cql); ("limit", limit);
                 ("expand", "metadata.labels")] in
  try_except
    (resp <- _confluence_request "GET" "/rest/api/content/search"
               verify_ssl (with_params params) ;;
     if negb (ok resp) then ret (_resp_err "Confluence search failed" resp)
     else
       lift (let! data := json resp in
             let! items := py_get data "results" (VList []) in
             let! items := py_iter items in
             let! results := map_o search_item items in
             let! total := py_get data "totalSize" (VInt 0) in
             Returned (VDict [("success", VBool true); ("total", total);
                              ("results", VList results)])))
    handlers.

(** [confluence_search]: [str(max_results)] is evaluated for the [params]
    dict, before the [try] statement. *)
Definition confluence_search (query : string) (max_results : Z)
    (space_key : option string) (verify_ssl : option bool) : M value :=
  let cql := search_cql query space_key in
  limit <- lift (py_str_int max_results) ;;
  search_steps cql limit verify_ssl.

(** [confluence_get_page] *)
Definition confluence_get_page (page_id title space_key : option string)
    (verify_ssl : option bool) : M value :=
  let expand := "body.storage,version,space" in
  let finish (resp : response) : M value :=
    if negb (ok resp) then ret (_resp_err "Failed to get page" resp)
    else
      data <- lift (json resp) ;;
      let page (data : value) : M value :=
        lift (let! body := py_get data "body" (VDict []) in
              let! storage := py_get body "storage" (VDict []) in
              let! body_storage := py_get storage "value" (VStr "") in
              let! body_text := strip_html_tags_of body_storage in
              let! space := py_get data "space" VNone in
              let! id := py_get data "id" VNone in
              let! title := py_get data "title" VNone in
              let! space_key := (if truthy space then py_get space "key" VNone
                                 else Returned VNone) in
              let! version := py_get data "version" (VDict []) in
              let! number := py_get version "number" VNone in
              let! links := py_get data "_links" (VDict []) in
              let! url := py_get links "webui" VNone in
              Returned (VDict [("success", VBool true); ("id", id);
                               ("title", title); ("space_key", space_key);
                               ("version", number); ("body_html", body_storage);
                               ("body_text", body_text); ("url", url)])) in
      if negb (given page_id) then
        results <- lift (py_get data "results" (VList [])) ;;
        if negb (truthy results) then
          ret (_err ("No page found with title '" ++ fmt title
                     ++ "' in space '" ++ fmt space_key ++ "'."))
        else
          data <- lift (py_first results) ;;
          page data
      else page data in
  try_except
    (if given page_id then
       resp <- _confluence_request "GET" ("/rest/api/content/" ++ fmt page_id)
                 verify_ssl (with_params [("expand", expand)]) ;;
       finish resp
     else if given title && given space_key then
       resp <- _confluence_request "GET" "/rest/api/content" verify_ssl
                 (with_params [("title", fmt title); ("spaceKey", fmt space_key);
                               ("expand", expand); ("limit", "1")]) ;;
       finish resp
     else
       ret (_err "Provide either page_id or both title and space_key."))
    handlers.

(** [confluence_create_page] *)
Definition confluence_create_page (space_key title body : string)
    (parent_id : option string) (verify_ssl : option bool) : M value :=
  let payload : dict :=
    [("type", VStr "page"); ("title", VStr title);
     ("space", VDict [("key", VStr space_key)]);
     ("body", VDict [("storage", VDict [("value", VStr body);
                                        ("representation", VStr "storage")])])] in
  let payload :=
    if given parent_id
    then dict_set "ancestors" (VList [VDict [("id", VStr (fmt parent_id))]]) payload
    else payload in
  try_except
    (resp <- _confluence_request "POST" "/rest/api/content" verify_ssl
               (with_json (VDict payload)) ;;
     if negb (ok resp) then ret (_resp_err "Failed to create page" resp)
     else
       lift (let! data := json resp in
             let! id := py_get data "id" VNone in
             let! title := py_get data "title" VNone in
             let! links := py_get data "_links" (VDict []) in
             let! url := py_get links "webui" VNone in
             Returned (VDict [("success", VBool true); ("id", id);
                              ("title", title); ("url", url)])))
    handlers.

(** The payload [confluence_update_page] sends. *)
Definition update_payload (title body : string) (number : value)
    (version_comment : option string) : value :=
  let version_payload : dict := [("number", number)] in
  let version_payload :=
    if given version_comment
    then dict_set "message" (VStr (fmt version_comment)) version_payload
    else version_payload in
  VDict [("type", VStr "page"); ("title", VStr title);
         ("body", VDict [("storage", VDict [("value", VStr body);
                                            ("representation", VStr "storage")])]);
         ("version", VDict version_payload)].

(** [confluence_update_page]; the first [try] statement either returns from
    the function ([inl]) or leaves [current_version] ([inr]). *)
Definition confluence_update_page (page_id title body : string)
    (version_comment : option string) (verify_ssl : option bool) : M value :=
  first <-
    try_except
      (get_resp <- _confluence_request "GET" ("/rest/api/content/" ++ page_id)
                     verify_ssl (with_params [("expand", "version")]) ;;
       if negb (ok get_resp)
       then ret (inl (_resp_err "Failed to get page version" get_resp))
       else
         lift (let! data := json get_resp in
               let! version := py_get data "version" (VDict []) in
               let! current_version := py_get version "number" (VInt 0) in
               Returned (inr current_version)))
      (fun e => option_map (fun h => r <- h ;; ret (inl r)) (handlers e)) ;;
  match first with
  | inl result => ret result
  | inr current_version =>
      number <- lift (py_add_int current_version 1) ;;
      let payload := update_payload title body number version_comment in
      try_except
        (resp <- _confluence_request "PUT" ("/rest/api/content/" ++ page_id)
                   verify_ssl (with_json payload) ;;
         if negb (ok resp) then ret (_resp_err "Failed to update page" resp)
         else
           lift (let! data := json resp in
                 let! id := py_get data "id" VNone in
                 let! title := py_get data "title" VNone in
                 let! version := py_get data "version" (VDict []) in
                 let! number := py_get version "number" VNone in
                 let! links := py_get data "_links" (VDict []) in
                 let! url := py_get links "webui" VNone in
                 Returned (VDict [("success", VBool true); ("id", id);
                                  ("title", title); ("version", number);
                                  ("url", url)])))
        handlers
  end.

End Tools.
End confluence_tools.

(** ** [jira_tools.py] *)

Module jira_tools.
Section Tools.
Context {F : PyFloat}.

(** [_jira_request] *)
Definition _jira_request (method path : string)
    (verify_ssl : option bool) (kw : kwargs) : M response :=
  s <- get_settings ;;
  if negb (has_jira s) then
    raise {| exn_class_of := ValueError;
             exn_msg := "JIRA is not configured. "
                        ++ "Set JIRA_URL, JIRA_USERNAME, and JIRA_PASSWORD." |}
  else
    let verify_ssl :=
      match verify_ssl with
      | None => jira_verify_ssl s
      | Some b => b
      end in
    base_url <- lift (base_url_of (jira_url s)) ;;
    let url := base_url ++ path in
    let auth := (jira_username s, jira_password s) in
    let headers := json_headers kw in
    requests_request
      {| req_method := method; req_url := url; req_auth := auth;
         req_headers := headers; req_verify := verify_ssl; req_timeout := 30;
         req_params := kw_params kw; req_json := kw_json kw |}.

Definition get_api_version : M (option string) :=
  fun w => (Returned (_api_version w), w).

Definition set_api_version (v : option string) : M unit :=
  fun w => (Returned tt,
            {| settings := settings w; _api_version := v;
               sent := sent w; transport := transport w |}).

(** [_detect_api_version]; the calls of [logger.debug] have no effect on
    the state modelled. *)
Definition _detect_api_version (verify_ssl : option bool) : M string :=
  cached <- get_api_version ;;
  match cached with
  | Some v => ret v
  | None =>
      _ <- try_except
             (resp <- _jira_request "GET" "/rest/api/2/serverInfo"
                        verify_ssl no_kwargs ;;
              if ok resp then
                lift (let! data := json resp in
                      let! ver := py_get data "versionNumbers" (VList []) in
                      Returned tt)
              else ret tt)
             (fun _ => Some (ret tt)) ;;
      _ <- set_api_version (Some "2") ;;
      ret "2"
  end.

(** [_get_nested] *)
Definition _get_nested (d : value) (key nested_key : string) : outcome value :=
  let! val := py_get d key VNone in
  if truthy val then py_get val nested_key VNone else Returned VNone.

Definition _NOT_CONFIGURED_MSG : string :=
  "JIRA is not configured. Ask the user for their JIRA URL, "
  ++ "username, and password, then call jira_configure(url, "
  ++ "username, password) before retrying.".

(** The two [except] clauses every tool ends with. *)
Definition handlers (e : exn) : option (M value) :=
  if is_ValueError e then Some (ret (_err _NOT_CONFIGURED_MSG))
  else if is_RequestException e
       then Some (ret (_err ("JIRA request error: " ++ exn_msg e)))
       else None.

(** [jira_configure] *)
Definition jira_configure (url username password : string) : M value :=
  fun w =>
    let s := settings w in
    let s' := {| confluence_url := confluence_url s;
                 confluence_username := confluence_username s;
                 confluence_password := confluence_password s;
                 confluence_verify_ssl := confluence_verify_ssl s;
                 jira_url := Some (PyStr.rstrip_slash url);
                 jira_username := Some username;
                 jira_password := Some password;
                 jira_verify_ssl := jira_verify_ssl s |} in
    (Returned (VDict [("success", VBool true);
                      ("message", VStr ("JIRA configured for " ++ url))]),
     {| settings := s'; _api_version := None;
        sent := sent w; transport := transport w |}).

Definition default_fields : list string :=
  ["key"; "summary"; "status"; "assignee"; "priority"; "created"; "updated"].

(** The body of the loop of [jira_search], for one issue. *)
Definition search_issue (issue : value) : outcome value :=
  let! f := py_get issue "fields" (VDict []) in
  let! assignee := _get_nested f "assignee" "displayName" in
  let! key := py_get issue "key" VNone in
  let! summary := py_get f "summary" VNone in
  let! status := _get_nested f "status" "name" in
  let! priority := _get_nested f "priority" "name" in
  let! created := py_get f "created" VNone in
  let! updated := py_get f "updated" VNone in
  Returned (VDict [("key", key); ("summary", summary); ("status", status);
                   ("assignee", assignee); ("priority", priority);
                   ("created", created); ("updated", updated)]).

(** [jira_search] *)
Definition jira_search (jql : string) (max_results : Z)
    (fields : option (list string)) (verify_ssl : option bool) : M value :=
  _ <- _detect_api_version verify_ssl ;;
  let fields := match fields with None => default_fields | Some l => l end in
  let payload := VDict [("jql", VStr jql); ("maxResults", VInt max_results);
                        ("fields", VList (map VStr fields))] in
  try_except
    (resp <- _jira_request "POST" "/rest/api/2/search" verify_ssl
               (with_json payload) ;;
     if negb (ok resp) then ret (_resp_err "JIRA search failed" resp)
     else
       lift (let! data := json resp in
             let! items := py_get data "issues" (VList []) in
             let! items := py_iter items in
             let! issues := map_o search_issue items in
             let! total := py_get data "total" (VInt 0) in
             Returned (VDict [("success", VBool true); ("total", total);
                              ("issues", VList issues)])))
    handlers.

(** One element of the comprehension of [jira_get_issue]. *)
Definition issue_comment (c : value) : outcome value :=
  let! author := py_get c "author" (VDict []) in
  let! name := py_get author "displayName" VNone in
  let! body := py_get c "body" VNone in
  let! created := py_get c "created" VNone in
  Returned (VDict [("author", name); ("body", body); ("created", created)]).

(** [jira_get_issue] *)
Definition jira_get_issue (issue_key : string) (expand : option string)
    (verify_ssl : option bool) : M value :=
  _ <- _detect_api_version verify_ssl ;;
  let params := if given expand then [("expand", fmt expand)] else [] in
  try_except
    (resp <- _jira_request "GET" ("/rest/api/2/issue/" ++ issue_key)
               verify_ssl (with_params params) ;;
     if negb (ok resp) then ret (_resp_err "Failed to get issue" resp)
     else
       lift (let! data := json resp in
             let! f := py_get data "fields" (VDict []) in
             let! comment_data := py_get f "comment" (VDict []) in
             let! cs := py_get comment_data "comments" (VList []) in
             let! cs := py_iter cs in
             let! comments := map_o issue_comment cs in
             let! key := py_get data "key" VNone in
             let! summary := py_get f "summary" VNone in
             let! description := py_get f "description" VNone in
             let! status := _get_nested f "status" "name" in
             let! assignee := _get_nested f "assignee" "displayName" in
             let! reporter := _get_nested f "reporter" "displayName" in
             let! priority := _get_nested f "priority" "name" in
             let! issue_type := _get_nested f "issuetype" "name" in
             let! labels := py_get f "labels" (VList []) in
             let! created := py_get f "created" VNone in
             let! updated := py_get f "updated" VNone in
             Returned (VDict [("success", VBool true); ("key", key);
                              ("summary", summary); ("description", description);
                              ("status", status); ("assignee", assignee);
                              ("reporter", reporter); ("priority", priority);
                              ("issue_type", issue_type); ("labels", labels);
                              ("created", created); ("updated", updated);
                              ("comments", VList comments)])))
    handlers.

(** [fields[k] = v] when the optional argument is not [None]. *)
Definition set_if {A} (k : string) (o : option A) (v : A -> value) (d : dict)
  : dict :=
  match o with
  | Some a => dict_set k (v a) d
  | None => d
  end.

(** [if custom_fields: fields.update(custom_fields)] *)
Definition update_if (custom_fields : option dict) (d : dict) : dict :=
  match custom_fields with
  | Some (kv :: more) => dict_update d (kv :: more)
  | _ => d
  end.

Definition named (name : string) : value := VDict [("name", VStr name)].

Definition labels_value (labels : list string) : value := VList (map VStr labels).

(** The fields object of [jira_create_issue]. *)
Definition create_fields (project_key summary issue_type : string)
    (description priority assignee : option string)
    (labels : option (list string)) (custom_fields : option dict) : dict :=
  let fields : dict :=
    [("project", VDict [("key", VStr project_key)]);
     ("summary", VStr summary);
     ("issuetype", VDict [("name", VStr issue_type)])] in
  let fields := set_if "description" description VStr fields in
  let fields := set_if "priority" priority named fields in
  let fields := set_if "assignee" assignee named fields in
  let fields := set_if "labels" labels labels_value fields in
  update_if custom_fields fields.

(** [jira_create_issue] *)
Definition jira_create_issue (project_key summary issue_type : string)
    (description priority assignee : option string)
    (labels : option (list string)) (custom_fields : option dict)
    (verify_ssl : option bool) : M value :=
  _ <- _detect_api_version verify_ssl ;;
  let fields := create_fields project_key summary issue_type
                  description priority assignee labels custom_fields in
  try_except
    (resp <- _jira_request "POST" "/rest/api/2/issue" verify_ssl
               (with_json (VDict [("fields", VDict fields)])) ;;
     if negb (ok resp) then ret (_resp_err "Failed to create issue" resp)
     else
       lift (let! data := json resp in
             let! key := py_get data "key" VNone in
             let! id := py_get data "id" VNone in
             let! self := py_get data "self" VNone in
             Returned (VDict [("success", VBool true); ("key", key);
                              ("id", id); ("self", self)])))
    handlers.

(** The fields object of [jira_update_issue]. *)
Definition update_fields (summary description assignee : option string)
    (labels : option (list string)) (priority : option string)
    (custom_fields : option dict) : dict :=
  let fields : dict := [] in
  let fields := set_if "summary" summary VStr fields in
  let fields := set_if "description" description VStr fields in
  let fields := set_if "assignee" assignee named fields in
  let fields := set_if "labels" labels labels_value fields in
  let fields := set_if "priority" priority named fields in
  update_if custom_fields fields.

(** [jira_update_issue] *)
Definition jira_update_issue (issue_key : string)
    (summary description assignee : option string)
    (labels : option (list string)) (priority : option string)
    (custom_fields : option dict) (verify_ssl : option bool) : M value :=
  _ <- _detect_api_version verify_ssl ;;
  let fields := update_fields summary description assignee labels priority
                  custom_fields in
  if negb (truthy (VDict fields)) then ret (_err "No fields to update.")
  else
    try_except
      (resp <- _jira_request "PUT" ("/rest/api/2/issue/" ++ issue_key)
                 verify_ssl (with_json (VDict [("fields", VDict fields)])) ;;
       if negb (ok resp) then ret (_resp_err "Failed to update issue" resp)
       else ret (VDict [("success", VBool true); ("key", VStr issue_key)]))
      handlers.

(** [jira_add_comment] *)
Definition jira_add_comment (issue_key body : string)
    (verify_ssl : option bool) : M value :=
  _ <- _detect_api_version verify_ssl ;;
  try_except
    (resp <- _jira_request "POST" ("/rest/api/2/issue/" ++ issue_key ++ "/comment")
               verify_ssl (with_json (VDict [("body", VStr body)])) ;;
     if negb (ok resp) then ret (_resp_err "Failed to add comment" resp)
     else
       lift (let! data := json resp in
             let! id := py_get data "id" VNone in
             let! author := py_get data "author" (VDict []) in
             let! name := py_get author "displayName" VNone in
             let! body := py_get data "body" VNone in
             let! created := py_get data "created" VNone in
             Returned (VDict [("success", VBool true); ("id", id);
                              ("author", name); ("body", body);
                              ("created", created)])))
    handlers.

(** The loop of [jira_transition_issue]: the first transition whose name,
    in lower case, is [target]; [None] when the loop ends without one. *)
Fixpoint find_transition (target : string) (transitions : list value)
  : outcome value :=
  match transitions with
  | [] => Returned VNone
  | t :: rest =>
      let! name := py_get t "name" (VStr "") in
      let! low := py_lower name in
      if String.eqb low target then Returned t
      else find_transition target rest
  end.

(** The [try] statement of [jira_transition_issue]. *)
Definition transition_steps (issue_key transition_name : string)
    (verify_ssl : option bool) : M value :=
  try_except
    (resp <- _jira_request "GET" ("/rest/api/2/issue/" ++ issue_key ++ "/transitions")
               verify_ssl no_kwargs ;;
     if negb (ok resp) then ret (_resp_err "Failed to get transitions" resp)
     else
       data <- lift (json resp) ;;
       transitions <- lift (py_get data "transitions" (VList [])) ;;
       let target := PyStr.lower transition_name in
       matched <- lift (let! ts := py_iter transitions in
                        find_transition target ts) ;;
       if negb (truthy matched) then
         available <- lift (let! ts := py_iter transitions in
                            map_o (fun t => py_get t "name" VNone) ts) ;;
         ret (_err ("Transition '" ++ transition_name ++ "' not found. "
                    ++ "Available: " ++ py_repr (VList available)))
       else
         id <- lift (py_item matched "id") ;;
         resp <- _jira_request "POST"
                   ("/rest/api/2/issue/" ++ issue_key ++ "/transitions")
                   verify_ssl
                   (with_json (VDict [("transition", VDict [("id", id)])])) ;;
         if negb (ok resp) then ret (_resp_err "Failed to transition" resp)
         else
           lift (let! name := py_get matched "name" VNone in
                 let! to := py_get matched "to" (VDict []) in
                 let! to_status := py_get to "name" VNone in
                 Returned (VDict [("success", VBool true);
                                  ("key", VStr issue_key);
                                  ("transition", name);
                                  ("to_status", to_status)])))
    handlers.

(** [jira_transition_issue] *)
Definition jira_transition_issue (issue_key transition_name : string)
    (verify_ssl : option bool) : M value :=
  _ <- _detect_api_version verify_ssl ;;
  transition_steps issue_key transition_name verify_ssl.

End Tools.
End jira_tools.

(** ** The tools as one interface *)

Section Calls.
Context {F : PyFloat}.

Inductive service := Confluence | Jira.

(** A call of one of the ten tool operations, with its arguments. *)
Inductive tool_call :=
| ConfluenceSearch (query : string) (max_results : Z)
    (space_key : option string) (verify_ssl : option bool)
| ConfluenceGetPage (page_id title space_key : option string)
    (verify_ssl : option bool)
| ConfluenceCreatePage (space_key title body : string)
    (parent_id : option string) (verify_ssl : option bool)
| ConfluenceUpdatePage (page_id title body : string)
    (version_comment : option string) (verify_ssl : option bool)
| JiraSearch (jql : string) (max_results : Z) (fields : option (list string))
    (verify_ssl : option bool)
| JiraGetIssue (issue_key : string) (expand : option string)
    (verify_ssl : option bool)
| JiraCreateIssue (project_key summary issue_type : string)
    (description priority assignee : option string)
    (labels : option (list string)) (custom_fields : option dict)
    (verify_ssl : option bool)
| JiraUpdateIssue (issue_key : string)
    (summary description assignee : option string)
    (labels : option (list string)) (priority : option string)
    (custom_fields : option dict) (verify_ssl : option bool)
| JiraAddComment (issue_key body : string) (verify_ssl : option bool)
| JiraTransitionIssue (issue_key transition_name : string)
    (verify_ssl : option bool).

Definition call (c : tool_call) : M value :=
  match c with
  | ConfluenceSearch q n k v => confluence_tools.confluence_search q n k v
  | ConfluenceGetPage p t k v => confluence_tools.confluence_get_page p t k v
  | ConfluenceCreatePage k t b p v =>
      confluence_tools.confluence_create_page k t b p v
  | ConfluenceUpdatePage p t b c v =>
      confluence_tools.confluence_update_page p t b c v
  | JiraSearch q n f v => jira_tools.jira_search q n f v
  | JiraGetIssue k e v => jira_tools.jira_get_issue k e v
  | JiraCreateIssue k s t d p a l c v =>
      jira_tools.jira_create_issue k s t d p a l c v
  | JiraUpdateIssue k s d a l p c v =>
      jira_tools.jira_update_issue k s d a l p c v
  | JiraAddComment k b v => jira_tools.jira_add_comment k b v
  | JiraTransitionIssue k t v => jira_tools.jira_transition_issue k t v
  end.

Definition service_of (c : tool_call) : service :=
  match c with
  | ConfluenceSearch _ _ _ _ | ConfluenceGetPage _ _ _ _
  | ConfluenceCreatePage _ _ _ _ _ | ConfluenceUpdatePage _ _ _ _ _ => Confluence
  | _ => Jira
  end.

Definition is_configured (sv : service) (s : Settings) : bool :=
  match sv with
  | Confluence => has_confluence s
  | Jira => has_jira s
  end.

Definition not_configured_msg (sv : service) : string :=
  match sv with
  | Confluence => confluence_tools._NOT_CONFIGURED_MSG
  | Jira => jira_tools._NOT_CONFIGURED_MSG
  end.

Definition configure (sv : service) (url username password : string) : M value :=
  match sv with
  | Confluence => confluence_tools.confluence_configure url username password
  | Jira => jira_tools.jira_configure url username password
  end.

(** No optional field of [jira_update_issue] is supplied. *)
Definition nothing_to_update (summary description assignee : option string)
    (labels : option (list string)) (priority : option string)
    (custom_fields : option dict) : bool :=
  match summary, description, assignee, labels, priority, custom_fields with
  | None, None, None, None, None, (None | Some []) => true
  | _, _, _, _, _, _ => false
  end.

(** The calls that are turned down for their arguments, with the message. *)
Definition rejected (c : tool_call) : option string :=
  match c with
  | ConfluenceGetPage page_id title space_key _ =>
      if given page_id || (given title && given space_key) then None
      else Some "Provide either page_id or both title and space_key."
  | JiraUpdateIssue _ s d a l p cf _ =>
      if nothing_to_update s d a l p cf then Some "No fields to update."
      else None
  | _ => None
  end.

(** The calls whose arguments Python can print: all but a
    [confluence_search] whose [max_results] has more than 4300 digits,
    for which [str(max_results)] raises before the [try] statement. *)
Definition limit_fits (c : tool_call) : bool :=
  match c with
  | ConfluenceSearch _ max_results _ _ => PyStr.fits_str max_results
  | _ => true
  end.

(** The API paths a call can ask for. *)
Definition api_paths (c : tool_call) : list string :=
  match c with
  | ConfluenceSearch _ _ _ _ => ["/rest/api/content/search"]
  | ConfluenceGetPage p _ _ _ => ["/rest/api/content/" ++ fmt p; "/rest/api/content"]
  | ConfluenceCreatePage _ _ _ _ _ => ["/rest/api/content"]
  | ConfluenceUpdatePage p _ _ _ _ => ["/rest/api/content/" ++ p]
  | JiraSearch _ _ _ _ => ["/rest/api/2/serverInfo"; "/rest/api/2/search"]
  | JiraGetIssue k _ _ => ["/rest/api/2/serverInfo"; "/rest/api/2/issue/" ++ k]
  | JiraCreateIssue _ _ _ _ _ _ _ _ _ => ["/rest/api/2/serverInfo"; "/rest/api/2/issue"]
  | JiraUpdateIssue k _ _ _ _ _ _ _ => ["/rest/api/2/serverInfo"; "/rest/api/2/issue/" ++ k]
  | JiraAddComment k _ _ =>
      ["/rest/api/2/serverInfo"; "/rest/api/2/issue/" ++ k ++ "/comment"]
  | JiraTransitionIssue k _ _ =>
      ["/rest/api/2/serverInfo"; "/rest/api/2/issue/" ++ k ++ "/transitions"]
  end.

(** The calls of [requests.request] made between two states. *)
Definition sent_since (w w' : world) : list request :=
  skipn (List.length (sent w)) (sent w').

(** The request [r] goes to [url], without its trailing slashes, followed
    by an API path of the call [c], and carries the Basic credentials
    [username], [password]. *)
Definition addressed (url username password : string) (c : tool_call)
    (r : request) : Prop :=
  exists path, In path (api_paths c) /\
    req_url r = PyStr.rstrip_slash url ++ path /\
    req_auth r = (Some username, Some password).

(** Started with the settings [s], the computation [m] keeps them and
    adds to the log only requests that satisfy [Q]. *)
Definition issues (s : Settings) (Q : request -> Prop) {A} (m : M A) : Prop :=
  forall w, settings w = s ->
    exists l, sent (snd (m w)) = (sent w ++ l)%list /\ Forall Q l /\
              settings (snd (m w)) = s.

(** The request [_confluence_request] hands to [requests.request] when
    Confluence is configured. *)
Definition confluence_request_of (s : Settings) (method path : string)
    (verify_ssl : option bool) (kw : kwargs) : request :=
  {| req_method := method;
     req_url := PyStr.rstrip_slash (fmt (confluence_url s)) ++ path;
     req_auth := (confluence_username s, confluence_password s);
     req_headers := json_headers kw;
     req_verify := match verify_ssl with
                   | None => confluence_verify_ssl s
                   | Some b => b
                   end;
     req_timeout := 30;
     req_params := kw_params kw;
     req_json := kw_json kw |}.

(** The request [_jira_request] hands to [requests.request] when JIRA is
    configured. *)
Definition jira_request_of (s : Settings) (method path : string)
    (verify_ssl : option bool) (kw : kwargs) : request :=
  {| req_method := method;
     req_url := PyStr.rstrip_slash (fmt (jira_url s)) ++ path;
     req_auth := (jira_username s, jira_password s);
     req_headers := json_headers kw;
     req_verify := match verify_ssl with
                   | None => jira_verify_ssl s
                   | Some b => b
                   end;
     req_timeout := 30;
     req_params := kw_params kw;
     req_json := kw_json kw |}.

(** The request of the API-version probe. *)
Definition probe_request (s : Settings) (verify_ssl : option bool) : request :=
  jira_request_of s "GET" "/rest/api/2/serverInfo" verify_ssl no_kwargs.

(** The probe sends its request when JIRA is configured and no version
    is cached. *)
Definition probes (w : world) : bool :=
  has_jira (settings w) &&
  match _api_version w with None => true | Some _ => false end.

(** The state the probe leaves. *)
Definition after_probe (verify_ssl : option bool) (w : world) : world :=
  {| settings := settings w;
     _api_version := match _api_version w with
                     | None => Some "2"
                     | Some v => Some v
                     end;
     sent := if probes w then sent w ++ [probe_request (settings w) verify_ssl]
             else sent w;
     transport := transport w |}.

End Calls.

(** ** Notions the properties are stated with *)

Section Statements.
Context {F : PyFloat}.

Definition any_request : request -> Prop := fun _ => True.

Definition no_request : request -> Prop := fun _ => False.

(** The message of the title lookup that finds nothing. *)
Definition no_page_found (title space_key : string) : string :=
  "No page found with title '" ++ title ++ "' in space '" ++ space_key ++ "'.".

(** The request that reads the current version of the page. *)
Definition version_request (s : Settings) (page_id : string)
    (verify_ssl : option bool) : request :=
  confluence_request_of s "GET" ("/rest/api/content/" ++ page_id) verify_ssl
    (with_params [("expand", "version")]).

(** The state after one more request. *)
Definition logged (r : request) (w : world) : world :=
  {| settings := settings w; _api_version := _api_version w;
     sent := (sent w ++ [r])%list; transport := transport w |}.

(** The calls whose first request of their own has its response body
    decoded: all but [jira_update_issue]. *)
Definition decodes (c : tool_call) : bool :=
  match c with
  | JiraUpdateIssue _ _ _ _ _ _ _ _ => false
  | _ => true
  end.

(** The verify_ssl argument of a call. *)
Definition verify_of (c : tool_call) : option bool :=
  match c with
  | ConfluenceSearch _ _ _ v | ConfluenceGetPage _ _ _ v
  | ConfluenceCreatePage _ _ _ _ v | ConfluenceUpdatePage _ _ _ _ v
  | JiraSearch _ _ _ v | JiraGetIssue _ _ v
  | JiraCreateIssue _ _ _ _ _ _ _ _ v | JiraUpdateIssue _ _ _ _ _ _ _ v
  | JiraAddComment _ _ v | JiraTransitionIssue _ _ v => v
  end.

(** The state in which a tool sends the first request of its own: for a
    JIRA tool, the state the probe leaves. *)
Definition at_own_request (c : tool_call) (w : world) : world :=
  match service_of c with
  | Confluence => w
  | Jira => snd (jira_tools._detect_api_version (verify_of c) w)
  end.

(** The request that lists the transitions of an issue. *)
Definition transitions_request (s : Settings) (issue_key : string)
    (verify_ssl : option bool) : request :=
  jira_request_of s "GET" ("/rest/api/2/issue/" ++ issue_key ++ "/transitions")
    verify_ssl no_kwargs.

(** The request that executes the transition [id]. *)
Definition transition_post (s : Settings) (issue_key : string)
    (verify_ssl : option bool) (id : value) : request :=
  jira_request_of s "POST" ("/rest/api/2/issue/" ++ issue_key ++ "/transitions")
    verify_ssl (with_json (VDict [("transition", VDict [("id", id)])])).

(** The name of [t], as the loop reads it, is [transition_name] up to
    case. *)
Definition named_like (transition_name : string) (t : value) : Prop :=
  exists name, py_get t "name" (VStr "") = Returned (VStr name) /\
               PyStr.lower name = PyStr.lower transition_name.

(** [t] is an object whose name is the str [name]. *)
Definition has_name (t : value) (name : string) : Prop :=
  exists d, t = VDict d /\ dict_lookup "name" d = Some (VStr name).

(** The message for a transition name that is not in the listing, with
    the names of the listing. *)
Definition transition_not_found (transition_name : string)
    (names : list string) : string :=
  "Transition '" ++ transition_name ++ "' not found. Available: ["
  ++ PyStr.join ", " (map PyStr.repr_str names) ++ "]".

(** The state in which a JIRA tool goes on after the probe. *)
Definition probed (verify_ssl : option bool) (w : world) : world :=
  snd (jira_tools._detect_api_version verify_ssl w).

End Statements.

(** ** States and replies used in examples *)

(** JSON bodies without floats. *)
Definition no_float : PyFloat :=
  {| float := Empty_set;
     float_bool := fun _ => false;
     float_add_int := fun x _ => x;
     float_repr := fun _ => "" |}.

Section Examples.
#[local] Existing Instance no_float.

Definition blank_settings : Settings :=
  {| confluence_url := None; confluence_username := None;
     confluence_password := None; confluence_verify_ssl := true;
     jira_url := None; jira_username := None; jira_password := None;
     jira_verify_ssl := true |}.

Definition example_settings : Settings :=
  {| confluence_url := Some "https://wiki.example.com";
     confluence_username := Some "alice";
     confluence_password := Some "s3cret"; confluence_verify_ssl := true;
     jira_url := Some "https://jira.example.com";
     jira_username := Some "alice"; jira_password := Some "s3cret";
     jira_verify_ssl := true |}.

(** A response as [requests] builds it: [ok] unless the status is a
    client or server error. *)
Definition respond (code : Z) (body : string) (decoded : option value) : reply :=
  Replies {| status_code := code;
             ok := negb ((400 <=? code) && (code <? 600));
             text := body; resp_json := decoded |}.

(** Nothing configured, nothing sent; every request would get an empty
    JSON object. *)
Definition fresh_world : world :=
  {| settings := blank_settings; _api_version := None; sent := [];
     transport := fun _ => respond 200 "{}" (Some (VDict [])) |}.

(** Both services configured, no version cached, and the given replies. *)
Definition world_with (replies : nat -> reply) : world :=
  {| settings := example_settings; _api_version := None; sent := [];
     transport := replies |}.

(** The server answers 204 with an empty body, which is not valid JSON. *)
Definition no_content : nat -> reply := fun _ => respond 204 "" None.

(** The server answers 404 to everything. *)
Definition not_found : nat -> reply :=
  fun _ => respond 404 "Not Found" None.

(** The title lookup finds no page. *)
Definition empty_listing : nat -> reply :=
  fun _ => respond 200 ("{" ++ quoted "results" ++ ": []}")
             (Some (VDict [("results", VList [])])).

Definition to_do : value := VDict [("id", VStr "11"); ("name", VStr "To Do")].

Definition done : value :=
  VDict [("id", VStr "31"); ("name", VStr "Done");
         ("to", VDict [("name", VStr "Done")])].

Definition listing : value := VDict [("transitions", VList [to_do; done])].

Definition listing_text : string :=
  "{" ++ quoted "transitions" ++ ": [{" ++ quoted "id" ++ ": " ++ quoted "11"
  ++ ", " ++ quoted "name" ++ ": " ++ quoted "To Do" ++ "}, {" ++ quoted "id"
  ++ ": " ++ quoted "31" ++ ", " ++ quoted "name" ++ ": " ++ quoted "Done"
  ++ ", " ++ quoted "to" ++ ": {" ++ quoted "name" ++ ": " ++ quoted "Done"
  ++ "}}]}".

(** The probe gets 204, the GET the listing, the POST 204. *)
Definition listing_replies : nat -> reply := fun n =>
  match n with
  | 1%nat => respond 200 listing_text (Some listing)
  | _ => respond 204 "" None
  end.

(** A page as the content endpoint returns it. *)
Definition page_4711 : value :=
  VDict [("id", VStr "4711"); ("title", VStr "Runbook");
         ("space", VDict [("key", VStr "DEV")]);
         ("version", VDict [("number", VInt 7)]);
         ("body", VDict [("storage", VDict [("value", VStr hello_world_html)])]);
         ("_links", VDict [("webui", VStr "/display/DEV/Runbook")])].

(** Two issues as the search endpoint returns them, the second without
    an assignee. *)
Definition found_issues : value :=
  VDict [("total", VInt 2);
         ("issues",
          VList [VDict [("key", VStr "PROJ-1");
                        ("fields",
                         VDict [("summary", VStr "First");
                                ("status", VDict [("name", VStr "Open")]);
                                ("assignee",
                                 VDict [("displayName", VStr "Alice")])])];
                 VDict [("key", VStr "PROJ-2");
                        ("fields",
                         VDict [("summary", VStr "Second");
                                ("status", VDict [("name", VStr "Done")]);
                                ("assignee", VNone)])]])].

End Examples.

(** ** Notions for the properties of whole tools *)

Section Outcomes.
Context {F : PyFloat}.

(** Every value the computation [m] returns satisfies [P]. *)
Definition returns {A} (P : A -> Prop) (m : M A) : Prop :=
  forall w a w', m w = (Returned a, w') -> P a.

(** Every exception the computation [m] raises satisfies [P]. *)
Definition raises {A} (P : exn -> Prop) (m : M A) : Prop :=
  forall w e w', m w = (Raised e, w') -> P e.

(** The computation [m] keeps the log and adds at most [n] requests. *)
Definition at_most (n : nat) {A} (m : M A) : Prop :=
  forall w, exists l, sent (snd (m w)) = (sent w ++ l)%list /\
                      (List.length l <= n)%nat.

(** An exception neither [except] clause of the tools catches. *)
Definition unhandled (e : exn) : Prop :=
  is_ValueError e = false /\ is_RequestException e = false.

End Outcomes.

Section Limits.
Context {F : PyFloat}.

(** The number of requests of its own a tool can send: two for the tools
    that read before they write, one for the others. *)
Definition own_requests (c : tool_call) : nat :=
  match c with
  | ConfluenceUpdatePage _ _ _ _ _ | JiraTransitionIssue _ _ _ => 2
  | _ => 1
  end.

(** The requests of the probe a call starts with: one for a JIRA tool
    when the probe has to run. *)
Definition probe_requests (c : tool_call) (w : world) : nat :=
  match service_of c with
  | Confluence => 0
  | Jira => if probes w then 1 else 0
  end.

End Limits.

Section Failures.
Context {F : PyFloat}.

(** The label a tool puts on a response to its first request that is not
    a success. *)
Definition failure_label (c : tool_call) : string :=
  match c with
  | ConfluenceSearch _ _ _ _ => "Confluence search failed"
  | ConfluenceGetPage _ _ _ _ => "Failed to get page"
  | ConfluenceCreatePage _ _ _ _ _ => "Failed to create page"
  | ConfluenceUpdatePage _ _ _ _ _ => "Failed to get page version"
  | JiraSearch _ _ _ _ => "JIRA search failed"
  | JiraGetIssue _ _ _ => "Failed to get issue"
  | JiraCreateIssue _ _ _ _ _ _ _ _ _ => "Failed to create issue"
  | JiraUpdateIssue _ _ _ _ _ _ _ _ => "Failed to update issue"
  | JiraAddComment _ _ _ => "Failed to add comment"
  | JiraTransitionIssue _ _ _ => "Failed to get transitions"
  end.

Definition service_name (sv : service) : string :=
  match sv with
  | Confluence => "Confluence"
  | Jira => "JIRA"
  end.

(** What the two [except] clauses of a tool of the service [sv] make of
    the exception [e]. *)
Definition handled (sv : service) (e : exn) : outcome value :=
  if is_ValueError e then Returned (_err (not_configured_msg sv))
  else if is_RequestException e
       then Returned (_err (service_name sv ++ " request error: " ++ exn_msg e))
       else Raised e.

End Failures.

Section MoreExamples.
#[local] Existing Instance no_float.

(** Every request runs into the timeout. *)
Definition timed_out : nat -> reply :=
  fun _ => Fails {| exn_class_of := RequestException; exn_msg := "Read timed out." |}.

End MoreExamples.

Section Frames.
Context {F : PyFloat}.

(** The headers of every request: the two defaults of the request
    builders, which no tool overrides. *)
Definition default_headers : list (string * string) :=
  [("Content-Type", "application/json"); ("Accept", "application/json")].

(** Certificate verification for a call: its verify_ssl argument, or the
    setting of its service when the argument is [None]. *)
Definition verify_for (c : tool_call) (s : Settings) : bool :=
  match verify_of c with
  | Some b => b
  | None => match service_of c with
            | Confluence => confluence_verify_ssl s
            | Jira => jira_verify_ssl s
            end
  end.

(** The HTTP methods a call uses. *)
Definition methods (c : tool_call) : list string :=
  match c with
  | ConfluenceSearch _ _ _ _ | ConfluenceGetPage _ _ _ _ => ["GET"]
  | ConfluenceCreatePage _ _ _ _ _ => ["POST"]
  | ConfluenceUpdatePage _ _ _ _ _ => ["GET"; "PUT"]
  | JiraGetIssue _ _ _ => ["GET"]
  | JiraUpdateIssue _ _ _ _ _ _ _ _ => ["GET"; "PUT"]
  | _ => ["GET"; "POST"]
  end.

(** What every request of the call [c] under the settings [s] has. *)
Definition well_formed (c : tool_call) (s : Settings) (r : request) : Prop :=
  req_timeout r = 30 /\
  req_headers r = default_headers /\
  req_verify r = verify_for c s /\
  In (req_method r) (methods c) /\
  (req_params r = None \/ req_json r = None).

(** The version the probe leaves in the cache. *)
Definition cached_version (w : world) : string :=
  match _api_version w with
  | Some v => v
  | None => "2"
  end.

(** The computation [m] changes nothing but the log of requests. *)
Definition only_logs {A} (m : M A) : Prop :=
  forall w, settings (snd (m w)) = settings w /\
            _api_version (snd (m w)) = _api_version w /\
            transport (snd (m w)) = transport w.

End Frames.

Section OwnRequests.
Context {F : PyFloat}.

(** The API path of the requests of a tool's own. *)
Definition own_path (c : tool_call) : string := last (api_paths c) "".

(** The URL of the API-version probe. *)
Definition probe_url (s : Settings) : string :=
  PyStr.rstrip_slash (fmt (jira_url s)) ++ "/rest/api/2/serverInfo".

(** The request [r] of the JIRA call [c] goes to the path of the tool's
    own, which is not the probe's. *)
Definition own_request (c : tool_call) (s : Settings) (r : request) : Prop :=
  req_url r = PyStr.rstrip_slash (fmt (jira_url s)) ++ own_path c /\
  req_url r <> probe_url s.

End OwnRequests.

Section UpdatePage.
Context {F : PyFloat}.

(** The JSON body of the PUT of [confluence_update_page], written out. *)
Definition update_body (title body : string) (number : Z)
    (version_comment : option string) : value :=
  VDict [("type", VStr "page"); ("title", VStr title);
         ("body", VDict [("storage", VDict [("value", VStr body);
                                            ("representation", VStr "storage")])]);
         ("version",
          VDict (("number", VInt number)
                 :: match version_comment with
                    | Some (String c rest) => [("message", VStr (String c rest))]
                    | _ => []
                    end))].

(** The request that writes the page. *)
Definition update_request (s : Settings) (page_id title body : string)
    (number : Z) (version_comment : option string) (verify_ssl : option bool)
  : request :=
  confluence_request_of s "PUT" ("/rest/api/content/" ++ page_id) verify_ssl
    (with_json (update_body title body number version_comment)).

(** The JSON values Python has no [+ 1] for: null, strings, arrays and
    objects. *)
Definition not_a_number (v : value) : Prop :=
  match v with
  | VNone | VStr _ | VList _ | VDict _ => True
  | VBool _ | VInt _ | VFloat _ => False
  end.

End UpdatePage.

Section VersionReplies.
#[local] Existing Instance no_float.

(** The version is read from a page that carries none; the write is
    accepted. *)
Definition bare_page_replies : nat -> reply :=
  fun _ => respond 200 "{}" (Some (VDict [])).

(** The version number comes as a string. *)
Definition string_version_replies : nat -> reply :=
  fun _ => respond 200 ""
             (Some (VDict [("version", VDict [("number", VStr "7")])])).

End VersionReplies.

Section PageResults.
Context {F : PyFloat}.

(** What [confluence_get_page] returns: an error, or the page with its
    body as stored and as plain text. *)
Definition page_result (v : value) : Prop :=
  (exists msg, v = _err msg) \/
  (exists id title space_key version html url,
     v = VDict [("success", VBool true); ("id", id); ("title", title);
                ("space_key", space_key); ("version", version);
                ("body_html", VStr html);
                ("body_text", VStr (_strip_html_tags html)); ("url", url)]).

End PageResults.

Section FirstRequests.
Context {F : PyFloat}.

(** The page object [confluence_create_page] posts. *)
Definition create_page_body (space_key title body : string)
    (parent_id : option string) : value :=
  VDict ([("type", VStr "page"); ("title", VStr title);
          ("space", VDict [("key", VStr space_key)]);
          ("body", VDict [("storage", VDict [("value", VStr body);
                                             ("representation", VStr "storage")])])]
         ++ match parent_id with
            | Some (String c rest) =>
                [("ancestors", VList [VDict [("id", VStr (String c rest))]])]
            | _ => []
            end).

(** The first request of a call's own, for a call that is not turned
    down: method, path, verification, and the query parameters or the
    JSON body. *)
Definition first_request (c : tool_call) (s : Settings) : request :=
  match c with
  | ConfluenceSearch query max_results space_key v =>
      confluence_request_of s "GET" "/rest/api/content/search" v
        (with_params [("cql", confluence_tools.search_cql query space_key);
                      ("limit", PyStr.str_of_int max_results);
                      ("expand", "metadata.labels")])
  | ConfluenceGetPage page_id title space_key v =>
      if given page_id
      then confluence_request_of s "GET" ("/rest/api/content/" ++ fmt page_id) v
             (with_params [("expand", "body.storage,version,space")])
      else confluence_request_of s "GET" "/rest/api/content" v
             (with_params [("title", fmt title); ("spaceKey", fmt space_key);
                           ("expand", "body.storage,version,space");
                           ("limit", "1")])
  | ConfluenceCreatePage space_key title body parent_id v =>
      confluence_request_of s "POST" "/rest/api/content" v
        (with_json (create_page_body space_key title body parent_id))
  | ConfluenceUpdatePage page_id _ _ _ v =>
      confluence_request_of s "GET" ("/rest/api/content/" ++ page_id) v
        (with_params [("expand", "version")])
  | JiraSearch jql max_results fields v =>
      jira_request_of s "POST" "/rest/api/2/search" v
        (with_json
           (VDict [("jql", VStr jql); ("maxResults", VInt max_results);
                   ("fields",
                    VList (map VStr
                             match fields with
                             | Some l => l
                             | None => ["key"; "summary"; "status"; "assignee";
                                        "priority"; "created"; "updated"]
                             end))]))
  | JiraGetIssue issue_key expand v =>
      jira_request_of s "GET" ("/rest/api/2/issue/" ++ issue_key) v
        (with_params match expand with
                     | Some (String c rest) => [("expand", String c rest)]
                     | _ => []
                     end)
  | JiraCreateIssue project_key summary issue_type description priority
      assignee labels custom_fields v =>
      jira_request_of s "POST" "/rest/api/2/issue" v
        (with_json
           (VDict [("fields",
                    VDict (jira_tools.create_fields project_key summary
                             issue_type description priority assignee labels
                             custom_fields))]))
  | JiraUpdateIssue issue_key summary description assignee labels priority
      custom_fields v =>
      jira_request_of s "PUT" ("/rest/api/2/issue/" ++ issue_key) v
        (with_json
           (VDict [("fields",
                    VDict (jira_tools.update_fields summary description
                             assignee labels priority custom_fields))]))
  | JiraAddComment issue_key body v =>
      jira_request_of s "POST" ("/rest/api/2/issue/" ++ issue_key ++ "/comment") v
        (with_json (VDict [("body", VStr body)]))
  | JiraTransitionIssue issue_key _ v =>
      jira_request_of s "GET" ("/rest/api/2/issue/" ++ issue_key ++ "/transitions")
        v no_kwargs
  end.

End FirstRequests.

Section Fields.
Context {F : PyFloat}.

(** The value [custom_fields] gives the key [k]: its last binding in the
    list (a dict binds a key once). *)
Definition custom_field (custom_fields : option dict) (k : string)
  : option value :=
  match custom_fields with
  | Some cf => dict_lookup k (rev cf)
  | None => None
  end.

(** The fields [jira_create_issue] builds from its own arguments, by
    key. *)
Definition create_field (project_key summary issue_type : string)
    (description priority assignee : option string)
    (labels : option (list string)) (k : string) : option value :=
  if String.eqb "project" k then Some (VDict [("key", VStr project_key)])
  else if String.eqb "summary" k then Some (VStr summary)
  else if String.eqb "issuetype" k then Some (VDict [("name", VStr issue_type)])
  else if String.eqb "description" k then option_map VStr description
  else if String.eqb "priority" k
       then option_map (fun p => VDict [("name", VStr p)]) priority
  else if String.eqb "assignee" k
       then option_map (fun a => VDict [("name", VStr a)]) assignee
  else if String.eqb "labels" k
       then option_map (fun l => VList (map VStr l)) labels
  else None.

(** The fields [jira_update_issue] builds from its own arguments, by
    key. *)
Definition update_field (summary description assignee : option string)
    (labels : option (list string)) (priority : option string) (k : string)
  : option value :=
  if String.eqb "summary" k then option_map VStr summary
  else if String.eqb "description" k then option_map VStr description
  else if String.eqb "assignee" k
       then option_map (fun a => VDict [("name", VStr a)]) assignee
  else if String.eqb "labels" k
       then option_map (fun l => VList (map VStr l)) labels
  else if String.eqb "priority" k
       then option_map (fun p => VDict [("name", VStr p)]) priority
  else None.

End Fields.

Section TransitionReplies.
#[local] Existing Instance no_float.

(** A second transition with the name of [done], in another case. *)
Definition done_again : value := VDict [("id", VStr "41"); ("name", VStr "done")].

Definition listing_twice : value :=
  VDict [("transitions", VList [to_do; done; done_again])].

(** The probe gets 204, the GET the listing with two transitions named
    Done, the POST 204. *)
Definition listing_twice_replies : nat -> reply := fun n =>
  match n with
  | 1%nat => respond 200 "" (Some listing_twice)
  | _ => respond 204 "" None
  end.

End TransitionReplies.

Section SearchResults.
Context {F : PyFloat}.

(** [r] is the result [confluence_search] makes of [item]. *)
Definition search_result_of (item r : value) : Prop :=
  exists id title type space_key labels url,
    r = VDict [("id", id); ("title", title); ("type", type);
               ("space_key", space_key); ("labels", VList labels);
               ("url", url)] /\
    py_get item "id" VNone = Returned id /\
    py_get item "title" VNone = Returned title /\
    py_get item "type" VNone = Returned type.

(** [r] is the result [jira_search] makes of [issue]. *)
Definition issue_result_of (issue r : value) : Prop :=
  exists f key summary status assignee priority created updated,
    r = VDict [("key", key); ("summary", summary); ("status", status);
               ("assignee", assignee); ("priority", priority);
               ("created", created); ("updated", updated)] /\
    py_get issue "fields" (VDict []) = Returned f /\
    py_get issue "key" VNone = Returned key /\
    py_get f "summary" VNone = Returned summary /\
    jira_tools._get_nested f "status" "name" = Returned status /\
    jira_tools._get_nested f "assignee" "displayName" = Returned assignee /\
    jira_tools._get_nested f "priority" "name" = Returned priority /\
    py_get f "created" VNone = Returned created /\
    py_get f "updated" VNone = Returned updated.

(** The value of [key] in the object [d], or [default]. *)
Definition get_or (d : dict) (key : string) (default : value) : value :=
  match dict_lookup key d with
  | Some v => v
  | None => default
  end.

End SearchResults.

Section SearchReplies.
#[local] Existing Instance no_float.

(** One page of a search that found 25. *)
Definition found_page : value :=
  VDict [("id", VStr "4711"); ("title", VStr "Runbook"); ("type", VStr "page");
         ("space", VDict [("key", VStr "DEV")]);
         ("metadata",
          VDict [("labels", VDict [("results", VList [VDict [("name", VStr "ops")]])])]);
         ("_links", VDict [("webui", VStr "/display/DEV/Runbook")])].

Definition found_pages : dict :=
  [("totalSize", VInt 25); ("results", VList [found_page])].

Definition found_page_result : value :=
  VDict [("id", VStr "4711"); ("title", VStr "Runbook"); ("type", VStr "page");
         ("space_key", VStr "DEV"); ("labels", VList [VStr "ops"]);
         ("url", VStr "/display/DEV/Runbook")].

Definition issue_1 : value :=
  VDict [("key", VStr "PROJ-1");
         ("fields",
          VDict [("summary", VStr "First");
                 ("status", VDict [("name", VStr "Open")]);
                 ("assignee", VNone)])].

Definition issue_1_result : value :=
  VDict [("key", VStr "PROJ-1"); ("summary", VStr "First");
         ("status", VStr "Open"); ("assignee", VNone);
         ("priority", VNone); ("created", VNone); ("updated", VNone)].

End SearchReplies.

Section ResultKeys.
Context {F : PyFloat}.

(** The keys of the object a call returns on success, in their order. *)
Definition result_keys (c : tool_call) : list string :=
  match c with
  | ConfluenceSearch _ _ _ _ => ["success"; "total"; "results"]
  | ConfluenceGetPage _ _ _ _ =>
      ["success"; "id"; "title"; "space_key"; "version"; "body_html";
       "body_text"; "url"]
  | ConfluenceCreatePage _ _ _ _ _ => ["success"; "id"; "title"; "url"]
  | ConfluenceUpdatePage _ _ _ _ _ =>
      ["success"; "id"; "title"; "version"; "url"]
  | JiraSearch _ _ _ _ => ["success"; "total"; "issues"]
  | JiraGetIssue _ _ _ =>
      ["success"; "key"; "summary"; "description"; "status"; "assignee";
       "reporter"; "priority"; "issue_type"; "labels"; "created"; "updated";
       "comments"]
  | JiraCreateIssue _ _ _ _ _ _ _ _ _ => ["success"; "key"; "id"; "self"]
  | JiraUpdateIssue _ _ _ _ _ _ _ _ => ["success"; "key"]
  | JiraAddComment _ _ _ => ["success"; "id"; "author"; "body"; "created"]
  | JiraTransitionIssue _ _ _ => ["success"; "key"; "transition"; "to_status"]
  end.

(** [v] is the error envelope, or an object that starts with
    [success: True] and has exactly the keys [keys]. *)
Definition keyed (keys : list string) (v : value) : Prop :=
  (exists msg, v = _err msg) \/
  (exists rest, v = VDict (("success", VBool true) :: rest) /\
                "success" :: map fst rest = keys).

End ResultKeys.

(* ================================================================== *)
(** * Part II: properties                                              *)
(* ================================================================== *)

(** ** Strings *)

Example strip_ex1 : _strip_html_tags hello_world_html = hello_world_text.
Proof. reflexivity. Qed.
Example strip_ex2 : _strip_html_tags "a<BR  />b<br>c<H2 class=x>T</h2><b>x</b><>" =
   "a" ++ String PyStr.nl "b" ++ String PyStr.nl "cT" ++ String PyStr.nl "x<>".
Proof. reflexivity. Qed.
Example repr_ex : PyStr.repr_str "To Do" = "'To Do'" /\
  PyStr.repr_str "it's" = String PyStr.dquote ("it's" ++ String PyStr.dquote "").
Proof. split; reflexivity. Qed.

Module PyStrFacts.
Import PyStr.

Lemma rstrip_with_idem p s : rstrip_with p (rstrip_with p s) = rstrip_with p s.
Proof.
  induction s as [|c r IH]; simpl; [reflexivity|].
  destruct (rstrip_with p r) as [|c' r'] eqn:E.
  - destruct (p c) eqn:Hp; simpl; [reflexivity|]. now rewrite Hp.
  - simpl in *. rewrite IH. reflexivity.
Qed.

Lemma lstrip_with_head p s :
  match lstrip_with p s with
  | EmptyString => True
  | String c _ => p c = false
  end.
Proof.
  induction s as [|c r IH]; simpl; [exact I|].
  destruct (p c) eqn:Hp; [exact IH|exact Hp].
Qed.

Lemma lstrip_with_fix p s :
  match s with EmptyString => True | String c _ => p c = false end ->
  lstrip_with p s = s.
Proof. destruct s as [|c r]; simpl; [reflexivity|]. now intros ->. Qed.

Lemma rstrip_with_head p s :
  match s with EmptyString => True | String c _ => p c = false end ->
  match rstrip_with p s with
  | EmptyString => True
  | String c _ => p c = false
  end.
Proof.
  destruct s as [|c r]; simpl; [trivial|]. intros Hp.
  destruct (rstrip_with p r); [rewrite Hp|]; exact Hp.
Qed.

Lemma strip_idem s : strip (strip s) = strip s.
Proof.
  unfold strip.
  rewrite (lstrip_with_fix is_space (rstrip_with is_space _)).
  - apply rstrip_with_idem.
  - apply rstrip_with_head, lstrip_with_head.
Qed.

Lemma startswith_app p s : startswith p (p ++ s) = true.
Proof.
  induction p as [|a p IH]; simpl; [reflexivity|].
  now rewrite Ascii.eqb_refl, IH.
Qed.

Lemma contains_app_r p a s : contains p s = true -> contains p (a ++ s) = true.
Proof.
  induction a as [|c a IH]; simpl; [trivial|].
  intros H. rewrite (IH H). apply orb_true_r.
Qed.

Lemma contains_here p s : contains p (p ++ s) = true.
Proof.
  destruct (p ++ s) eqn:E; simpl; rewrite <- E, startswith_app; reflexivity.
Qed.

(** A string occurs in every text built around it. *)
Lemma contains_middle p a b : contains p (a ++ p ++ b) = true.
Proof. apply contains_app_r, contains_here. Qed.

End PyStrFacts.

(** ** The normalizer *)

Module ReFacts.
Import PyStr Re.
#[local] Arguments Ascii.eqb : simpl never.

Lemma chr_inv a s t : chr a s = Some t -> s = String a t.
Proof.
  destruct s as [|b r]; simpl; [discriminate|].
  destruct (Ascii.eqb_spec b a); [|discriminate]. now intros [= <-]; subst.
Qed.

Lemma mem_char_drop c n s : mem_char c (drop n s) = true -> mem_char c s = true.
Proof.
  revert s; induction n as [|n IH]; intros [|a r]; simpl; trivial.
  intros H. rewrite (IH _ H). apply orb_true_r.
Qed.

Lemma lit_ci_mem c lit s t :
  lit_ci lit s = Some t -> mem_char c t = true -> mem_char c s = true.
Proof.
  revert s; induction lit as [|a lit IH]; intros [|b r]; simpl;
    try discriminate; try (now intros [= <-]).
  destruct (Ascii.eqb (lower_char b) a); [|discriminate].
  intros H Ht. rewrite (IH _ H Ht). apply orb_true_r.
Qed.

Lemma heading_mem c s t :
  heading s = Some t -> mem_char c t = true -> mem_char c s = true.
Proof.
  destruct s as [|h [|d r]]; simpl; try discriminate.
  destruct (_ && _); [|discriminate]. intros [= <-] ->.
  now rewrite !orb_true_r.
Qed.

Lemma lower_char_gt x : Ascii.eqb x gt_c = true -> lower_char x = gt_c.
Proof. intros H. apply Ascii.eqb_eq in H. subst. reflexivity. Qed.

Lemma lit_ci_head a lit s t :
  Ascii.eqb gt_c a = false -> lit_ci (String a lit) s = Some t -> head_not_gt s.
Proof.
  intros Ha. destruct s as [|b r]; simpl; [discriminate|].
  destruct (Ascii.eqb (lower_char b) a) eqn:E; [|discriminate].
  intros _. destruct (Ascii.eqb b gt_c) eqn:Hb; [|reflexivity].
  rewrite (lower_char_gt _ Hb), Ha in E. discriminate.
Qed.

Lemma heading_head s t : heading s = Some t -> head_not_gt s.
Proof.
  destruct s as [|h [|d r]]; simpl; try discriminate.
  destruct (Ascii.eqb (lower_char h) "h") eqn:E; simpl; [|discriminate].
  intros _. destruct (Ascii.eqb h gt_c) eqn:Hb; [|reflexivity].
  rewrite (lower_char_gt _ Hb) in E. discriminate.
Qed.

Lemma lit_ci_names a lit :
  Ascii.eqb gt_c a = false -> names_tag (lit_ci (String a lit)).
Proof.
  intros Ha s t H. split.
  - eapply lit_ci_head; eassumption.
  - eapply lit_ci_mem; eassumption.
Qed.

Lemma block_tag_names : Forall names_tag block_tag.
Proof.
  unfold block_tag.
  repeat apply Forall_cons; try apply Forall_nil;
    try (apply lit_ci_names; reflexivity).
  intros s t H. split; [eapply heading_head|eapply heading_mem]; eassumption.
Qed.

(** What an alternation followed by [k] matches. *)
Lemma alt_names alts k :
  Forall names_tag alts ->
  (forall t r, k t = Some r -> mem_char gt_c t = true) ->
  forall s rest, alt alts k s = Some rest ->
  head_not_gt s /\ mem_char gt_c s = true.
Proof.
  intros Ha Hk s rest. induction Ha as [|a more Hn _ IH]; simpl; [discriminate|].
  destruct (a s) as [t|] eqn:E; [|exact IH].
  destruct (k t) eqn:K; [|exact IH].
  intros _. destruct (Hn _ _ E) as [H1 H2]. split; [exact H1|].
  apply H2. eapply Hk. exact K.
Qed.

Lemma alt_block_tag k s rest :
  (forall t r, k t = Some r -> mem_char gt_c t = true) ->
  alt block_tag k s = Some rest ->
  head_not_gt s /\ mem_char gt_c s = true.
Proof. intros Hk. apply alt_names; [apply block_tag_names|exact Hk]. Qed.

Lemma tag_start_intro s1 :
  head_not_gt s1 -> mem_char gt_c s1 = true -> tag_start (String lt_c s1) = true.
Proof.
  destruct s1 as [|x r]; simpl; [intros []|].
  intros Hx. rewrite Hx. simpl. trivial.
Qed.

Lemma chr_gt_mem t r : chr gt_c t = Some r -> mem_char gt_c t = true.
Proof. intros H. apply chr_inv in H. subst. reflexivity. Qed.

Lemma br_tag_start s rest : br_tag s = Some rest -> tag_start s = true.
Proof.
  unfold br_tag. destruct (chr lt_c s) as [s1|] eqn:E1; [|discriminate].
  apply chr_inv in E1. subst s.
  destruct (lit_ci "br" s1) as [s2|] eqn:E2; [|discriminate].
  intros H. apply tag_start_intro.
  - eapply lit_ci_head; [|exact E2]. reflexivity.
  - eapply lit_ci_mem; [exact E2|]. eapply mem_char_drop.
    destruct (chr slash _) as [s4|] eqn:E4.
    + destruct (chr gt_c s4) eqn:E5.
      * apply chr_inv in E4. rewrite E4. apply chr_gt_mem in E5.
        simpl. exact E5.
      * eapply chr_gt_mem; exact H.
    + eapply chr_gt_mem; exact H.
Qed.

Lemma block_close_start s rest : block_close s = Some rest -> tag_start s = true.
Proof.
  unfold block_close. destruct (chr lt_c s) as [s1|] eqn:E1; [|discriminate].
  apply chr_inv in E1. subst s.
  destruct (chr slash s1) as [s2|] eqn:E2; [|discriminate].
  apply chr_inv in E2. subst s1. intros H.
  apply alt_block_tag in H; [|apply chr_gt_mem]. destruct H as [_ H].
  simpl. exact H.
Qed.

Lemma block_open_start s rest : block_open s = Some rest -> tag_start s = true.
Proof.
  unfold block_open. destruct (chr lt_c s) as [s1|] eqn:E1; [|discriminate].
  apply chr_inv in E1. subst s. intros H.
  apply alt_block_tag in H.
  - destruct H. now apply tag_start_intro.
  - intros t r Hr. eapply mem_char_drop, chr_gt_mem, Hr.
Qed.

Lemma any_tag_start s rest : any_tag s = Some rest -> tag_start s = true.
Proof.
  unfold any_tag. destruct (chr lt_c s) as [s1|] eqn:E1; [|discriminate].
  apply chr_inv in E1. subst s.
  destruct (1 <=? span_len not_gt s1)%nat eqn:E; [|discriminate].
  intros H. apply tag_start_intro.
  - destruct s1 as [|x r]; simpl in *; [discriminate|].
    unfold not_gt in E. destruct (Ascii.eqb x gt_c); [discriminate|reflexivity].
  - eapply mem_char_drop, chr_gt_mem, H.
Qed.

Lemma settled_tail c r : settled (String c r) = true -> settled r = true.
Proof. simpl. intros H. apply andb_true_iff in H. tauto. Qed.

Lemma settled_no_tag s : settled s = true -> tag_start s = false.
Proof.
  destruct s as [|c [|x r]]; simpl; trivial.
  destruct (Ascii.eqb c lt_c); simpl; trivial.
  destruct (Ascii.eqb x gt_c); simpl; trivial.
  destruct (mem_char gt_c r); simpl; trivial. discriminate.
Qed.

(** A scan whose pattern matches nowhere copies the text. *)
Lemma sub_fix (m : matcher) (ok : string -> bool) repl s :
  (forall c r, ok (String c r) = true -> ok r = true) ->
  (forall t, ok t = true -> m t = None) ->
  ok s = true -> sub m repl s = s.
Proof.
  intros Htail Hm. unfold sub.
  induction s as [|c r IH]; simpl; [reflexivity|].
  intros Hs. rewrite (Hm _ Hs), (IH (Htail _ _ Hs)). reflexivity.
Qed.

Lemma settled_sub_fix (m : matcher) repl s :
  (forall t rest, m t = Some rest -> tag_start t = true) ->
  settled s = true -> sub m repl s = s.
Proof.
  intros Hm. apply (sub_fix m settled); [apply settled_tail|].
  intros t Ht. destruct (m t) eqn:E; [|reflexivity].
  apply Hm in E. rewrite (settled_no_tag _ Ht) in E. discriminate.
Qed.

Lemma mem_char_app c a b :
  mem_char c (a ++ b) = mem_char c a || mem_char c b.
Proof.
  induction a as [|x a IH]; simpl; [reflexivity|].
  now rewrite IH, orb_assoc.
Qed.

Lemma length_drop n s : String.length (drop n s) = (String.length s - n)%nat.
Proof.
  revert s; induction n as [|n IH]; intros [|c r]; simpl; trivial.
Qed.

Lemma span_len_le p s : (span_len p s <= String.length s)%nat.
Proof.
  induction s as [|c r IH]; simpl; [lia|]. destruct (p c); lia.
Qed.

(** After the characters that are not [>] comes the first [>]. *)
Lemma first_gt s :
  mem_char gt_c s = true ->
  exists rest, chr gt_c (drop (span_len not_gt s) s) = Some rest.
Proof.
  induction s as [|c r IH]; simpl; [discriminate|].
  unfold not_gt. destruct (Ascii.eqb c gt_c) eqn:E; simpl.
  - intros _. rewrite E. eauto.
  - exact IH.
Qed.

Lemma any_tag_none r :
  any_tag (String lt_c r) = None -> head_gt r = true \/ mem_char gt_c r = false.
Proof.
  unfold any_tag. change (chr lt_c (String lt_c r)) with (Some r).
  intros H. destruct r as [|x r']; [now right|].
  simpl head_gt. destruct (Ascii.eqb x gt_c) eqn:E; [now left|].
  right. destruct (mem_char gt_c (String x r')) eqn:M; [|reflexivity].
  apply first_gt in M. destruct M as [rest M]. rewrite M in H.
  simpl in H. unfold not_gt in H. rewrite E in H. discriminate.
Qed.

Lemma any_tag_shorter s rest :
  any_tag s = Some rest -> (String.length rest < String.length s)%nat.
Proof.
  unfold any_tag. destruct (chr lt_c s) as [s1|] eqn:E1; [|discriminate].
  apply chr_inv in E1. subst s.
  destruct (1 <=? _)%nat; [|discriminate]. intros H.
  apply chr_inv in H. apply (f_equal String.length) in H.
  rewrite length_drop in H. simpl in *. lia.
Qed.

Lemma sub_scan_no_gt m repl k s :
  mem_char gt_c repl = false -> mem_char gt_c s = false ->
  mem_char gt_c (sub_scan m repl k s) = false.
Proof.
  intros Hr. revert k. induction s as [|c r IH]; intros k H; [reflexivity|].
  cbn [mem_char] in H. apply orb_false_iff in H. destruct H as [Hc Hs].
  assert (Hcopy : mem_char gt_c (String c (sub_scan m repl 0 r)) = false)
    by (cbn [mem_char]; now rewrite Hc, IH).
  cbn [sub_scan]. destruct k; [|now apply IH].
  destruct (m (String c r)); [|exact Hcopy].
  destruct (String.length _ - String.length _)%nat; [exact Hcopy|].
  now rewrite mem_char_app, Hr, IH.
Qed.

(** After the tags are stripped the text is settled. *)
Lemma any_tag_settles k s : settled (sub_scan any_tag "" k s) = true.
Proof.
  revert k. induction s as [|c r IH]; intros k; [reflexivity|].
  cbn [sub_scan]. destruct k; [|apply IH].
  destruct (any_tag (String c r)) as [rest|] eqn:E.
  - apply any_tag_shorter in E.
    destruct (String.length _ - String.length _)%nat eqn:D; [lia|]. apply IH.
  - simpl. rewrite IH, andb_true_r.
    destruct (Ascii.eqb_spec c lt_c) as [->|]; [|reflexivity]. simpl.
    apply any_tag_none in E. destruct E as [E|E].
    + destruct r as [|x r']; [discriminate|]. simpl in E.
      apply Ascii.eqb_eq in E. subst x. reflexivity.
    + rewrite (sub_scan_no_gt any_tag "" 0 r eq_refl E). apply orb_true_r.
Qed.

Lemma newlines3_head_gt r :
  head_gt r = true -> head_gt (sub_scan newlines3 (String nl (String nl "")) 0 r) = true.
Proof.
  destruct r as [|x r']; simpl; [discriminate|].
  intros E. apply Ascii.eqb_eq in E. subst x. reflexivity.
Qed.

(** Collapsing newlines keeps a text settled. *)
Lemma newlines3_settled k s :
  settled s = true ->
  settled (sub_scan newlines3 (String nl (String nl "")) k s) = true.
Proof.
  revert k. induction s as [|c r IH]; intros k; [reflexivity|].
  intros Hs. pose proof (settled_tail _ _ Hs) as Hr.
  assert (Hcopy : settled (String c (sub_scan newlines3 (String nl (String nl "")) 0 r)) = true).
  { simpl. rewrite (IH 0%nat Hr), andb_true_r.
    simpl in Hs. apply andb_true_iff in Hs. destruct Hs as [Hs _].
    destruct (negb (Ascii.eqb c lt_c)); [reflexivity|]. simpl in *.
    apply orb_true_iff in Hs. destruct Hs as [Hs|Hs].
    - now rewrite newlines3_head_gt.
    - apply negb_true_iff in Hs.
      rewrite (sub_scan_no_gt newlines3 (String nl (String nl "")) 0 r eq_refl Hs).
      apply orb_true_r. }
  cbn [sub_scan]. destruct k; [|now apply IH].
  destruct (newlines3 (String c r)); [|exact Hcopy].
  destruct (String.length _ - String.length _)%nat; [exact Hcopy|].
  simpl. now apply IH.
Qed.

Lemma settled_app_l a b : settled (a ++ b) = true -> settled a = true.
Proof.
  induction a as [|c a IH]; simpl; [reflexivity|].
  intros H. apply andb_true_iff in H. destruct H as [H1 H2].
  rewrite (IH H2), andb_true_r.
  destruct (negb (Ascii.eqb c lt_c)); [reflexivity|]. simpl in *.
  rewrite mem_char_app in H1. destruct a as [|x a']; [reflexivity|].
  simpl in *. destruct (Ascii.eqb x gt_c); [reflexivity|]. simpl in *.
  destruct (mem_char gt_c a'); [discriminate|reflexivity].
Qed.

Lemma rstrip_with_prefix p s : exists w, s = rstrip_with p s ++ w.
Proof.
  induction s as [|c r [w IH]]; simpl; [now exists ""|].
  destruct (rstrip_with p r) as [|c' r'] eqn:E.
  - destruct (p c); [now exists (String c r)|].
    exists w. simpl in *. now rewrite <- IH.
  - exists w. simpl in *. now rewrite <- IH.
Qed.

Lemma lstrip_with_keeps (ok : string -> bool) p s :
  (forall c r, ok (String c r) = true -> ok r = true) ->
  ok s = true -> ok (lstrip_with p s) = true.
Proof.
  intros Htail. induction s as [|c r IH]; simpl; [trivial|].
  destruct (p c); [|trivial]. intros H. apply IH, (Htail _ _ H).
Qed.

Lemma strip_settled s : settled s = true -> settled (strip s) = true.
Proof.
  intros H. unfold strip.
  destruct (rstrip_with_prefix is_space (lstrip_with is_space s)) as [w E].
  apply (settled_app_l _ w). rewrite <- E.
  now apply lstrip_with_keeps; [apply settled_tail|].
Qed.

Lemma run_cons c r :
  run (String c r) = if Ascii.eqb nl c then S (run r) else O.
Proof. reflexivity. Qed.

Lemma calm_cons c r :
  calm (String c r) = (run (String c r) <? 3)%nat && calm r.
Proof. reflexivity. Qed.

Lemma newlines3_spec s :
  newlines3 s = if (3 <=? run s)%nat then Some (drop (run s) s) else None.
Proof. reflexivity. Qed.

(** Collapsing newlines, started inside a run ([run s] characters still
    to drop) or at its start. *)
Lemma newlines3_runs s :
  (calm (sub_scan newlines3 two_nl (run s) s) = true /\
   run (sub_scan newlines3 two_nl (run s) s) = O) /\
  (calm (sub_scan newlines3 two_nl 0 s) = true /\
   run (sub_scan newlines3 two_nl 0 s) = Nat.min (run s) 2).
Proof.
  induction s as [|c r [[IH1 IH2] [IH3 IH4]]]; [repeat split|].
  assert (Hcopy : Ascii.eqb nl c = false ->
            calm (String c (sub_scan newlines3 two_nl 0 r)) = true /\
            run (String c (sub_scan newlines3 two_nl 0 r)) = O).
  { intros Hc. rewrite calm_cons, run_cons, Hc, IH3. split; reflexivity. }
  assert (Hzero : Ascii.eqb nl c = false ->
            sub_scan newlines3 two_nl 0 (String c r)
            = String c (sub_scan newlines3 two_nl 0 r)).
  { intros Hc. cbn [sub_scan]. rewrite newlines3_spec, run_cons, Hc. reflexivity. }
  split.
  - rewrite run_cons. destruct (Ascii.eqb nl c) eqn:Hc.
    + cbn [sub_scan]. split; assumption.
    + rewrite (Hzero eq_refl). apply (Hcopy eq_refl).
  - destruct (Ascii.eqb nl c) eqn:Hc.
    2:{ rewrite (Hzero eq_refl), (run_cons c r), Hc. apply (Hcopy eq_refl). }
    cbn [sub_scan]. rewrite newlines3_spec, (run_cons c r), Hc.
    destruct (3 <=? S (run r))%nat eqn:H3.
    + apply Nat.leb_le in H3.
      rewrite length_drop.
      pose proof (span_len_le (Ascii.eqb nl) (String c r)) as Hle.
      fold (run (String c r)) in Hle. rewrite run_cons, Hc in Hle.
      replace (String.length (String c r)
               - (String.length (String c r) - S (run r)))%nat
        with (S (run r)) by lia.
      change (two_nl ++ sub_scan newlines3 two_nl (run r) r)
        with (String nl (String nl (sub_scan newlines3 two_nl (run r) r))).
      rewrite !calm_cons, !run_cons, Ascii.eqb_refl, IH1, IH2.
      split; [reflexivity|]. lia.
    + apply Nat.leb_gt in H3.
      rewrite calm_cons, !run_cons, Hc, IH3, IH4.
      replace (Nat.min (run r) 2) with (run r) by lia.
      split; [|lia]. rewrite andb_true_r. apply Nat.ltb_lt. lia.
Qed.

Lemma newlines3_calms s : calm (sub newlines3 two_nl s) = true.
Proof. apply newlines3_runs. Qed.

Lemma calm_tail c r : calm (String c r) = true -> calm r = true.
Proof. rewrite calm_cons. intros H. apply andb_true_iff in H. tauto. Qed.

Lemma run_app_l a b : (run a <= run (a ++ b))%nat.
Proof.
  induction a as [|c a IH]; [cbn; lia|].
  change (String c a ++ b) with (String c (a ++ b)).
  rewrite !run_cons. destruct (Ascii.eqb nl c); lia.
Qed.

Lemma calm_app_l a b : calm (a ++ b) = true -> calm a = true.
Proof.
  induction a as [|c a IH]; [reflexivity|].
  change (String c a ++ b) with (String c (a ++ b)).
  rewrite !calm_cons. intros H. apply andb_true_iff in H.
  destruct H as [H1 H2]. rewrite (IH H2), andb_true_r.
  apply Nat.ltb_lt in H1. apply Nat.ltb_lt.
  pose proof (run_app_l (String c a) b). simpl append in *. lia.
Qed.

Lemma strip_calm s : calm s = true -> calm (strip s) = true.
Proof.
  intros H. unfold strip.
  destruct (rstrip_with_prefix is_space (lstrip_with is_space s)) as [w E].
  apply (calm_app_l _ w). rewrite <- E.
  now apply lstrip_with_keeps; [apply calm_tail|].
Qed.

Lemma calm_sub_fix repl s : calm s = true -> sub newlines3 repl s = s.
Proof.
  apply (sub_fix newlines3 calm); [apply calm_tail|].
  intros [|c r] Ht; [reflexivity|].
  rewrite calm_cons in Ht. apply andb_true_iff in Ht. destruct Ht as [Ht _].
  apply Nat.ltb_lt in Ht. rewrite newlines3_spec.
  destruct (3 <=? _)%nat eqn:E; [|reflexivity]. apply Nat.leb_le in E. lia.
Qed.

(** What the normalizer returns: settled, calm and stripped. *)
Lemma strip_html_settled html : settled (_strip_html_tags html) = true.
Proof.
  unfold _strip_html_tags. apply strip_settled, newlines3_settled, any_tag_settles.
Qed.

Lemma strip_html_calm html : calm (_strip_html_tags html) = true.
Proof. unfold _strip_html_tags. apply strip_calm, newlines3_calms. Qed.

End ReFacts.

(** C9. The normalizer maps [<p>Hello</p><p>World</p>] to the two words
    separated by one newline, without blank lines before or after, and
    applying it twice gives what applying it once gives, for every text. *)
Theorem strip_html_tags_idempotent :
  _strip_html_tags hello_world_html = hello_world_text /\
  forall html : string,
    _strip_html_tags (_strip_html_tags html) = _strip_html_tags html.
Proof.
  split; [reflexivity|]. intros html.
  pose proof (ReFacts.strip_html_settled html) as Hs.
  pose proof (ReFacts.strip_html_calm html) as Hc.
  set (y := _strip_html_tags html) in *.
  unfold _strip_html_tags at 1.
  rewrite (ReFacts.settled_sub_fix Re.br_tag _ y ReFacts.br_tag_start Hs).
  rewrite (ReFacts.settled_sub_fix Re.block_close _ y ReFacts.block_close_start Hs).
  rewrite (ReFacts.settled_sub_fix Re.block_open _ y ReFacts.block_open_start Hs).
  rewrite (ReFacts.settled_sub_fix Re.any_tag _ y ReFacts.any_tag_start Hs).
  rewrite (ReFacts.calm_sub_fix _ y Hc).
  unfold y, _strip_html_tags. apply PyStrFacts.strip_idem.
Qed.

(** ** The request builders and the probe *)

Section BuilderFacts.
Context {F : PyFloat}.

Lemma confluence_request_unconfigured method path verify_ssl kw (w : world) :
  has_confluence (settings w) = false ->
  exists e, is_ValueError e = true /\
    confluence_tools._confluence_request method path verify_ssl kw w = (Raised e, w).
Proof.
  intros H. unfold confluence_tools._confluence_request, bind, get_settings.
  rewrite H. simpl. eexists; split; [|reflexivity]. reflexivity.
Qed.

Lemma confluence_request_configured method path verify_ssl kw (w : world) :
  has_confluence (settings w) = true ->
  confluence_tools._confluence_request method path verify_ssl kw w
  = requests_request
      (confluence_request_of (settings w) method path verify_ssl kw) w.
Proof.
  intros H. unfold confluence_tools._confluence_request, bind, get_settings.
  rewrite H. simpl. unfold has_confluence in H. unfold confluence_request_of.
  destruct (confluence_url (settings w)); [reflexivity|discriminate].
Qed.

Lemma jira_request_unconfigured method path verify_ssl kw (w : world) :
  has_jira (settings w) = false ->
  exists e, is_ValueError e = true /\
    jira_tools._jira_request method path verify_ssl kw w = (Raised e, w).
Proof.
  intros H. unfold jira_tools._jira_request, bind, get_settings.
  rewrite H. simpl. eexists; split; [|reflexivity]. reflexivity.
Qed.

Lemma jira_request_configured method path verify_ssl kw (w : world) :
  has_jira (settings w) = true ->
  jira_tools._jira_request method path verify_ssl kw w
  = requests_request (jira_request_of (settings w) method path verify_ssl kw) w.
Proof.
  intros H. unfold jira_tools._jira_request, bind, get_settings.
  rewrite H. simpl. unfold has_jira in H. unfold jira_request_of.
  destruct (jira_url (settings w)); [reflexivity|discriminate].
Qed.

(** [confluence_search] when [max_results] can be printed, and when
    not. *)
Lemma confluence_search_run query max_results space_key verify_ssl (w : world) :
  PyStr.fits_str max_results = true ->
  confluence_tools.confluence_search query max_results space_key verify_ssl w
  = confluence_tools.search_steps (confluence_tools.search_cql query space_key)
      (PyStr.str_of_int max_results) verify_ssl w.
Proof.
  intros H. unfold confluence_tools.confluence_search, bind, lift, py_str_int.
  rewrite H. reflexivity.
Qed.

Lemma confluence_search_refuses query max_results space_key verify_ssl
    (w : world) :
  PyStr.fits_str max_results = false ->
  exists e, is_ValueError e = true /\
    confluence_tools.confluence_search query max_results space_key verify_ssl w
    = (Raised e, w).
Proof.
  intros H. unfold confluence_tools.confluence_search, bind, lift, py_str_int.
  rewrite H. eexists. split; [|reflexivity]. reflexivity.
Qed.

(** The least int that cannot be printed. *)
Lemma str_digits_limit_refused : PyStr.fits_str PyStr.str_digits_limit = false.
Proof.
  unfold PyStr.fits_str. rewrite Z.abs_eq; [apply Z.ltb_irrefl|].
  unfold PyStr.str_digits_limit. apply Z.pow_nonneg. discriminate.
Qed.

(** An int of at most 18 digits is within the limit. *)
Lemma fits_str_small n : (Z.abs n < 10 ^ 18)%Z -> PyStr.fits_str n = true.
Proof.
  intros H. unfold PyStr.fits_str, PyStr.str_digits_limit. apply Z.ltb_lt.
  apply (Z.lt_le_trans _ (10 ^ 18)); [exact H|].
  apply Z.pow_le_mono_r; [reflexivity|discriminate].
Qed.

(** What the probe returns and the state it leaves, whatever the reply. *)
Lemma detect_api_version_run verify_ssl (w : world) :
  jira_tools._detect_api_version verify_ssl w
  = (Returned (match _api_version w with Some v => v | None => "2" end),
     match _api_version w with
     | Some _ => w
     | None => after_probe verify_ssl w
     end).
Proof.
  unfold jira_tools._detect_api_version, bind at 1, jira_tools.get_api_version.
  destruct (_api_version w) eqn:Hv; [reflexivity|].
  unfold after_probe, probes. rewrite Hv, andb_true_r.
  unfold bind at 1, try_except.
  destruct (has_jira (settings w)) eqn:Hj.
  - unfold bind at 1. rewrite (jira_request_configured _ _ _ _ _ Hj).
    unfold requests_request, probe_request.
    destruct (transport w (List.length (sent w))) as [resp|e]; [|reflexivity].
    destruct (ok resp); [|reflexivity].
    unfold lift. destruct (bind_o _ _); reflexivity.
  - unfold bind at 1.
    destruct (jira_request_unconfigured "GET" "/rest/api/2/serverInfo"
                verify_ssl no_kwargs w Hj) as [e [_ ->]].
    reflexivity.
Qed.

Lemma after_probe_settings verify_ssl (w : world) :
  settings (after_probe verify_ssl w) = settings w.
Proof. reflexivity. Qed.

Lemma after_probe_unconfigured verify_ssl (w : world) :
  has_jira (settings w) = false -> sent (after_probe verify_ssl w) = sent w.
Proof. intros H. unfold after_probe, probes. now rewrite H. Qed.

End BuilderFacts.

(** C6. With no version cached the probe returns ["2"] and caches it,
    whatever becomes of its request: JIRA not configured, the transport
    raising, a status that is not a success, a body that is not JSON or
    not an object.  It returns: no exception leaves it. *)
Theorem detect_api_version_always_2 {F : PyFloat} :
  forall (verify_ssl : option bool) (w : world),
    _api_version w = None ->
    fst (jira_tools._detect_api_version verify_ssl w) = Returned "2" /\
    _api_version (snd (jira_tools._detect_api_version verify_ssl w)) = Some "2".
Proof.
  intros verify_ssl w H. rewrite detect_api_version_run, H. simpl.
  now rewrite H.
Qed.

Lemma detect_api_version_always_2_witness :
  fst (jira_tools._detect_api_version None (world_with not_found)) = Returned "2" /\
  _api_version (snd (jira_tools._detect_api_version None (world_with not_found)))
  = Some "2".
Proof. apply (@detect_api_version_always_2 no_float). reflexivity. Defined.

(** ** Calls while the service is not configured *)

Section UnconfiguredFacts.
Context {F : PyFloat}.

Lemma confluence_try_unconfigured (k : response -> M value)
    method path verify_ssl kw (w : world) :
  has_confluence (settings w) = false ->
  try_except (resp <- confluence_tools._confluence_request method path verify_ssl kw ;;
              k resp)
             confluence_tools.handlers w
  = (Returned (_err confluence_tools._NOT_CONFIGURED_MSG), w).
Proof.
  intros H. unfold try_except, bind.
  destruct (confluence_request_unconfigured method path verify_ssl kw w H)
    as [e [He ->]].
  unfold confluence_tools.handlers. rewrite He. reflexivity.
Qed.

Lemma jira_try_unconfigured (k : response -> M value)
    method path verify_ssl kw (w : world) :
  has_jira (settings w) = false ->
  try_except (resp <- jira_tools._jira_request method path verify_ssl kw ;; k resp)
             jira_tools.handlers w
  = (Returned (_err jira_tools._NOT_CONFIGURED_MSG), w).
Proof.
  intros H. unfold try_except, bind.
  destruct (jira_request_unconfigured method path verify_ssl kw w H)
    as [e [He ->]].
  unfold jira_tools.handlers. rewrite He. reflexivity.
Qed.

Lemma dict_set_cons k v (d : dict) : exists kv rest, dict_set k v d = kv :: rest.
Proof.
  destruct d as [|[k' v'] rest]; simpl; [eauto|].
  destruct (String.eqb k' k); eauto.
Qed.

Lemma dict_update_cons (d extra : dict) :
  (exists kv rest, d = kv :: rest) ->
  exists kv rest, dict_update d extra = kv :: rest.
Proof.
  unfold dict_update. revert d.
  induction extra as [|[k v] more IH]; intros d Hd; simpl; [exact Hd|].
  apply IH, dict_set_cons.
Qed.

Lemma update_if_cons cf (d : dict) :
  (exists kv rest, d = kv :: rest) ->
  exists kv rest, jira_tools.update_if cf d = kv :: rest.
Proof.
  intros Hd. destruct cf as [[|kv more]|]; simpl; try exact Hd.
  apply (dict_update_cons d (kv :: more) Hd).
Qed.

Lemma set_if_cons {A} k (o : option A) (v : A -> value) (d : dict) :
  (exists kv rest, d = kv :: rest) ->
  exists kv rest, jira_tools.set_if k o v d = kv :: rest.
Proof. intros Hd. destruct o; simpl; [apply dict_set_cons|exact Hd]. Qed.

Ltac nonempty_fields :=
  repeat first
    [ apply update_if_cons
    | match goal with
      | |- exists _ _, jira_tools.set_if _ (Some _) _ _ = _ =>
          cbn [jira_tools.set_if]; apply dict_set_cons
      end
    | apply set_if_cons ].

(** The fields object of [jira_update_issue] is empty exactly when no
    optional field is supplied. *)
Lemma update_fields_truthy s d a l p cf :
  truthy (VDict (jira_tools.update_fields s d a l p cf))
  = negb (nothing_to_update s d a l p cf).
Proof.
  assert (Hne : forall fields : dict,
             (exists kv rest, fields = kv :: rest) ->
             truthy (VDict fields) = true).
  { intros fields (kv & rest & ->). reflexivity. }
  unfold jira_tools.update_fields.
  destruct s as [s|].
  { rewrite Hne; [reflexivity|].
    nonempty_fields. }
  destruct d as [d|].
  { rewrite Hne; [reflexivity|].
    nonempty_fields. }
  destruct a as [a|].
  { rewrite Hne; [reflexivity|].
    nonempty_fields. }
  destruct l as [l|].
  { rewrite Hne; [reflexivity|].
    nonempty_fields. }
  destruct p as [p|].
  { rewrite Hne; [reflexivity|].
    nonempty_fields. }
  destruct cf as [[|[k v] more]|]; try reflexivity.
  rewrite Hne; [reflexivity|]. simpl.
  apply (dict_update_cons (dict_set k v []) more), dict_set_cons.
Qed.

(** The state the probe leaves when JIRA is not configured. *)
Lemma detect_unconfigured verify_ssl (w : world) :
  has_jira (settings w) = false ->
  exists w1,
    snd (jira_tools._detect_api_version verify_ssl w) = w1 /\
    has_jira (settings w1) = false /\ sent w1 = sent w.
Proof.
  intros H. rewrite detect_api_version_run. simpl.
  destruct (_api_version w); eexists; (split; [reflexivity|]).
  - now split.
  - split; [exact H|]. now apply after_probe_unconfigured.
Qed.

End UnconfiguredFacts.

(** Every JIRA tool starts with the probe. *)
Ltac after_the_probe verify_ssl w H :=
  let w1 := fresh "w1" in
  let E := fresh "E" in
  let H1 := fresh "H1" in
  let S1 := fresh "S1" in
  destruct (detect_unconfigured verify_ssl w H) as (w1 & E & H1 & S1);
  exists w1; split; [|exact S1];
  unfold bind at 1;
  rewrite (surjective_pairing (jira_tools._detect_api_version verify_ssl w)), E;
  rewrite detect_api_version_run; cbn [fst];
  try (rewrite jira_try_unconfigured by exact H1; reflexivity).

(** What a call returns and leaves while its service is not configured. *)
Lemma unconfigured_call {F : PyFloat} (c : tool_call) (w : world) :
  is_configured (service_of c) (settings w) = false ->
  limit_fits c = true ->
  exists w', call c w
             = (Returned (_err (match rejected c with
                                | Some msg => msg
                                | None => not_configured_msg (service_of c)
                                end)), w')
             /\ sent w' = sent w.
Proof.
  intros H Hfit.
  destruct c; cbn [service_of is_configured] in H;
    cbn [call rejected service_of not_configured_msg limit_fits] in *.
  - exists w. split; [|reflexivity].
    rewrite confluence_search_run by exact Hfit.
    unfold confluence_tools.search_steps.
    now rewrite confluence_try_unconfigured by exact H.
  - exists w. split; [|reflexivity].
    unfold confluence_tools.confluence_get_page.
    destruct (given page_id); cbn [orb].
    + now rewrite confluence_try_unconfigured by exact H.
    + destruct (given title && given space_key); [|reflexivity].
      now rewrite confluence_try_unconfigured by exact H.
  - exists w. split; [|reflexivity].
    unfold confluence_tools.confluence_create_page.
    now rewrite confluence_try_unconfigured by exact H.
  - exists w. split; [|reflexivity].
    unfold confluence_tools.confluence_update_page, bind at 1, try_except, bind at 1.
    destruct (confluence_request_unconfigured "GET"
                ("/rest/api/content/" ++ page_id) verify_ssl
                (with_params [("expand", "version")]) w H) as [e [He ->]].
    unfold confluence_tools.handlers. rewrite He. reflexivity.
  - unfold jira_tools.jira_search. after_the_probe verify_ssl w H.
  - unfold jira_tools.jira_get_issue. after_the_probe verify_ssl w H.
  - unfold jira_tools.jira_create_issue. after_the_probe verify_ssl w H.
  - unfold jira_tools.jira_update_issue. after_the_probe verify_ssl w H.
    rewrite update_fields_truthy, negb_involutive.
    destruct (nothing_to_update _ _ _ _ _ _); [reflexivity|].
    now rewrite jira_try_unconfigured by exact H1.
  - unfold jira_tools.jira_add_comment. after_the_probe verify_ssl w H.
  - unfold jira_tools.jira_transition_issue, jira_tools.transition_steps.
    after_the_probe verify_ssl w H.
Qed.

(** C1, as the code has it.  While a service is not configured, a call
    of any of its tools issues no HTTP request.  It returns the error
    envelope with the service's fixed not-configured message; except
    that a call turned down for its arguments ([confluence_get_page]
    without a page id or a title and space key, [jira_update_issue]
    without a field) returns the envelope with its validation message,
    and that [confluence_search] with a [max_results] of more than 4300
    digits raises the ValueError of [str(max_results)], which stands
    before the [try] statement. *)
Theorem unconfigured_call_issues_no_request {F : PyFloat} :
  forall (c : tool_call) (w : world),
    is_configured (service_of c) (settings w) = false ->
    sent (snd (call c w)) = sent w /\
    (limit_fits c = true ->
     fst (call c w)
     = Returned (_err (match rejected c with
                       | Some msg => msg
                       | None => not_configured_msg (service_of c)
                       end))) /\
    (limit_fits c = false ->
     exists e, fst (call c w) = Raised e /\ is_ValueError e = true).
Proof.
  intros c w H. destruct (limit_fits c) eqn:Hfit.
  - destruct (unconfigured_call c w H Hfit) as (w' & -> & Hs).
    split; [exact Hs|]. split; [reflexivity|discriminate].
  - destruct c; try discriminate Hfit. cbn [limit_fits call] in *.
    destruct (confluence_search_refuses query max_results space_key verify_ssl
                w Hfit) as (e & He & ->).
    split; [reflexivity|]. split; [discriminate|]. intros _. now exists e.
Qed.

Section UnconfiguredExamples.
#[local] Existing Instance no_float.

Lemma unconfigured_call_issues_no_request_witness :
  sent (snd (call (ConfluenceSearch "deployment issues" 10 None None)
               fresh_world)) = [] /\
  fst (call (ConfluenceSearch "deployment issues" 10 None None) fresh_world)
  = Returned (_err confluence_tools._NOT_CONFIGURED_MSG).
Proof.
  destruct (unconfigured_call_issues_no_request
              (ConfluenceSearch "deployment issues" 10 None None) fresh_world
              eq_refl) as (Hs & Hr & _).
  split; [exact Hs|]. apply Hr. apply fits_str_small. reflexivity.
Defined.

(** C1 as stated fails: with Confluence not configured,
    [confluence_get_page()] returns its validation message, not the
    not-configured one. *)
Lemma get_page_unconfigured_is_turned_down :
  is_configured Confluence (settings fresh_world) = false /\
  fst (call (ConfluenceGetPage None None None None) fresh_world)
  = Returned (_err "Provide either page_id or both title and space_key.") /\
  fst (call (ConfluenceGetPage None None None None) fresh_world)
  <> Returned (_err (not_configured_msg Confluence)).
Proof. repeat split. discriminate. Qed.

End UnconfiguredExamples.

(** ** [jira_update_issue] without fields *)

(** C2, as the code has it.  [jira_update_issue(issue_key)] with no
    optional field supplied returns the envelope with "No fields to
    update."; the only HTTP request it can issue is the request of the
    API-version probe, which runs first: it is sent when JIRA is
    configured and no version is cached, and nothing is sent otherwise.
    An empty [custom_fields] counts as not supplied. *)
Theorem update_issue_without_fields {F : PyFloat} :
  forall (issue_key : string) (custom_fields : option dict)
         (verify_ssl : option bool) (w : world),
    custom_fields = None \/ custom_fields = Some [] ->
    fst (jira_tools.jira_update_issue issue_key None None None None None
           custom_fields verify_ssl w)
    = Returned (_err "No fields to update.") /\
    sent (snd (jira_tools.jira_update_issue issue_key None None None None None
                 custom_fields verify_ssl w))
    = if probes w then (sent w ++ [probe_request (settings w) verify_ssl])%list
      else sent w.
Proof.
  intros issue_key cf verify_ssl w Hcf.
  assert (jira_tools.jira_update_issue issue_key None None None None None
            cf verify_ssl w
          = (Returned (_err "No fields to update."),
             snd (jira_tools._detect_api_version verify_ssl w))) as ->.
  { unfold jira_tools.jira_update_issue, bind at 1.
    rewrite detect_api_version_run.
    destruct Hcf as [-> | ->]; reflexivity. }
  split; [reflexivity|]. rewrite detect_api_version_run. cbn [snd].
  unfold probes. destruct (_api_version w) eqn:Hv.
  - now rewrite andb_false_r.
  - unfold after_probe, probes. now rewrite Hv.
Qed.

Section UpdateIssueExamples.
#[local] Existing Instance no_float.

Lemma update_issue_without_fields_witness :
  fst (jira_tools.jira_update_issue "PROJ-1" None None None None None None None
         fresh_world)
  = Returned (_err "No fields to update.") /\
  sent (snd (jira_tools.jira_update_issue "PROJ-1" None None None None None None
               None fresh_world)) = [].
Proof.
  apply (update_issue_without_fields "PROJ-1" None None fresh_world).
  left. reflexivity.
Defined.

(** C2 as stated fails: with JIRA configured and no version cached the
    call issues one HTTP request, the probe's. *)
Lemma update_issue_without_fields_probes :
  sent (world_with no_content) = [] /\
  fst (jira_tools.jira_update_issue "PROJ-1" None None None None None None None
         (world_with no_content))
  = Returned (_err "No fields to update.") /\
  map (fun r => (req_method r, req_url r))
      (sent (snd (jira_tools.jira_update_issue "PROJ-1" None None None None None
                    None None (world_with no_content))))
  = [("GET", "https://jira.example.com/rest/api/2/serverInfo")].
Proof. repeat split. Qed.

End UpdateIssueExamples.

(** ** What a computation sends *)

Section Issues.
Context {F : PyFloat}.

Lemma issues_ret s Q {A} (a : A) : issues s Q (ret a).
Proof. intros w Hw. exists []. cbn. now rewrite app_nil_r. Qed.

Lemma issues_raise s Q {A} (e : exn) : issues s Q (@raise F A e).
Proof. intros w Hw. exists []. cbn. now rewrite app_nil_r. Qed.

Lemma issues_lift s Q {A} (o : outcome A) : issues s Q (lift o).
Proof. intros w Hw. exists []. cbn. now rewrite app_nil_r. Qed.

Lemma issues_bind s Q {A B} (m : M A) (k : A -> M B) :
  issues s Q m -> (forall a, issues s Q (k a)) -> issues s Q (bind m k).
Proof.
  intros Hm Hk w Hw. destruct (Hm w Hw) as (l & Hl & HQ & Hs).
  unfold bind. destruct (m w) as [[a|e] w1]; cbn [snd] in *.
  - destruct (Hk a w1 Hs) as (l' & Hl' & HQ' & Hs').
    exists (l ++ l')%list. rewrite Hl', Hl, app_assoc.
    repeat split; [now apply Forall_app|exact Hs'].
  - exists l. now repeat split.
Qed.

Lemma issues_try s Q {A} (body : M A) (handler : exn -> option (M A)) :
  issues s Q body ->
  (forall e h, handler e = Some h -> issues s Q h) ->
  issues s Q (try_except body handler).
Proof.
  intros Hm Hh w Hw. destruct (Hm w Hw) as (l & Hl & HQ & Hs).
  unfold try_except. destruct (body w) as [[a|e] w1]; cbn [snd] in *.
  - exists l. now repeat split.
  - destruct (handler e) as [h|] eqn:E.
    + destruct (Hh e h E w1 Hs) as (l' & Hl' & HQ' & Hs').
      exists (l ++ l')%list. rewrite Hl', Hl, app_assoc.
      repeat split; [now apply Forall_app|exact Hs'].
    + exists l. now repeat split.
Qed.

Lemma issues_request s (Q : request -> Prop) (r : request) :
  Q r -> issues s Q (requests_request r).
Proof.
  intros Hr w Hw. exists [r]. unfold requests_request.
  destruct (transport w _); cbn; repeat split; auto.
Qed.

Lemma issues_confluence_request s (Q : request -> Prop) method path verify_ssl kw :
  (has_confluence s = true ->
   Q (confluence_request_of s method path verify_ssl kw)) ->
  issues s Q (confluence_tools._confluence_request method path verify_ssl kw).
Proof.
  intros HQ w Hw. destruct (has_confluence s) eqn:Hc.
  - rewrite confluence_request_configured by now rewrite Hw.
    apply issues_request; [|exact Hw]. rewrite Hw. now apply HQ.
  - destruct (confluence_request_unconfigured method path verify_ssl kw w)
      as [e [_ ->]]; [now rewrite Hw|].
    exists []. cbn. now rewrite app_nil_r.
Qed.

Lemma issues_jira_request s (Q : request -> Prop) method path verify_ssl kw :
  (has_jira s = true -> Q (jira_request_of s method path verify_ssl kw)) ->
  issues s Q (jira_tools._jira_request method path verify_ssl kw).
Proof.
  intros HQ w Hw. destruct (has_jira s) eqn:Hc.
  - rewrite jira_request_configured by now rewrite Hw.
    apply issues_request; [|exact Hw]. rewrite Hw. now apply HQ.
  - destruct (jira_request_unconfigured method path verify_ssl kw w)
      as [e [_ ->]]; [now rewrite Hw|].
    exists []. cbn. now rewrite app_nil_r.
Qed.

Lemma issues_detect s (Q : request -> Prop) verify_ssl :
  (has_jira s = true -> Q (probe_request s verify_ssl)) ->
  issues s Q (jira_tools._detect_api_version verify_ssl).
Proof.
  intros HQ w Hw. rewrite detect_api_version_run. cbn [snd].
  destruct (_api_version w) eqn:Hv.
  - exists []. now rewrite app_nil_r.
  - unfold after_probe, probes. cbn [sent settings]. rewrite Hw, Hv.
    destruct (has_jira s) eqn:Hc; cbn [andb].
    + exists [probe_request s verify_ssl]. repeat split; auto.
    + exists []. now rewrite app_nil_r.
Qed.

Lemma issues_handlers_confluence s Q e h :
  confluence_tools.handlers e = Some h -> issues s Q h.
Proof.
  unfold confluence_tools.handlers.
  destruct (is_ValueError e); [intros [= <-]; apply issues_ret|].
  destruct (is_RequestException e); [intros [= <-]; apply issues_ret|discriminate].
Qed.

Lemma issues_handlers_jira s Q e h :
  jira_tools.handlers e = Some h -> issues s Q h.
Proof.
  unfold jira_tools.handlers.
  destruct (is_ValueError e); [intros [= <-]; apply issues_ret|].
  destruct (is_RequestException e); [intros [= <-]; apply issues_ret|discriminate].
Qed.

Lemma issues_handlers_first s Q {A} e (h : M (value + A)) :
  option_map (fun h : M value => r <- h ;; ret (inl r))
    (confluence_tools.handlers e) = Some h ->
  issues s Q h.
Proof.
  destruct (confluence_tools.handlers e) as [h0|] eqn:E; [|discriminate].
  intros [= <-]. apply issues_bind.
  - eapply issues_handlers_confluence, E.
  - intros r. apply issues_ret.
Qed.

End Issues.

(** Walks through the body of a tool. *)
Ltac issues_step :=
  match goal with
  | |- issues _ _ (bind _ _) => apply issues_bind; [|intros ?]
  | |- issues _ _ (try_except _ confluence_tools.handlers) =>
      apply issues_try; [|apply issues_handlers_confluence]
  | |- issues _ _ (try_except _ jira_tools.handlers) =>
      apply issues_try; [|apply issues_handlers_jira]
  | |- issues _ _ (try_except _ (fun e => option_map _ _)) =>
      apply issues_try; [|apply issues_handlers_first]
  | |- issues _ _ (ret _) => apply issues_ret
  | |- issues _ _ (lift _) => apply issues_lift
  | |- issues _ _ (raise _) => apply issues_raise
  | |- issues _ _ (confluence_tools._confluence_request _ _ _ _) =>
      apply issues_confluence_request; intros ?
  | |- issues _ _ (jira_tools._jira_request _ _ _ _) =>
      apply issues_jira_request; intros ?
  | |- issues _ _ (jira_tools._detect_api_version _) =>
      apply issues_detect; intros ?
  | |- issues _ _ _ => progress cbv beta zeta
  | |- issues _ _ (if ?b then _ else _) => destruct b
  | |- issues _ _ (match ?x with _ => _ end) => destruct x
  end.

Section IssuesTools.
Context {F : PyFloat}.

Lemma call_issues s (Q : request -> Prop) (c : tool_call) :
  (forall method path verify_ssl kw, In path (api_paths c) ->
     Q (match service_of c with
        | Confluence => confluence_request_of s method path verify_ssl kw
        | Jira => jira_request_of s method path verify_ssl kw
        end)) ->
  issues s Q (call c).
Proof.
  intros HQ. destruct c; cbn [service_of api_paths call] in *.
  - unfold confluence_tools.confluence_search, confluence_tools.search_steps.
    repeat issues_step.
    apply HQ. cbn; auto.
  - unfold confluence_tools.confluence_get_page. repeat issues_step.
    all: apply HQ; cbn; auto.
  - unfold confluence_tools.confluence_create_page. repeat issues_step.
    apply HQ. cbn; auto.
  - unfold confluence_tools.confluence_update_page. repeat issues_step.
    all: apply HQ; cbn; auto.
  - unfold jira_tools.jira_search. repeat issues_step.
    all: apply HQ; cbn; auto.
  - unfold jira_tools.jira_get_issue. repeat issues_step.
    all: apply HQ; cbn; auto.
  - unfold jira_tools.jira_create_issue. repeat issues_step.
    all: apply HQ; cbn; auto.
  - unfold jira_tools.jira_update_issue. repeat issues_step.
    all: apply HQ; cbn; auto.
  - unfold jira_tools.jira_add_comment. repeat issues_step.
    all: apply HQ; cbn; auto.
  - unfold jira_tools.jira_transition_issue, jira_tools.transition_steps.
    repeat issues_step.
    all: apply HQ; cbn; auto.
Qed.

End IssuesTools.

(** ** Tools that send one request *)

Section OneRequest.
Context {F : PyFloat}.

Lemma issues_nothing s {A} (m : M A) (w : world) :
  issues s no_request m -> settings w = s -> sent (snd (m w)) = sent w.
Proof.
  intros Hm Hw. destruct (Hm w Hw) as (l & -> & Hall & _).
  destruct l as [|r l]; [apply app_nil_r|]. now inversion Hall.
Qed.

(** A [try] statement that sends a request and then only computes adds
    that request to the log, whatever the reply. *)
Lemma try_request_once {A} (r : request) (k : response -> M A)
    (handler : exn -> option (M A)) (w : world) :
  (forall resp, issues (settings w) no_request (k resp)) ->
  (forall e h, handler e = Some h -> issues (settings w) no_request h) ->
  sent (snd (try_except (resp <- requests_request r ;; k resp) handler w))
  = (sent w ++ [r])%list.
Proof.
  intros Hk Hh.
  set (w1 := {| settings := settings w; _api_version := _api_version w;
                sent := (sent w ++ [r])%list; transport := transport w |}).
  assert (E : try_except (resp <- requests_request r ;; k resp) handler w
              = match transport w (List.length (sent w)) with
                | Replies resp => try_except (k resp) handler w1
                | Fails e => match handler e with
                             | Some h => h w1
                             | None => (Raised e, w1)
                             end
                end).
  { unfold try_except, bind, requests_request.
    destruct (transport w _); reflexivity. }
  rewrite E. destruct (transport w _) as [resp|e].
  - apply (issues_nothing (settings w) _ w1); [|reflexivity].
    apply issues_try; [apply Hk|exact Hh].
  - destruct (handler e) as [h|] eqn:Eh; [|reflexivity].
    apply (issues_nothing (settings w) _ w1); [|reflexivity].
    exact (Hh e h Eh).
Qed.

(** [confluence_search] sends one request, with the CQL string built
    from its arguments. *)
Lemma confluence_search_sends query max_results space_key verify_ssl (w : world) :
  has_confluence (settings w) = true ->
  PyStr.fits_str max_results = true ->
  sent (snd (confluence_tools.confluence_search query max_results space_key
               verify_ssl w))
  = (sent w ++
     [confluence_request_of (settings w) "GET" "/rest/api/content/search"
        verify_ssl
        (with_params [("cql", confluence_tools.search_cql query space_key);
                      ("limit", PyStr.str_of_int max_results);
                      ("expand", "metadata.labels")])])%list.
Proof.
  intros Hc Hfit. rewrite confluence_search_run by exact Hfit.
  unfold confluence_tools.search_steps. cbv zeta.
  unfold try_except, bind at 1. rewrite confluence_request_configured by exact Hc.
  apply (try_request_once _ _ confluence_tools.handlers w).
  - intros resp. repeat issues_step.
  - apply issues_handlers_confluence.
Qed.

End OneRequest.

(** ** The CQL string of [confluence_search] *)

(** C4. For a query that contains none of [=], [~], [AND], [OR], [NOT],
    [IN], [type], [space], [label], [confluence_search] builds the CQL
    string [type = page AND text ~ "<query>"] when no space key is given
    and [space = "<space_key>" AND type = page AND text ~ "<query>"] when
    one is given (a non-empty one: [if space_key] takes an empty key as
    not given); this string is the [cql] parameter of the request, which
    is sent when Confluence is configured and [max_results] has at most
    4300 digits, so that [str(max_results)] does not raise.  In
    particular the query [deployment issues] gives
    [type = page AND text ~ "deployment issues"]. *)
Theorem search_cql_free_text {F : PyFloat} :
  (forall query : string,
     existsb (fun op => PyStr.contains op query) confluence_tools.cql_ops = false ->
     confluence_tools.search_cql query None
     = "type = page AND text ~ " ++ quoted query /\
     confluence_tools.search_cql query (Some "")
     = "type = page AND text ~ " ++ quoted query /\
     (forall space_key : string, space_key <> "" ->
        confluence_tools.search_cql query (Some space_key)
        = "space = " ++ quoted space_key ++ " AND type = page AND text ~ "
          ++ quoted query)) /\
  (forall query max_results space_key verify_ssl (w : world),
     has_confluence (settings w) = true ->
     PyStr.fits_str max_results = true ->
     map req_params
       (sent_since w (snd (confluence_tools.confluence_search query max_results
                             space_key verify_ssl w)))
     = [Some [("cql", confluence_tools.search_cql query space_key);
              ("limit", PyStr.str_of_int max_results);
              ("expand", "metadata.labels")]]) /\
  confluence_tools.search_cql "deployment issues" None
  = "type = page AND text ~ " ++ quoted "deployment issues".
Proof.
  split; [|split; [|reflexivity]].
  - intros query Hq. unfold confluence_tools.search_cql. rewrite Hq.
    cbn [negb given andb]. repeat split.
    intros space_key Hk. apply String.eqb_neq in Hk. rewrite Hk. reflexivity.
  - intros query max_results space_key verify_ssl w Hc Hfit.
    unfold sent_since. rewrite (confluence_search_sends _ _ _ _ w Hc Hfit).
    rewrite skipn_app, skipn_all, Nat.sub_diag. reflexivity.
Qed.

Section SearchExamples.
#[local] Existing Instance no_float.

Lemma search_cql_free_text_witness :
  confluence_tools.search_cql "deployment issues" None
  = "type = page AND text ~ " ++ quoted "deployment issues" /\
  confluence_tools.search_cql "deployment issues" (Some "DEV")
  = "space = " ++ quoted "DEV" ++ " AND type = page AND text ~ "
    ++ quoted "deployment issues" /\
  map req_params
    (sent_since (world_with not_found)
       (snd (confluence_tools.confluence_search "deployment issues" 10
               (Some "DEV") None (world_with not_found))))
  = [Some [("cql", confluence_tools.search_cql "deployment issues" (Some "DEV"));
           ("limit", "10"); ("expand", "metadata.labels")]].
Proof.
  destruct search_cql_free_text as (H & Hsent & _).
  destruct (H "deployment issues" eq_refl) as (H1 & _ & H3).
  split; [exact H1|]. split; [apply H3; discriminate|].
  apply (Hsent "deployment issues" 10%Z (Some "DEV") None (world_with not_found)
           eq_refl).
  apply fits_str_small. reflexivity.
Defined.

End SearchExamples.

(** ** [confluence_get_page] *)

(** C7. [confluence_get_page] called with neither a page id nor both a
    title and a space key returns the validation error and issues no HTTP
    request.  Called with a title and a space key and no page id, when
    the listing answers with an empty [results] array, it returns an
    error whose message contains the title and the space key. *)
Theorem get_page_validation {F : PyFloat} :
  (forall (page_id title space_key : option string) (verify_ssl : option bool)
          (w : world),
     given page_id = false -> given title && given space_key = false ->
     fst (confluence_tools.confluence_get_page page_id title space_key verify_ssl w)
     = Returned (_err "Provide either page_id or both title and space_key.") /\
     sent (snd (confluence_tools.confluence_get_page page_id title space_key
                  verify_ssl w)) = sent w) /\
  (forall (page_id : option string) (title space_key : string)
          (verify_ssl : option bool) (w : world) (resp : response) (data : value),
     given page_id = false -> title <> "" -> space_key <> "" ->
     has_confluence (settings w) = true ->
     transport w (List.length (sent w)) = Replies resp ->
     ok resp = true -> resp_json resp = Some data ->
     py_get data "results" (VList []) = Returned (VList []) ->
     fst (confluence_tools.confluence_get_page page_id (Some title)
            (Some space_key) verify_ssl w)
     = Returned (_err (no_page_found title space_key)) /\
     PyStr.contains title (no_page_found title space_key) = true /\
     PyStr.contains space_key (no_page_found title space_key) = true).
Proof.
  split.
  - intros page_id title space_key verify_ssl w Hp Hts.
    unfold confluence_tools.confluence_get_page. cbv zeta.
    rewrite Hp, Hts. now split.
  - intros page_id title space_key verify_ssl w resp data
      Hp Ht Hk Hc Hreply Hok Hjson Hres.
    split; [|split].
    + unfold confluence_tools.confluence_get_page. cbv zeta.
      apply String.eqb_neq in Ht, Hk.
      rewrite Hp. cbn [given]. rewrite Ht, Hk. cbn [negb andb].
      unfold try_except, bind at 1.
      rewrite confluence_request_configured by exact Hc.
      unfold requests_request. rewrite Hreply, Hok. cbn [negb].
      unfold bind at 1, lift at 1, json. rewrite Hjson.
      unfold bind at 1, lift at 1. rewrite Hres. reflexivity.
    + apply (PyStrFacts.contains_middle title "No page found with title '").
    + unfold no_page_found.
      do 3 apply PyStrFacts.contains_app_r. apply PyStrFacts.contains_here.
Qed.

Section GetPageExamples.
#[local] Existing Instance no_float.

Lemma get_page_validation_witness :
  (fst (confluence_tools.confluence_get_page None (Some "X") None None fresh_world)
   = Returned (_err "Provide either page_id or both title and space_key.") /\
   sent (snd (confluence_tools.confluence_get_page None (Some "X") None None
                fresh_world)) = []) /\
  (fst (confluence_tools.confluence_get_page None (Some "X") (Some "DEV") None
          (world_with empty_listing))
   = Returned (_err "No page found with title 'X' in space 'DEV'.") /\
   PyStr.contains "X" (no_page_found "X" "DEV") = true /\
   PyStr.contains "DEV" (no_page_found "X" "DEV") = true).
Proof.
  destruct get_page_validation as [H1 H2]. split.
  - apply (H1 None (Some "X") None None fresh_world); reflexivity.
  - apply (H2 None "X" "DEV" None (world_with empty_listing)
              {| status_code := 200; ok := true;
                 text := "{" ++ quoted "results" ++ ": []}";
                 resp_json := Some (VDict [("results", VList [])]) |}
              (VDict [("results", VList [])]));
      try reflexivity; discriminate.
Defined.

End GetPageExamples.

(** ** [confluence_update_page] *)

Section UpdatePageFacts.
Context {F : PyFloat}.

Lemma update_page_get_raises page_id title body version_comment verify_ssl
    (w : world) (e : exn) :
  has_confluence (settings w) = true ->
  transport w (List.length (sent w)) = Fails e ->
  confluence_tools.confluence_update_page page_id title body version_comment
    verify_ssl w
  = (if is_ValueError e
     then Returned (_err confluence_tools._NOT_CONFIGURED_MSG)
     else if is_RequestException e
          then Returned (_err ("Confluence request error: " ++ exn_msg e))
          else Raised e,
     logged (version_request (settings w) page_id verify_ssl) w).
Proof.
  intros Hc Hreply.
  unfold confluence_tools.confluence_update_page, bind at 1, try_except, bind at 1.
  rewrite confluence_request_configured by exact Hc.
  unfold requests_request. rewrite Hreply.
  unfold confluence_tools.handlers.
  destruct (is_ValueError e); [reflexivity|].
  destruct (is_RequestException e); reflexivity.
Qed.

Lemma update_page_get_refused page_id title body version_comment verify_ssl
    (w : world) (resp : response) :
  has_confluence (settings w) = true ->
  transport w (List.length (sent w)) = Replies resp ->
  ok resp = false ->
  confluence_tools.confluence_update_page page_id title body version_comment
    verify_ssl w
  = (Returned (_resp_err "Failed to get page version" resp),
     logged (version_request (settings w) page_id verify_ssl) w).
Proof.
  intros Hc Hreply Hok.
  unfold confluence_tools.confluence_update_page, bind at 1, try_except, bind at 1.
  rewrite confluence_request_configured by exact Hc.
  unfold requests_request. rewrite Hreply, Hok. reflexivity.
Qed.

End UpdatePageFacts.

(** C3. When the GET by which [confluence_update_page] reads the page's
    version fails, the call returns the error envelope of that failure
    and the PUT is not attempted: the log of requests ends with the GET,
    or is unchanged when Confluence is not configured.  The failures:
    Confluence not configured; the transport raising (a
    [RequestException] gives the request-error envelope); a response
    whose status is not a success. *)
Theorem update_page_stops_at_failed_get {F : PyFloat} :
  forall (page_id title body : string) (version_comment : option string)
         (verify_ssl : option bool) (w : world),
    (has_confluence (settings w) = false ->
     fst (confluence_tools.confluence_update_page page_id title body
            version_comment verify_ssl w)
     = Returned (_err confluence_tools._NOT_CONFIGURED_MSG) /\
     sent (snd (confluence_tools.confluence_update_page page_id title body
                  version_comment verify_ssl w)) = sent w) /\
    (forall e : exn,
       has_confluence (settings w) = true ->
       transport w (List.length (sent w)) = Fails e ->
       (exn_class_of e = RequestException ->
        fst (confluence_tools.confluence_update_page page_id title body
               version_comment verify_ssl w)
        = Returned (_err ("Confluence request error: " ++ exn_msg e))) /\
       sent (snd (confluence_tools.confluence_update_page page_id title body
                    version_comment verify_ssl w))
       = (sent w ++ [version_request (settings w) page_id verify_ssl])%list) /\
    (forall resp : response,
       has_confluence (settings w) = true ->
       transport w (List.length (sent w)) = Replies resp ->
       ok resp = false ->
       fst (confluence_tools.confluence_update_page page_id title body
              version_comment verify_ssl w)
       = Returned (_resp_err "Failed to get page version" resp) /\
       sent (snd (confluence_tools.confluence_update_page page_id title body
                    version_comment verify_ssl w))
       = (sent w ++ [version_request (settings w) page_id verify_ssl])%list).
Proof.
  intros page_id title body version_comment verify_ssl w.
  split; [|split].
  - intros Hc.
    destruct (unconfigured_call
                (ConfluenceUpdatePage page_id title body version_comment verify_ssl)
                w Hc eq_refl) as (w' & E & Hs).
    cbn [call] in E. rewrite E. now split.
  - intros e Hc Hreply.
    rewrite (update_page_get_raises _ _ _ _ _ w e Hc Hreply).
    split; [|reflexivity].
    unfold is_ValueError, is_RequestException. now intros ->.
  - intros resp Hc Hreply Hok.
    rewrite (update_page_get_refused _ _ _ _ _ w resp Hc Hreply Hok).
    now split.
Qed.

Section UpdatePageExamples.
#[local] Existing Instance no_float.

(** The version fetch gets a 404: the call returns that failure and the
    only request in the log is the GET. *)
Lemma update_page_stops_at_failed_get_witness :
  fst (confluence_tools.confluence_update_page "4711" "Title" "<p>x</p>" None
         None (world_with not_found))
  = Returned (_err "Failed to get page version (404): Not Found") /\
  map req_method
      (sent (snd (confluence_tools.confluence_update_page "4711" "Title"
                    "<p>x</p>" None None (world_with not_found))))
  = ["GET"].
Proof.
  destruct (update_page_stops_at_failed_get "4711" "Title" "<p>x</p>" None None
              (world_with not_found)) as (_ & _ & H).
  destruct (H {| status_code := 404; ok := false; text := "Not Found";
                 resp_json := None |} eq_refl eq_refl eq_refl) as [H1 H2].
  split; [exact H1|]. rewrite H2. reflexivity.
Defined.

End UpdatePageExamples.

(** ** A success status with a body that is not JSON *)

Section NotJsonFacts.
Context {F : PyFloat}.

Lemma detect_keeps verify_ssl (w : world) :
  settings (snd (jira_tools._detect_api_version verify_ssl w)) = settings w /\
  transport (snd (jira_tools._detect_api_version verify_ssl w)) = transport w.
Proof.
  rewrite detect_api_version_run. cbn [snd].
  destruct (_api_version w); split; reflexivity.
Qed.

End NotJsonFacts.

(** Runs the probe a JIRA tool starts with. *)
Ltac through_the_probe verify_ssl w Hc Hreply :=
  let w1 := fresh "w1" in
  let Hs := fresh "Hs" in
  let Ht := fresh "Ht" in
  destruct (detect_keeps verify_ssl w) as [Hs Ht];
  unfold bind at 1;
  rewrite (surjective_pairing (jira_tools._detect_api_version verify_ssl w));
  set (w1 := snd (jira_tools._detect_api_version verify_ssl w)) in *;
  rewrite detect_api_version_run; cbn [fst];
  rewrite <- Hs in Hc; rewrite <- Ht in Hreply.

(** Runs a tool up to the reply to its request. *)
Ltac to_the_reply Hc Hreply Hok Hjson :=
  unfold try_except, bind at 1;
  first [ rewrite confluence_request_configured by exact Hc
        | rewrite jira_request_configured by exact Hc ];
  unfold requests_request; rewrite Hreply, Hok; cbn [negb];
  unfold json; rewrite Hjson; reflexivity.

(** C10, as the code has it.  When a service is configured and the
    response to the first request of a tool's own (for a JIRA tool, the
    request after the probe) has a success status and a body that is not
    valid JSON, every tool but [jira_update_issue] returns the envelope
    with the fixed not-configured message: decoding raises a
    [ValueError], which the first [except] clause catches.  (For
    [confluence_search] the request is reached when [max_results] has
    at most 4300 digits: [str(max_results)] raises otherwise.)  The same
    holds for the PUT of [confluence_update_page].  [jira_update_issue]
    does not decode the body: on a success status it returns success
    with the issue key. *)
Theorem not_json_reads_as_not_configured {F : PyFloat} :
  (forall (c : tool_call) (w : world) (resp : response),
     is_configured (service_of c) (settings w) = true ->
     rejected c = None -> limit_fits c = true -> decodes c = true ->
     transport w (List.length (sent (at_own_request c w))) = Replies resp ->
     ok resp = true -> resp_json resp = None ->
     fst (call c w) = Returned (_err (not_configured_msg (service_of c)))) /\
  (forall (page_id title body : string) (version_comment : option string)
          (verify_ssl : option bool) (w : world) (got put : response)
          (data version number next : value),
     has_confluence (settings w) = true ->
     transport w (List.length (sent w)) = Replies got ->
     ok got = true -> resp_json got = Some data ->
     py_get data "version" (VDict []) = Returned version ->
     py_get version "number" (VInt 0) = Returned number ->
     py_add_int number 1 = Returned next ->
     transport w (S (List.length (sent w))) = Replies put ->
     ok put = true -> resp_json put = None ->
     fst (confluence_tools.confluence_update_page page_id title body
            version_comment verify_ssl w)
     = Returned (_err confluence_tools._NOT_CONFIGURED_MSG)) /\
  (forall (issue_key : string) (summary description assignee : option string)
          (labels : option (list string)) (priority : option string)
          (custom_fields : option dict) (verify_ssl : option bool) (w : world)
          (resp : response),
     has_jira (settings w) = true ->
     nothing_to_update summary description assignee labels priority
       custom_fields = false ->
     transport w (List.length (sent (probed verify_ssl w))) = Replies resp ->
     ok resp = true ->
     fst (jira_tools.jira_update_issue issue_key summary description assignee
            labels priority custom_fields verify_ssl w)
     = Returned (VDict [("success", VBool true); ("key", VStr issue_key)])).
Proof.
  split; [|split].
  3:{ intros issue_key summary description assignee labels priority
        custom_fields verify_ssl w resp Hc Hsome Hreply Hok.
      unfold jira_tools.jira_update_issue. unfold probed in Hreply.
      through_the_probe verify_ssl w Hc Hreply.
      rewrite update_fields_truthy, Hsome. cbn [negb].
      unfold try_except, bind at 1.
      rewrite jira_request_configured by exact Hc.
      unfold requests_request. rewrite Hreply, Hok. reflexivity. }
  2:{ intros page_id title body version_comment verify_ssl w got put
        data version number next Hc Hgot Hok Hdata Hversion Hnumber Hnext
        Hput Hok2 Hnot.
      unfold confluence_tools.confluence_update_page.
      unfold bind at 1, try_except at 1, bind at 1.
      rewrite confluence_request_configured by exact Hc.
      unfold requests_request at 1. rewrite Hgot, Hok. cbn [negb].
      unfold lift at 1, json. rewrite Hdata. cbn [bind_o].
      rewrite Hversion. cbn [bind_o]. rewrite Hnumber. cbn [bind_o].
      unfold bind at 1, lift at 1. rewrite Hnext.
      unfold try_except, bind at 1.
      rewrite confluence_request_configured by exact Hc.
      unfold requests_request. cbn [sent transport]. rewrite length_app.
      cbn [List.length]. rewrite Nat.add_1_r, Hput, Hok2. cbn [negb].
      unfold lift. rewrite Hnot. reflexivity. }
  intros c w resp Hc Hrej Hfit Hdec Hreply Hok Hjson.
  destruct c; try discriminate Hdec;
    cbn [service_of is_configured not_configured_msg call at_own_request
         verify_of rejected limit_fits] in *.
  - rewrite confluence_search_run by exact Hfit.
    unfold confluence_tools.search_steps. cbv zeta.
    to_the_reply Hc Hreply Hok Hjson.
  - unfold confluence_tools.confluence_get_page. cbv zeta.
    destruct (given page_id); cbn [orb] in Hrej;
      [|destruct (given title && given space_key); [|discriminate]];
      to_the_reply Hc Hreply Hok Hjson.
  - unfold confluence_tools.confluence_create_page. cbv zeta.
    to_the_reply Hc Hreply Hok Hjson.
  - unfold confluence_tools.confluence_update_page. unfold bind at 1.
    to_the_reply Hc Hreply Hok Hjson.
  - unfold jira_tools.jira_search. through_the_probe verify_ssl w Hc Hreply.
    cbv zeta. to_the_reply Hc Hreply Hok Hjson.
  - unfold jira_tools.jira_get_issue. through_the_probe verify_ssl w Hc Hreply.
    cbv zeta. to_the_reply Hc Hreply Hok Hjson.
  - unfold jira_tools.jira_create_issue. through_the_probe verify_ssl w Hc Hreply.
    cbv zeta. to_the_reply Hc Hreply Hok Hjson.
  - unfold jira_tools.jira_add_comment. through_the_probe verify_ssl w Hc Hreply.
    to_the_reply Hc Hreply Hok Hjson.
  - unfold jira_tools.jira_transition_issue, jira_tools.transition_steps.
    through_the_probe verify_ssl w Hc Hreply.
    to_the_reply Hc Hreply Hok Hjson.
Qed.

Section NotJsonExamples.
#[local] Existing Instance no_float.

Lemma not_json_reads_as_not_configured_witness :
  fst (call (ConfluenceSearch "deployment issues" 10 None None)
         (world_with no_content))
  = Returned (_err confluence_tools._NOT_CONFIGURED_MSG).
Proof.
  destruct not_json_reads_as_not_configured as [H _].
  apply (H (ConfluenceSearch "deployment issues" 10 None None)
           (world_with no_content)
           {| status_code := 204; ok := true; text := ""; resp_json := None |});
    first [apply fits_str_small; reflexivity | reflexivity].
Defined.

(** C10 as stated fails: JIRA is configured and answers the PUT of
    [jira_update_issue] with 204 and an empty body, which is not valid
    JSON; the call returns success, not the not-configured message. *)
Lemma update_issue_does_not_decode :
  is_configured Jira (settings (world_with no_content)) = true /\
  transport (world_with no_content) 1
  = Replies {| status_code := 204; ok := true; text := ""; resp_json := None |} /\
  map req_method
      (sent (snd (call (JiraUpdateIssue "PROJ-1" (Some "New title") None None
                          None None None None) (world_with no_content))))
  = ["GET"; "PUT"] /\
  fst (call (JiraUpdateIssue "PROJ-1" (Some "New title") None None None None
               None None) (world_with no_content))
  = Returned (VDict [("success", VBool true); ("key", VStr "PROJ-1")]) /\
  fst (call (JiraUpdateIssue "PROJ-1" (Some "New title") None None None None
               None None) (world_with no_content))
  <> Returned (_err (not_configured_msg Jira)).
Proof. repeat split. discriminate. Qed.

End NotJsonExamples.

(** ** [jira_transition_issue] *)

Section TransitionFacts.
Context {F : PyFloat}.

Lemma sent_since_app (w w' : world) l :
  sent w' = (sent w ++ l)%list -> sent_since w w' = l.
Proof.
  intros H. unfold sent_since. rewrite H, skipn_app, skipn_all, Nat.sub_diag.
  reflexivity.
Qed.

(** What the loop finds is in the list and has the name looked for. *)
Lemma find_transition_found target ts t :
  jira_tools.find_transition target ts = Returned t -> truthy t = true ->
  In t ts /\ exists name, py_get t "name" (VStr "") = Returned (VStr name) /\
                          PyStr.lower name = target.
Proof.
  induction ts as [|t0 rest IH]; cbn [jira_tools.find_transition].
  - intros [= <-]. discriminate.
  - destruct (py_get t0 "name" (VStr "")) as [v|e] eqn:Hn; cbn [bind_o];
      [|discriminate].
    destruct (py_lower v) as [low|e] eqn:Hl; cbn [bind_o]; [|discriminate].
    destruct (String.eqb_spec low target) as [Heq|Hne].
    + intros [= <-] _. split; [now left|].
      destruct v; try discriminate Hl. injection Hl as <-. eauto.
    + intros H Ht. destruct (IH H Ht) as [Hin Hname]. split; [now right|exact Hname].
Qed.

(** The handlers only compute. *)
Lemma handled_sent e (w : world) :
  sent (snd (match jira_tools.handlers e with
             | Some h => h w
             | None => (Raised e, w)
             end)) = sent w.
Proof.
  unfold jira_tools.handlers.
  destruct (is_ValueError e); [reflexivity|].
  destruct (is_RequestException e); reflexivity.
Qed.

Lemma try_sent (m : M value) (w : world) :
  sent (snd (try_except m jira_tools.handlers w)) = sent (snd (m w)).
Proof.
  unfold try_except. destruct (m w) as [[a|e] w']; [reflexivity|].
  apply handled_sent.
Qed.

Lemma sent_since_eq (w w1 w2 : world) :
  sent w1 = sent w2 -> sent_since w w1 = sent_since w w2.
Proof. unfold sent_since. now intros ->. Qed.

Lemma bind_lift {A B} (o : outcome A) (k : A -> M B) (w : world) :
  bind (lift o) k w = match o with
                      | Returned a => k a w
                      | Raised e => (Raised e, w)
                      end.
Proof. unfold bind, lift. destruct o; reflexivity. Qed.

Lemma sent_since_logged (w : world) r :
  sent_since w (logged r w) = [r].
Proof. apply sent_since_app. reflexivity. Qed.

Lemma sent_since_logged2 (w : world) r1 r2 :
  sent_since w (logged r2 (logged r1 w)) = [r1; r2].
Proof. apply sent_since_app. cbn. now rewrite <- app_assoc. Qed.

Lemma transition_steps_post issue_key transition_name verify_ssl (w : world) r :
  has_jira (settings w) = true ->
  In r (sent_since w (snd (jira_tools.transition_steps issue_key transition_name
                             verify_ssl w))) ->
  req_method r = "POST" ->
  exists resp data transitions ts t id,
    transport w (List.length (sent w)) = Replies resp /\
    resp_json resp = Some data /\
    py_get data "transitions" (VList []) = Returned transitions /\
    py_iter transitions = Returned ts /\
    In t ts /\ named_like transition_name t /\
    py_item t "id" = Returned id /\
    r = transition_post (settings w) issue_key verify_ssl id.
Proof.
  intros Hc Hin Hpost.
  unfold jira_tools.transition_steps in Hin.
  rewrite (sent_since_eq w _ _ (try_sent _ w)) in Hin.
  unfold bind at 1 in Hin.
  rewrite jira_request_configured in Hin by exact Hc.
  unfold requests_request in Hin.
  fold (transitions_request (settings w) issue_key verify_ssl) in Hin.
  fold (logged (transitions_request (settings w) issue_key verify_ssl) w) in Hin.
  set (w1 := logged (transitions_request (settings w) issue_key verify_ssl) w) in *.
  assert (Hget : forall o : outcome value,
             In r (sent_since w (snd (o, w1))) -> False).
  { intros o H. cbn [snd] in H. unfold w1 in H. rewrite sent_since_logged in H.
    destruct H as [<-|[]]. discriminate Hpost. }
  destruct (transport w (List.length (sent w))) as [resp|e] eqn:Hreply;
    [|destruct (Hget _ Hin)].
  destruct (ok resp); cbn [negb] in Hin; [|destruct (Hget _ Hin)].
  rewrite bind_lift in Hin. unfold json in Hin.
  destruct (resp_json resp) as [data|] eqn:Hjson; [|destruct (Hget _ Hin)].
  rewrite bind_lift in Hin.
  destruct (py_get data "transitions" (VList [])) as [transitions|e] eqn:Htr;
    [|destruct (Hget _ Hin)].
  cbv zeta in Hin. rewrite bind_lift in Hin.
  destruct (py_iter transitions) as [ts|e] eqn:Hts; cbn [bind_o] in Hin;
    [|destruct (Hget _ Hin)].
  destruct (jira_tools.find_transition (PyStr.lower transition_name) ts)
    as [matched|e] eqn:Hfind; [|destruct (Hget _ Hin)].
  destruct (truthy matched) eqn:Htruthy; cbn [negb] in Hin.
  2:{ rewrite bind_lift in Hin.
      destruct (map_o _ ts); cbn [bind_o] in Hin; destruct (Hget _ Hin). }
  rewrite bind_lift in Hin.
  destruct (py_item matched "id") as [id|e] eqn:Hid; [|destruct (Hget _ Hin)].
  destruct (find_transition_found _ _ _ Hfind Htruthy) as [Hmem Hname].
  exists resp, data, transitions, ts, matched, id.
  repeat split; try assumption.
  assert (Hs : forall o : outcome value,
             In r (sent_since w
                     (snd (o, logged (transition_post (settings w) issue_key
                                        verify_ssl id) w1))) ->
             r = transition_post (settings w) issue_key verify_ssl id).
  { intros o H. cbn [snd] in H. unfold w1 in H. rewrite sent_since_logged2 in H.
    destruct H as [<-|[<-|[]]]; [discriminate Hpost|reflexivity]. }
  unfold bind at 1 in Hin.
  rewrite jira_request_configured in Hin by exact Hc.
  unfold requests_request in Hin.
  destruct (transport w1 _) as [resp2|e]; [|exact (Hs _ Hin)].
  destruct (ok resp2); cbn [negb] in Hin; [|exact (Hs _ Hin)].
  unfold lift in Hin. exact (Hs _ Hin).
Qed.

Lemma transition_steps_get_raises issue_key transition_name verify_ssl
    (w : world) (e : exn) :
  has_jira (settings w) = true ->
  transport w (List.length (sent w)) = Fails e ->
  jira_tools.transition_steps issue_key transition_name verify_ssl w
  = (if is_ValueError e then Returned (_err jira_tools._NOT_CONFIGURED_MSG)
     else if is_RequestException e
          then Returned (_err ("JIRA request error: " ++ exn_msg e))
          else Raised e,
     logged (transitions_request (settings w) issue_key verify_ssl) w).
Proof.
  intros Hc Hreply. unfold jira_tools.transition_steps, try_except, bind at 1.
  rewrite jira_request_configured by exact Hc.
  unfold requests_request. rewrite Hreply. unfold jira_tools.handlers.
  destruct (is_ValueError e); [reflexivity|].
  destruct (is_RequestException e); reflexivity.
Qed.

Lemma transition_steps_get_refused issue_key transition_name verify_ssl
    (w : world) (resp : response) :
  has_jira (settings w) = true ->
  transport w (List.length (sent w)) = Replies resp ->
  ok resp = false ->
  jira_tools.transition_steps issue_key transition_name verify_ssl w
  = (Returned (_resp_err "Failed to get transitions" resp),
     logged (transitions_request (settings w) issue_key verify_ssl) w).
Proof.
  intros Hc Hreply Hok. unfold jira_tools.transition_steps, try_except, bind at 1.
  rewrite jira_request_configured by exact Hc.
  unfold requests_request. rewrite Hreply, Hok. reflexivity.
Qed.

(** The loop over transitions none of which has the name looked for. *)
Lemma find_transition_none transition_name ts names :
  Forall2 has_name ts names ->
  Forall (fun name => PyStr.lower name <> PyStr.lower transition_name) names ->
  jira_tools.find_transition (PyStr.lower transition_name) ts = Returned VNone /\
  map_o (fun t => py_get t "name" VNone) ts = Returned (map VStr names).
Proof.
  induction 1 as [|t name ts names (d & -> & Hname) _ IH]; intros Hall;
    [now split|].
  inversion Hall as [|? ? Hne Hrest]; subst.
  destruct (IH Hrest) as [IH1 IH2].
  cbn [jira_tools.find_transition map_o py_get bind_o map].
  rewrite Hname. cbn [bind_o py_lower]. rewrite IH2. cbn [bind_o].
  apply String.eqb_neq in Hne. rewrite Hne. now split.
Qed.

Lemma repr_names names :
  py_repr (VList (map VStr names))
  = "[" ++ PyStr.join ", " (map PyStr.repr_str names) ++ "]".
Proof. cbn [py_repr]. now rewrite map_map. Qed.

Lemma transition_steps_no_match issue_key transition_name verify_ssl
    (w : world) (resp : response) (data : value) ts names :
  has_jira (settings w) = true ->
  transport w (List.length (sent w)) = Replies resp ->
  ok resp = true -> resp_json resp = Some data ->
  py_get data "transitions" (VList []) = Returned (VList ts) ->
  Forall2 has_name ts names ->
  Forall (fun name => PyStr.lower name <> PyStr.lower transition_name) names ->
  jira_tools.transition_steps issue_key transition_name verify_ssl w
  = (Returned (_err (transition_not_found transition_name names)),
     logged (transitions_request (settings w) issue_key verify_ssl) w).
Proof.
  intros Hc Hreply Hok Hjson Htr Hnames Hnone.
  destruct (find_transition_none transition_name ts names Hnames Hnone)
    as [Hfind Havail].
  unfold jira_tools.transition_steps, try_except, bind at 1.
  rewrite jira_request_configured by exact Hc.
  unfold requests_request. rewrite Hreply, Hok. cbn [negb].
  rewrite bind_lift. unfold json. rewrite Hjson.
  rewrite bind_lift, Htr. cbv zeta. rewrite bind_lift.
  cbn [py_iter bind_o]. rewrite Hfind. cbn [truthy negb].
  rewrite bind_lift, Havail. unfold ret, transition_not_found.
  rewrite repr_names. reflexivity.
Qed.

Lemma transition_after_probe issue_key transition_name verify_ssl (w : world) :
  jira_tools.jira_transition_issue issue_key transition_name verify_ssl w
  = jira_tools.transition_steps issue_key transition_name verify_ssl
      (probed verify_ssl w).
Proof.
  unfold jira_tools.jira_transition_issue, bind, probed.
  rewrite detect_api_version_run. reflexivity.
Qed.

Lemma probed_sent verify_ssl (w : world) :
  exists l, sent (probed verify_ssl w) = (sent w ++ l)%list /\
            Forall (fun r => req_method r = "GET") l.
Proof.
  unfold probed. rewrite detect_api_version_run. cbn [snd].
  destruct (_api_version w).
  - exists []. now rewrite app_nil_r.
  - unfold after_probe. cbn [sent]. destruct (probes w).
    + eexists. split; [reflexivity|]. repeat constructor.
    + exists []. now rewrite app_nil_r.
Qed.

(** The loop stops at the first transition with the name looked for. *)
Lemma find_transition_first target pre d post name :
  Forall (fun t => exists n, has_name t n /\ PyStr.lower n <> target) pre ->
  dict_lookup "name" d = Some (VStr name) ->
  PyStr.lower name = target ->
  jira_tools.find_transition target (pre ++ VDict d :: post)%list
  = Returned (VDict d).
Proof.
  intros Hpre Hname Hlow. induction Hpre as [|t pre (n & (d0 & -> & Hn) & Hne) _ IH].
  - cbn [app jira_tools.find_transition py_get]. rewrite Hname.
    cbn [bind_o py_lower]. rewrite Hlow, String.eqb_refl. reflexivity.
  - cbn [app jira_tools.find_transition py_get]. rewrite Hn.
    cbn [bind_o py_lower]. apply String.eqb_neq in Hne. rewrite Hne. exact IH.
Qed.

(** The first transition with the name looked for is posted. *)
Lemma transition_first_match_log (issue_key transition_name : string)
    (verify_ssl : option bool) (w : world) (resp : response) (data : value)
    (pre post : list value) (d : dict) (name : string) (id : value) :
    has_jira (settings w) = true ->
    transport w (List.length (sent (probed verify_ssl w))) = Replies resp ->
    ok resp = true -> resp_json resp = Some data ->
    py_get data "transitions" (VList [])
    = Returned (VList (pre ++ VDict d :: post)) ->
    Forall (fun t => exists n, has_name t n /\
                               PyStr.lower n <> PyStr.lower transition_name) pre ->
    dict_lookup "name" d = Some (VStr name) ->
    PyStr.lower name = PyStr.lower transition_name ->
    dict_lookup "id" d = Some id ->
    sent (snd (jira_tools.jira_transition_issue issue_key transition_name
                 verify_ssl w))
    = (sent (probed verify_ssl w)
       ++ [transitions_request (settings w) issue_key verify_ssl;
           transition_post (settings w) issue_key verify_ssl id])%list.
Proof.
  intros Hc Hreply Hok Hjson Htr Hpre Hname Hlow Hid.
  rewrite transition_after_probe.
  destruct (detect_keeps verify_ssl w) as [Hs Ht].
  fold (probed verify_ssl w) in Hs, Ht.
  set (w0 := probed verify_ssl w) in *.
  rewrite <- Hs in Hc. rewrite <- Ht in Hreply. rewrite <- Hs.
  unfold jira_tools.transition_steps. rewrite try_sent.
  unfold bind at 1. rewrite jira_request_configured by exact Hc.
  unfold requests_request at 1. rewrite Hreply, Hok. cbn [negb].
  rewrite bind_lift. unfold json. rewrite Hjson.
  rewrite bind_lift, Htr. cbv zeta. rewrite bind_lift. cbn [py_iter bind_o].
  rewrite (find_transition_first _ pre d post name Hpre Hname Hlow).
  assert (Htruthy : truthy (VDict d) = true).
  { destruct d; [discriminate Hname|reflexivity]. }
  rewrite Htruthy. cbn [negb]. rewrite bind_lift. cbn [py_item]. rewrite Hid.
  unfold bind at 1.
  match goal with
  | |- context [jira_tools._jira_request ?m ?p ?v ?kw ?w1] =>
      rewrite (jira_request_configured m p v kw w1) by exact Hc
  end.
  unfold requests_request. cbn [settings sent transport].
  match goal with
  | |- context [match ?t with Replies _ => _ | Fails _ => _ end] =>
      destruct t as [resp2|e]; [destruct (ok resp2)|]
  end;
    cbn [negb snd sent bind ret lift]; rewrite <- app_assoc; reflexivity.
Qed.

End TransitionFacts.

(** C5. [jira_transition_issue(issue_key, transition_name)]:
    - when the fetched listing holds a transition whose name equals
      [transition_name] up to case, and the transitions before it have
      other names, that transition is executed: after the GET of the
      listing the call sends the POST with its id, and nothing else;
    - conversely, a POST it issues executes a transition of the fetched
      listing whose name equals [transition_name] up to case (the POST
      carries that transition's id);
    - when the listing holds transitions with names none of which equals
      [transition_name] up to case, it returns the error whose message
      lists the names in the order of the listing, each as Python prints
      it, and the GET stays the last request;
    - when the GET of the listing fails (JIRA not configured, the
      transport raising, a status that is not a success), the failure is
      returned and no POST follows. *)
Theorem transition_issue_by_name {F : PyFloat} :
  forall (issue_key transition_name : string) (verify_ssl : option bool)
         (w : world),
    (forall (resp : response) (data : value) (pre post : list value)
            (d : dict) (name : string) (id : value),
       has_jira (settings w) = true ->
       transport w (List.length (sent (probed verify_ssl w))) = Replies resp ->
       ok resp = true -> resp_json resp = Some data ->
       py_get data "transitions" (VList [])
       = Returned (VList (pre ++ VDict d :: post)) ->
       Forall (fun t => exists n, has_name t n /\
                                  PyStr.lower n <> PyStr.lower transition_name)
         pre ->
       dict_lookup "name" d = Some (VStr name) ->
       PyStr.lower name = PyStr.lower transition_name ->
       dict_lookup "id" d = Some id ->
       sent (snd (jira_tools.jira_transition_issue issue_key transition_name
                    verify_ssl w))
       = (sent (probed verify_ssl w)
          ++ [transitions_request (settings w) issue_key verify_ssl;
              transition_post (settings w) issue_key verify_ssl id])%list) /\
    (forall r : request,
       In r (sent_since w (snd (jira_tools.jira_transition_issue issue_key
                                  transition_name verify_ssl w))) ->
       req_method r = "POST" ->
       exists resp data transitions ts t id,
         transport w (List.length (sent (probed verify_ssl w))) = Replies resp /\
         resp_json resp = Some data /\
         py_get data "transitions" (VList []) = Returned transitions /\
         py_iter transitions = Returned ts /\
         In t ts /\ named_like transition_name t /\
         py_item t "id" = Returned id /\
         r = transition_post (settings w) issue_key verify_ssl id) /\
    (forall (resp : response) (data : value) (ts : list value)
            (names : list string),
       has_jira (settings w) = true ->
       transport w (List.length (sent (probed verify_ssl w))) = Replies resp ->
       ok resp = true -> resp_json resp = Some data ->
       py_get data "transitions" (VList []) = Returned (VList ts) ->
       Forall2 has_name ts names ->
       Forall (fun name => PyStr.lower name <> PyStr.lower transition_name) names ->
       fst (jira_tools.jira_transition_issue issue_key transition_name
              verify_ssl w)
       = Returned (_err (transition_not_found transition_name names)) /\
       sent (snd (jira_tools.jira_transition_issue issue_key transition_name
                    verify_ssl w))
       = (sent (probed verify_ssl w)
          ++ [transitions_request (settings w) issue_key verify_ssl])%list) /\
    (has_jira (settings w) = false ->
     fst (jira_tools.jira_transition_issue issue_key transition_name verify_ssl w)
     = Returned (_err jira_tools._NOT_CONFIGURED_MSG) /\
     sent (snd (jira_tools.jira_transition_issue issue_key transition_name
                  verify_ssl w)) = sent w) /\
    (forall e : exn,
       has_jira (settings w) = true ->
       transport w (List.length (sent (probed verify_ssl w))) = Fails e ->
       (exn_class_of e = RequestException ->
        fst (jira_tools.jira_transition_issue issue_key transition_name
               verify_ssl w)
        = Returned (_err ("JIRA request error: " ++ exn_msg e))) /\
       sent (snd (jira_tools.jira_transition_issue issue_key transition_name
                    verify_ssl w))
       = (sent (probed verify_ssl w)
          ++ [transitions_request (settings w) issue_key verify_ssl])%list) /\
    (forall resp : response,
       has_jira (settings w) = true ->
       transport w (List.length (sent (probed verify_ssl w))) = Replies resp ->
       ok resp = false ->
       fst (jira_tools.jira_transition_issue issue_key transition_name
              verify_ssl w)
       = Returned (_resp_err "Failed to get transitions" resp) /\
       sent (snd (jira_tools.jira_transition_issue issue_key transition_name
                    verify_ssl w))
       = (sent (probed verify_ssl w)
          ++ [transitions_request (settings w) issue_key verify_ssl])%list).
Proof.
  intros issue_key transition_name verify_ssl w.
  split.
  { intros resp data pre post d name id.
    apply transition_first_match_log. }
  pose proof (detect_keeps verify_ssl w) as [Hset Htrans].
  fold (probed verify_ssl w) in Hset, Htrans.
  rewrite transition_after_probe.
  set (w1 := probed verify_ssl w) in *.
  assert (Hunconf : has_jira (settings w) = false ->
            fst (jira_tools.transition_steps issue_key transition_name
                   verify_ssl w1)
            = Returned (_err jira_tools._NOT_CONFIGURED_MSG) /\
            sent (snd (jira_tools.transition_steps issue_key transition_name
                         verify_ssl w1)) = sent w).
  { intros Hc.
    destruct (unconfigured_call
                (JiraTransitionIssue issue_key transition_name verify_ssl) w Hc
                eq_refl)
      as (w' & E & Hs).
    cbn [call] in E. rewrite transition_after_probe in E. fold w1 in E.
    rewrite E. now split. }
  split; [|split; [|split; [exact Hunconf|split]]].
  - intros r Hin Hpost.
    destruct (has_jira (settings w)) eqn:Hc.
    2:{ destruct (Hunconf eq_refl) as [_ Hs].
        rewrite (sent_since_app w _ []) in Hin by (now rewrite app_nil_r).
        destruct Hin. }
    destruct (probed_sent verify_ssl w) as (l0 & Hl0 & Hget). fold w1 in Hl0.
    assert (Hsteps : issues (settings w1) any_request
                       (jira_tools.transition_steps issue_key transition_name
                          verify_ssl)).
    { unfold jira_tools.transition_steps. repeat issues_step; exact I. }
    destruct (Hsteps w1 eq_refl) as (l1 & Hl1 & _ & _).
    rewrite (sent_since_app w _ (l0 ++ l1)) in Hin
      by (now rewrite Hl1, Hl0, app_assoc).
    apply in_app_or in Hin. destruct Hin as [Hin|Hin].
    { rewrite Forall_forall in Hget. rewrite (Hget r Hin) in Hpost.
      discriminate Hpost. }
    rewrite <- (sent_since_app w1 _ l1 Hl1) in Hin.
    rewrite <- Hset in Hc.
    destruct (transition_steps_post issue_key transition_name verify_ssl w1 r
                Hc Hin Hpost)
      as (resp & data & transitions & ts & t & id & H1 & H2 & H3 & H4 & H5
          & H6 & H7 & H8).
    exists resp, data, transitions, ts, t, id.
    rewrite Htrans, Hset in *. repeat split; assumption.
  - intros resp data ts names Hc Hreply Hok Hjson Htr Hnames Hnone.
    rewrite <- Hset in Hc. rewrite <- Htrans in Hreply.
    rewrite (transition_steps_no_match issue_key transition_name verify_ssl w1
               resp data ts names Hc Hreply Hok Hjson Htr Hnames Hnone).
    rewrite Hset. now split.
  - intros e Hc Hreply.
    rewrite <- Hset in Hc. rewrite <- Htrans in Hreply.
    rewrite (transition_steps_get_raises issue_key transition_name verify_ssl
               w1 e Hc Hreply).
    rewrite Hset. split; [|reflexivity].
    unfold is_ValueError, is_RequestException. now intros ->.
  - intros resp Hc Hreply Hok.
    rewrite <- Hset in Hc. rewrite <- Htrans in Hreply.
    rewrite (transition_steps_get_refused issue_key transition_name verify_ssl
               w1 resp Hc Hreply Hok).
    rewrite Hset. now split.
Qed.

Section TransitionExamples.
#[local] Existing Instance no_float.

Lemma transition_issue_by_name_witness :
  sent (snd (jira_tools.jira_transition_issue "PROJ-1" "done" None
               (world_with listing_replies)))
  = (sent (probed None (world_with listing_replies))
     ++ [transitions_request example_settings "PROJ-1" None;
         transition_post example_settings "PROJ-1" None (VStr "31")])%list /\
  fst (jira_tools.jira_transition_issue "PROJ-1" "Close" None
         (world_with listing_replies))
  = Returned (_err "Transition 'Close' not found. Available: ['To Do', 'Done']").
Proof.
  split.
  - destruct (transition_issue_by_name "PROJ-1" "done" None
                (world_with listing_replies)) as [H _].
    apply (H {| status_code := 200; ok := true; text := listing_text;
                resp_json := Some listing |}
             listing [to_do] []
             [("id", VStr "31"); ("name", VStr "Done");
              ("to", VDict [("name", VStr "Done")])]
             "Done" (VStr "31")); try reflexivity.
    repeat constructor. exists "To Do". split.
    + eexists. split; reflexivity.
    + discriminate.
  - destruct (transition_issue_by_name "PROJ-1" "Close" None
                (world_with listing_replies)) as (_ & _ & H & _).
    apply (H {| status_code := 200; ok := true; text := listing_text;
                resp_json := Some listing |}
             listing [to_do; done] ["To Do"; "Done"]); try reflexivity.
    + repeat constructor; eexists; (split; [reflexivity|reflexivity]).
    + repeat constructor; discriminate.
Defined.

(** [transition_issue(key, "done")] executes the transition named Done. *)
Example transition_done :
  fst (jira_tools.jira_transition_issue "PROJ-1" "done" None
         (world_with listing_replies))
  = Returned (VDict [("success", VBool true); ("key", VStr "PROJ-1");
                     ("transition", VStr "Done"); ("to_status", VStr "Done")]) /\
  map (fun r => (req_method r, req_json r))
      (sent (snd (jira_tools.jira_transition_issue "PROJ-1" "done" None
                    (world_with listing_replies))))
  = [("GET", None); ("GET", None);
     ("POST", Some (VDict [("transition", VDict [("id", VStr "31")])]))].
Proof. split; reflexivity. Qed.

End TransitionExamples.

(** ** The tools at work *)

Section ToolExamples.
#[local] Existing Instance no_float.

(** [confluence_get_page(page_id="4711")] flattens the page and
    normalizes its body. *)
Example get_page_by_id :
  fst (confluence_tools.confluence_get_page (Some "4711") None None None
         (world_with (fun _ => respond 200 "" (Some page_4711))))
  = Returned (VDict [("success", VBool true); ("id", VStr "4711");
                     ("title", VStr "Runbook"); ("space_key", VStr "DEV");
                     ("version", VInt 7); ("body_html", VStr hello_world_html);
                     ("body_text", VStr hello_world_text);
                     ("url", VStr "/display/DEV/Runbook")]).
Proof. reflexivity. Qed.

(** [jira_search] reads a missing assignee as [None]. *)
Example search_issues :
  fst (jira_tools.jira_search "project = PROJ" 20 None None
         (world_with (fun _ => respond 200 "" (Some found_issues))))
  = Returned
      (VDict [("success", VBool true); ("total", VInt 2);
              ("issues",
               VList [VDict [("key", VStr "PROJ-1"); ("summary", VStr "First");
                             ("status", VStr "Open"); ("assignee", VStr "Alice");
                             ("priority", VNone); ("created", VNone);
                             ("updated", VNone)];
                      VDict [("key", VStr "PROJ-2"); ("summary", VStr "Second");
                             ("status", VStr "Done"); ("assignee", VNone);
                             ("priority", VNone); ("created", VNone);
                             ("updated", VNone)]])]).
Proof. reflexivity. Qed.

(** A body that is JSON but not an object raises out of the tool. *)
Example search_on_a_list :
  exists e, exn_class_of e = AttributeError /\
    fst (confluence_tools.confluence_search "deployment issues" 10 None None
           (world_with (fun _ => respond 200 "[]" (Some (VList [])))))
    = Raised e.
Proof.
  eexists. split.
  2:{ rewrite confluence_search_run by (apply fits_str_small; reflexivity).
      reflexivity. }
  reflexivity.
Qed.

(** [confluence_update_page] sends the version it read plus one. *)
Example update_page_increments :
  map (fun r => (req_method r, req_json r))
      (sent (snd (confluence_tools.confluence_update_page "4711" "Runbook"
                    "<p>new</p>" (Some "typo") None
                    (world_with (fun _ => respond 200 "" (Some page_4711))))))
  = [("GET", None);
     ("PUT",
      Some (VDict [("type", VStr "page"); ("title", VStr "Runbook");
                   ("body",
                    VDict [("storage",
                            VDict [("value", VStr "<p>new</p>");
                                   ("representation", VStr "storage")])]);
                   ("version",
                    VDict [("number", VInt 8); ("message", VStr "typo")])]))].
Proof. reflexivity. Qed.

End ToolExamples.

(* ================================================================== *)
(** * Part III: further properties of the tools                        *)
(* ================================================================== *)

(** ** What escapes a tool *)

Section Raises.
Context {F : PyFloat}.

Lemma raises_ret {A} (P : exn -> Prop) (a : A) : raises P (ret a).
Proof. intros w e w' H. discriminate H. Qed.

Lemma raises_lift {A} (P : exn -> Prop) (o : outcome A) :
  (forall e, o = Raised e -> P e) -> raises P (lift o).
Proof. intros Ho w e w' H. unfold lift in H. injection H as H _. auto. Qed.

Lemma raises_bind {A B} (P : exn -> Prop) (m : M A) (k : A -> M B) :
  raises P m -> (forall a, raises P (k a)) -> raises P (bind m k).
Proof.
  intros Hm Hk w e w' H. unfold bind in H.
  destruct (m w) as [[a|e0] w1] eqn:E.
  - exact (Hk a w1 e w' H).
  - injection H as <- <-. exact (Hm w e0 w1 E).
Qed.

(** Whatever the body of a [try] statement raises, what gets past the
    two [except] clauses is neither a ValueError nor a
    RequestException. *)
Lemma raises_try_confluence (body : M value) :
  raises unhandled (try_except body confluence_tools.handlers).
Proof.
  intros w e w' H. unfold try_except in H.
  destruct (body w) as [[a|e0] w1]; [discriminate H|].
  unfold confluence_tools.handlers in H.
  destruct (is_ValueError e0) eqn:Hv; [discriminate H|].
  destruct (is_RequestException e0) eqn:Hr; [discriminate H|].
  injection H as <- _. now split.
Qed.

Lemma raises_try_jira (body : M value) :
  raises unhandled (try_except body jira_tools.handlers).
Proof.
  intros w e w' H. unfold try_except in H.
  destruct (body w) as [[a|e0] w1]; [discriminate H|].
  unfold jira_tools.handlers in H.
  destruct (is_ValueError e0) eqn:Hv; [discriminate H|].
  destruct (is_RequestException e0) eqn:Hr; [discriminate H|].
  injection H as <- _. now split.
Qed.

Lemma raises_try_first {A} (body : M (value + A)) :
  raises unhandled
    (try_except body
       (fun e => option_map (fun h : M value => r <- h ;; ret (inl r))
                   (confluence_tools.handlers e))).
Proof.
  intros w e w' H. unfold try_except in H.
  destruct (body w) as [[a|e0] w1]; [discriminate H|].
  unfold confluence_tools.handlers in H.
  destruct (is_ValueError e0) eqn:Hv; [discriminate H|].
  destruct (is_RequestException e0) eqn:Hr; [discriminate H|].
  injection H as <- _. now split.
Qed.

(** The probe raises nothing. *)
Lemma raises_detect (P : exn -> Prop) verify_ssl :
  raises P (jira_tools._detect_api_version verify_ssl).
Proof.
  intros w e w' H. rewrite detect_api_version_run in H. discriminate H.
Qed.

Lemma py_add_int_raises (v : value) n e :
  py_add_int v n = Raised e -> unhandled e.
Proof. destruct v; cbn; try discriminate; intros [= <-]; now split. Qed.

Lemma call_raises (c : tool_call) :
  limit_fits c = true -> raises unhandled (call c).
Proof.
  intros Hfit. destruct c; cbn [call limit_fits] in *.
  - intros w e w' H. rewrite confluence_search_run in H by exact Hfit.
    exact (raises_try_confluence _ w e w' H).
  - apply raises_try_confluence.
  - apply raises_try_confluence.
  - unfold confluence_tools.confluence_update_page.
    apply raises_bind; [apply raises_try_first|].
    intros [result|current_version]; [apply raises_ret|].
    apply raises_bind; [apply raises_lift, py_add_int_raises|].
    intros number. apply raises_try_confluence.
  - apply raises_bind; [apply raises_detect|]. intros _. apply raises_try_jira.
  - apply raises_bind; [apply raises_detect|]. intros _. apply raises_try_jira.
  - apply raises_bind; [apply raises_detect|]. intros _. apply raises_try_jira.
  - apply raises_bind; [apply raises_detect|]. intros _. cbv zeta.
    destruct (negb _); [apply raises_ret|apply raises_try_jira].
  - apply raises_bind; [apply raises_detect|]. intros _. apply raises_try_jira.
  - apply raises_bind; [apply raises_detect|]. intros _. apply raises_try_jira.
Qed.

End Raises.

(** X1. No tool lets a RequestException out, and the one ValueError
    that gets out of a tool is that of [str(max_results)] in
    [confluence_search], which stands before the [try] statement and is
    raised for a [max_results] of more than 4300 digits, before any
    request and whatever the configuration.  Whatever else a call of any
    of the ten tools raises is of another class (such as the
    AttributeError of [.get] on a body that is not an object). *)
Theorem tools_let_out_no_request_error {F : PyFloat} :
  forall (c : tool_call) (w : world),
    (limit_fits c = true ->
     forall e : exn,
       fst (call c w) = Raised e ->
       is_ValueError e = false /\ is_RequestException e = false) /\
    (limit_fits c = false ->
     exists e : exn,
       call c w = (Raised e, w) /\ exn_class_of e = ValueError).
Proof.
  intros c w. split.
  - intros Hfit e H. destruct (call c w) as [o w'] eqn:E. cbn in H. subst o.
    exact (call_raises c Hfit w e w' E).
  - intros Hfit. destruct c; try discriminate Hfit. cbn [limit_fits call] in *.
    unfold confluence_tools.confluence_search, bind, lift, py_str_int.
    rewrite Hfit. eexists. split; reflexivity.
Qed.

Section RaisesExamples.
#[local] Existing Instance no_float.

Lemma tools_let_out_no_request_error_witness :
  (is_ValueError (no_attribute (VList []) "get") = false /\
   is_RequestException (no_attribute (VList []) "get") = false) /\
  (exists e : exn,
     call (ConfluenceSearch "deployment issues" PyStr.str_digits_limit None None)
       (world_with not_found)
     = (Raised e, world_with not_found) /\
     exn_class_of e = ValueError).
Proof.
  split.
  - apply (proj1 (tools_let_out_no_request_error
                    (ConfluenceSearch "deployment issues" 10 None None)
                    (world_with (fun _ => respond 200 "[]" (Some (VList []))))));
      [apply fits_str_small; reflexivity|].
    cbn [call].
    rewrite confluence_search_run by (apply fits_str_small; reflexivity).
    reflexivity.
  - apply (proj2 (tools_let_out_no_request_error
                    (ConfluenceSearch "deployment issues" PyStr.str_digits_limit
                       None None)
                    (world_with not_found))).
    exact str_digits_limit_refused.
Defined.

End RaisesExamples.

(** ** Rules for what a computation returns *)

Section Returns.
Context {F : PyFloat}.

Lemma returns_ret {A} (P : A -> Prop) (a : A) : P a -> returns P (ret a).
Proof. intros Ha w a' w' H. injection H as <- _. exact Ha. Qed.

Lemma returns_lift {A} (P : A -> Prop) (o : outcome A) :
  (forall a, o = Returned a -> P a) -> returns P (lift o).
Proof. intros Ho w a w' H. unfold lift in H. injection H as H _. auto. Qed.

Lemma returns_bind {A B} (Q : A -> Prop) (P : B -> Prop) (m : M A)
    (k : A -> M B) :
  returns Q m -> (forall a, Q a -> returns P (k a)) -> returns P (bind m k).
Proof.
  intros Hm Hk w b w' H. unfold bind in H.
  destruct (m w) as [[a|e0] w1] eqn:E; [|discriminate H].
  exact (Hk a (Hm w a w1 E) w1 b w' H).
Qed.

Lemma returns_any {A} (m : M A) : returns (fun _ => True) m.
Proof. intros w a w' _. exact I. Qed.

Lemma returns_try {A} (P : A -> Prop) (body : M A) (handler : exn -> option (M A)) :
  returns P body -> (forall e h, handler e = Some h -> returns P h) ->
  returns P (try_except body handler).
Proof.
  intros Hb Hh w a w' H. unfold try_except in H.
  destruct (body w) as [[a0|e0] w1] eqn:E.
  - injection H as <- _. exact (Hb w a0 w1 E).
  - destruct (handler e0) as [h|] eqn:Eh; [|discriminate H].
    exact (Hh e0 h Eh w1 a w' H).
Qed.

Lemma bind_o_returned {A B} (P : B -> Prop) (o : outcome A) (k : A -> outcome B) b :
  (forall a, k a = Returned b -> P b) -> bind_o o k = Returned b -> P b.
Proof. intros Hk. destruct o as [a|e]; cbn; [apply Hk|discriminate]. Qed.

End Returns.

(** ** How many requests a tool sends *)

Section AtMost.
Context {F : PyFloat}.

Lemma at_most_ret n {A} (a : A) : at_most n (ret a).
Proof. intros w. exists []. cbn. rewrite app_nil_r. split; [reflexivity|lia]. Qed.

Lemma at_most_lift n {A} (o : outcome A) : at_most n (lift o).
Proof. intros w. exists []. cbn. rewrite app_nil_r. split; [reflexivity|lia]. Qed.

Lemma at_most_bind a b {A B} (m : M A) (k : A -> M B) :
  at_most a m -> (forall x, at_most b (k x)) -> at_most (a + b) (bind m k).
Proof.
  intros Hm Hk w. destruct (Hm w) as (l & Hl & Hn).
  unfold bind. destruct (m w) as [[x|e] w1]; cbn [snd] in *.
  - destruct (Hk x w1) as (l' & Hl' & Hn').
    exists (l ++ l')%list. rewrite Hl', Hl, app_assoc, length_app.
    split; [reflexivity|lia].
  - exists l. split; [exact Hl|lia].
Qed.

Lemma at_most_try n {A} (body : M A) (handler : exn -> option (M A)) :
  at_most n body -> (forall e h, handler e = Some h -> at_most 0 h) ->
  at_most n (try_except body handler).
Proof.
  intros Hm Hh w. destruct (Hm w) as (l & Hl & Hn).
  unfold try_except. destruct (body w) as [[x|e] w1]; cbn [snd] in *.
  - exists l. now split.
  - destruct (handler e) as [h|] eqn:E; [|exists l; now split].
    destruct (Hh e h E w1) as (l' & Hl' & Hn').
    destruct l'; [|cbn in Hn'; lia].
    exists l. rewrite Hl', app_nil_r. now split.
Qed.

Lemma at_most_request n (r : request) : at_most (S n) (requests_request r).
Proof.
  intros w. exists [r]. unfold requests_request.
  destruct (transport w _); cbn; split; try reflexivity; lia.
Qed.

Lemma at_most_confluence_request n method path verify_ssl kw :
  at_most (S n) (confluence_tools._confluence_request method path verify_ssl kw).
Proof.
  intros w. destruct (has_confluence (settings w)) eqn:Hc.
  - rewrite confluence_request_configured by exact Hc. apply at_most_request.
  - destruct (confluence_request_unconfigured method path verify_ssl kw w Hc)
      as [e [_ ->]].
    exists []. cbn. rewrite app_nil_r. split; [reflexivity|lia].
Qed.

Lemma at_most_jira_request n method path verify_ssl kw :
  at_most (S n) (jira_tools._jira_request method path verify_ssl kw).
Proof.
  intros w. destruct (has_jira (settings w)) eqn:Hc.
  - rewrite jira_request_configured by exact Hc. apply at_most_request.
  - destruct (jira_request_unconfigured method path verify_ssl kw w Hc)
      as [e [_ ->]].
    exists []. cbn. rewrite app_nil_r. split; [reflexivity|lia].
Qed.

Lemma at_most_handlers_confluence e h :
  confluence_tools.handlers e = Some h -> at_most 0 h.
Proof.
  unfold confluence_tools.handlers.
  destruct (is_ValueError e); [intros [= <-]; apply at_most_ret|].
  destruct (is_RequestException e); [intros [= <-]; apply at_most_ret|discriminate].
Qed.

Lemma at_most_handlers_jira e h :
  jira_tools.handlers e = Some h -> at_most 0 h.
Proof.
  unfold jira_tools.handlers.
  destruct (is_ValueError e); [intros [= <-]; apply at_most_ret|].
  destruct (is_RequestException e); [intros [= <-]; apply at_most_ret|discriminate].
Qed.

Lemma at_most_handlers_first {A} e (h : M (value + A)) :
  option_map (fun h : M value => r <- h ;; ret (inl r))
    (confluence_tools.handlers e) = Some h ->
  at_most 0 h.
Proof.
  destruct (confluence_tools.handlers e) as [h0|] eqn:E; [|discriminate].
  intros [= <-]. apply (at_most_bind 0 0).
  - eapply at_most_handlers_confluence, E.
  - intros r. apply at_most_ret.
Qed.

End AtMost.

(** Walks through the body of a tool, one request at a time. *)
Ltac at_most_step :=
  match goal with
  | |- at_most _ (try_except _ confluence_tools.handlers) =>
      apply at_most_try; [|apply at_most_handlers_confluence]
  | |- at_most _ (try_except _ jira_tools.handlers) =>
      apply at_most_try; [|apply at_most_handlers_jira]
  | |- at_most _ (try_except _ (fun e => option_map _ _)) =>
      apply at_most_try; [|apply at_most_handlers_first]
  | |- at_most (S ?n) (bind (confluence_tools._confluence_request _ _ _ _) _) =>
      apply (at_most_bind 1 n);
      [apply at_most_confluence_request|intros ?]
  | |- at_most (S ?n) (bind (jira_tools._jira_request _ _ _ _) _) =>
      apply (at_most_bind 1 n); [apply at_most_jira_request|intros ?]
  | |- at_most ?n (bind (lift _) _) =>
      apply (at_most_bind 0 n); [apply at_most_lift|intros ?]
  | |- at_most _ (ret _) => apply at_most_ret
  | |- at_most _ (lift _) => apply at_most_lift
  | |- at_most _ _ => progress cbv beta zeta
  | |- at_most _ (if ?b then _ else _) => destruct b
  | |- at_most _ (match ?x with _ => _ end) => destruct x
  end.

Section AtMostTools.
Context {F : PyFloat}.

Lemma confluence_call_at_most (c : tool_call) :
  service_of c = Confluence -> at_most (own_requests c) (call c).
Proof.
  intros Hsv. destruct c; try discriminate Hsv; cbn [call own_requests].
  - unfold confluence_tools.confluence_search, confluence_tools.search_steps.
    repeat at_most_step.
  - unfold confluence_tools.confluence_get_page. repeat at_most_step.
  - unfold confluence_tools.confluence_create_page. repeat at_most_step.
  - unfold confluence_tools.confluence_update_page.
    apply (at_most_bind 1 1); [repeat at_most_step|].
    intros first. repeat at_most_step.
Qed.

(** A computation that starts with the probe. *)
Lemma at_most_after_detect n {A} verify_ssl (k : string -> M A) (w : world) :
  (forall v, at_most n (k v)) ->
  exists l,
    sent (snd (bind (jira_tools._detect_api_version verify_ssl) k w))
    = (sent w ++ l)%list /\
    (List.length l <= n + (if probes w then 1 else 0))%nat.
Proof.
  intros Hk. unfold bind. rewrite detect_api_version_run.
  unfold probes. destruct (_api_version w) as [v|] eqn:Hv.
  - destruct (Hk v w) as (l & Hl & Hn). exists l. rewrite andb_false_r.
    split; [exact Hl|lia].
  - destruct (Hk "2" (after_probe verify_ssl w)) as (l & Hl & Hn).
    rewrite Hl. unfold after_probe, probes. cbn [sent]. rewrite Hv, andb_true_r.
    destruct (has_jira (settings w)).
    + exists (probe_request (settings w) verify_ssl :: l).
      rewrite <- app_assoc. split; [reflexivity|cbn; lia].
    + exists l. split; [reflexivity|lia].
Qed.

End AtMostTools.

(** X2. A call never rewrites the log of requests and sends few of
    them: at most one request of its own, two for
    [confluence_update_page] and [jira_transition_issue], and for a
    JIRA tool one more when the probe has to run.  Nothing is sent
    twice: there is no retry. *)
Theorem tools_send_few_requests {F : PyFloat} :
  forall (c : tool_call) (w : world),
    exists l,
      sent (snd (call c w)) = (sent w ++ l)%list /\
      (List.length l <= own_requests c + probe_requests c w)%nat.
Proof.
  intros c w. destruct (service_of c) eqn:Hsv.
  - destruct (confluence_call_at_most c Hsv w) as (l & Hl & Hn).
    exists l. unfold probe_requests. rewrite Hsv. split; [exact Hl|lia].
  - unfold probe_requests. rewrite Hsv.
    destruct c; try discriminate Hsv; cbn [call own_requests].
    + apply at_most_after_detect. intros v. repeat at_most_step.
    + apply at_most_after_detect. intros v. repeat at_most_step.
    + apply at_most_after_detect. intros v. repeat at_most_step.
    + apply at_most_after_detect. intros v. repeat at_most_step.
    + apply at_most_after_detect. intros v. repeat at_most_step.
    + apply at_most_after_detect. intros v.
      unfold jira_tools.transition_steps. repeat at_most_step.
Qed.

(** ** The first request of a tool fails *)

Section FirstRequestFails.
Context {F : PyFloat}.

(** A tool whose first request gets a response that is not a success. *)
Lemma call_refused (c : tool_call) (w : world) (resp : response) :
  is_configured (service_of c) (settings w) = true ->
  rejected c = None -> limit_fits c = true ->
  transport w (List.length (sent (at_own_request c w))) = Replies resp ->
  ok resp = false ->
  exists r, call c w = (Returned (_resp_err (failure_label c) resp),
                        logged r (at_own_request c w)).
Proof.
  intros Hc Hrej Hfit Hreply Hok.
  destruct c;
    cbn [service_of is_configured call at_own_request verify_of rejected
         failure_label limit_fits] in *.
  - rewrite confluence_search_run by exact Hfit.
    unfold confluence_tools.search_steps. cbv zeta.
    unfold try_except, bind at 1.
    rewrite confluence_request_configured by exact Hc.
    unfold requests_request. rewrite Hreply, Hok. eexists. reflexivity.
  - unfold confluence_tools.confluence_get_page. cbv zeta.
    destruct (given page_id); cbn [orb] in Hrej;
      [|destruct (given title && given space_key); [|discriminate]];
      unfold try_except, bind at 1;
      rewrite confluence_request_configured by exact Hc;
      unfold requests_request; rewrite Hreply, Hok; eexists; reflexivity.
  - unfold confluence_tools.confluence_create_page. cbv zeta.
    unfold try_except, bind at 1.
    rewrite confluence_request_configured by exact Hc.
    unfold requests_request. rewrite Hreply, Hok. eexists. reflexivity.
  - rewrite (update_page_get_refused _ _ _ _ _ w resp Hc Hreply Hok).
    eexists. reflexivity.
  - unfold jira_tools.jira_search. through_the_probe verify_ssl w Hc Hreply.
    cbv zeta. unfold try_except, bind at 1.
    rewrite jira_request_configured by exact Hc.
    unfold requests_request. rewrite Hreply, Hok. eexists. reflexivity.
  - unfold jira_tools.jira_get_issue. through_the_probe verify_ssl w Hc Hreply.
    cbv zeta. unfold try_except, bind at 1.
    rewrite jira_request_configured by exact Hc.
    unfold requests_request. rewrite Hreply, Hok. eexists. reflexivity.
  - unfold jira_tools.jira_create_issue. through_the_probe verify_ssl w Hc Hreply.
    cbv zeta. unfold try_except, bind at 1.
    rewrite jira_request_configured by exact Hc.
    unfold requests_request. rewrite Hreply, Hok. eexists. reflexivity.
  - unfold jira_tools.jira_update_issue. through_the_probe verify_ssl w Hc Hreply.
    cbv zeta. rewrite update_fields_truthy.
    destruct (nothing_to_update _ _ _ _ _ _); [discriminate Hrej|]. cbn [negb].
    unfold try_except, bind at 1.
    rewrite jira_request_configured by exact Hc.
    unfold requests_request. rewrite Hreply, Hok. eexists. reflexivity.
  - unfold jira_tools.jira_add_comment. through_the_probe verify_ssl w Hc Hreply.
    unfold try_except, bind at 1.
    rewrite jira_request_configured by exact Hc.
    unfold requests_request. rewrite Hreply, Hok. eexists. reflexivity.
  - unfold jira_tools.jira_transition_issue, jira_tools.transition_steps.
    through_the_probe verify_ssl w Hc Hreply.
    unfold try_except, bind at 1.
    rewrite jira_request_configured by exact Hc.
    unfold requests_request. rewrite Hreply, Hok. eexists. reflexivity.
Qed.

End FirstRequestFails.

(** X3. When a service is configured, the call reaches its first
    request (it is not turned down for its arguments, and the
    [max_results] of a [confluence_search] has at most 4300 digits, so
    that [str(max_results)] does not raise), and the response to that
    request (for a JIRA tool, the request after the probe) has a status
    that is not a success, the tool returns the error envelope with the
    message [<label> (<status>): <body>], the body as the server sent
    it, and sends nothing more. *)
Theorem refused_request_is_reported {F : PyFloat} :
  forall (c : tool_call) (w : world) (resp : response),
    is_configured (service_of c) (settings w) = true ->
    rejected c = None -> limit_fits c = true ->
    transport w (List.length (sent (at_own_request c w))) = Replies resp ->
    ok resp = false ->
    fst (call c w)
    = Returned (_err (failure_label c ++ " ("
                      ++ PyStr.str_of_int (status_code resp) ++ "): "
                      ++ text resp)) /\
    List.length (sent (snd (call c w)))
    = S (List.length (sent (at_own_request c w))).
Proof.
  intros c w resp Hc Hrej Hfit Hreply Hok.
  destruct (call_refused c w resp Hc Hrej Hfit Hreply Hok) as [r ->].
  split; [reflexivity|]. cbn [snd logged sent]. rewrite length_app.
  cbn [List.length]. lia.
Qed.

Section RefusedExamples.
#[local] Existing Instance no_float.

Lemma refused_request_is_reported_witness :
  fst (call (JiraAddComment "PROJ-1" "Looks good" None) (world_with not_found))
  = Returned (_err "Failed to add comment (404): Not Found") /\
  List.length (sent (snd (call (JiraAddComment "PROJ-1" "Looks good" None)
                            (world_with not_found)))) = 2%nat.
Proof.
  apply (refused_request_is_reported
           (JiraAddComment "PROJ-1" "Looks good" None) (world_with not_found)
           {| status_code := 404; ok := false; text := "Not Found";
              resp_json := None |}); reflexivity.
Defined.

End RefusedExamples.

Section FirstRequestRaises.
Context {F : PyFloat}.

Ltac to_the_handlers Hc Hreply :=
  unfold try_except, bind at 1;
  first [ rewrite confluence_request_configured by exact Hc
        | rewrite jira_request_configured by exact Hc ];
  unfold requests_request; rewrite Hreply;
  unfold confluence_tools.handlers, jira_tools.handlers, handled;
  cbn [not_configured_msg service_name];
  match goal with
  | |- context [is_ValueError ?e] =>
      destruct (is_ValueError e); [eexists; reflexivity|];
      destruct (is_RequestException e); eexists; reflexivity
  end.

(** A tool whose first request raises. *)
Lemma call_raised (c : tool_call) (w : world) (e : exn) :
  is_configured (service_of c) (settings w) = true ->
  rejected c = None -> limit_fits c = true ->
  transport w (List.length (sent (at_own_request c w))) = Fails e ->
  exists r, call c w = (handled (service_of c) e, logged r (at_own_request c w)).
Proof.
  intros Hc Hrej Hfit Hreply.
  destruct c;
    cbn [service_of is_configured call at_own_request verify_of rejected
         limit_fits] in *.
  - rewrite confluence_search_run by exact Hfit.
    unfold confluence_tools.search_steps. cbv zeta.
    to_the_handlers Hc Hreply.
  - unfold confluence_tools.confluence_get_page. cbv zeta.
    destruct (given page_id); cbn [orb] in Hrej;
      [|destruct (given title && given space_key); [|discriminate]];
      to_the_handlers Hc Hreply.
  - unfold confluence_tools.confluence_create_page. cbv zeta.
    to_the_handlers Hc Hreply.
  - rewrite (update_page_get_raises _ _ _ _ _ w e Hc Hreply).
    eexists. reflexivity.
  - unfold jira_tools.jira_search. through_the_probe verify_ssl w Hc Hreply.
    cbv zeta. to_the_handlers Hc Hreply.
  - unfold jira_tools.jira_get_issue. through_the_probe verify_ssl w Hc Hreply.
    cbv zeta. to_the_handlers Hc Hreply.
  - unfold jira_tools.jira_create_issue. through_the_probe verify_ssl w Hc Hreply.
    cbv zeta. to_the_handlers Hc Hreply.
  - unfold jira_tools.jira_update_issue. through_the_probe verify_ssl w Hc Hreply.
    cbv zeta. rewrite update_fields_truthy.
    destruct (nothing_to_update _ _ _ _ _ _); [discriminate Hrej|]. cbn [negb].
    to_the_handlers Hc Hreply.
  - unfold jira_tools.jira_add_comment. through_the_probe verify_ssl w Hc Hreply.
    to_the_handlers Hc Hreply.
  - unfold jira_tools.jira_transition_issue, jira_tools.transition_steps.
    through_the_probe verify_ssl w Hc Hreply.
    to_the_handlers Hc Hreply.
Qed.

End FirstRequestRaises.

(** X4. When a service is configured, the call reaches its first
    request (it is not turned down for its arguments, and the
    [max_results] of a [confluence_search] has at most 4300 digits, so
    that [str(max_results)] does not raise), and that request raises,
    the tool sends nothing more and
    - returns [<Service> request error: <message>] for a
      RequestException that is not a ValueError (a connection error, a
      timeout);
    - returns the not-configured message for an exception that is a
      ValueError, also when it is one of the RequestExceptions of that
      kind (an invalid URL, a missing schema);
    - raises the exception in every other case. *)
Theorem raising_request_is_reported {F : PyFloat} :
  forall (c : tool_call) (w : world) (e : exn),
    is_configured (service_of c) (settings w) = true ->
    rejected c = None -> limit_fits c = true ->
    transport w (List.length (sent (at_own_request c w))) = Fails e ->
    fst (call c w)
    = (if is_ValueError e
       then Returned (_err (not_configured_msg (service_of c)))
       else if is_RequestException e
            then Returned (_err (service_name (service_of c)
                                 ++ " request error: " ++ exn_msg e))
            else Raised e) /\
    List.length (sent (snd (call c w)))
    = S (List.length (sent (at_own_request c w))).
Proof.
  intros c w e Hc Hrej Hfit Hreply.
  destruct (call_raised c w e Hc Hrej Hfit Hreply) as [r ->].
  split; [reflexivity|]. cbn [snd logged sent]. rewrite length_app.
  cbn [List.length]. lia.
Qed.

Section RaisedExamples.
#[local] Existing Instance no_float.

Lemma raising_request_is_reported_witness :
  fst (call (ConfluenceCreatePage "DEV" "Runbook" "<p>x</p>" None None)
         (world_with timed_out))
  = Returned (_err "Confluence request error: Read timed out.") /\
  List.length
    (sent (snd (call (ConfluenceCreatePage "DEV" "Runbook" "<p>x</p>" None None)
                  (world_with timed_out)))) = 1%nat.
Proof.
  apply (raising_request_is_reported
           (ConfluenceCreatePage "DEV" "Runbook" "<p>x</p>" None None)
           (world_with timed_out)
           {| exn_class_of := RequestException; exn_msg := "Read timed out." |});
    reflexivity.
Defined.

(** A base URL without a scheme: [requests] raises MissingSchema, and the
    tool says that Confluence is not configured. *)
Example missing_schema_reads_as_not_configured :
  fst (call (ConfluenceSearch "deployment issues" 10 None None)
         (world_with (fun _ => Fails {| exn_class_of := InvalidURL;
                                        exn_msg := "Invalid URL: No scheme supplied" |})))
  = Returned (_err confluence_tools._NOT_CONFIGURED_MSG).
Proof.
  cbn [call]. rewrite confluence_search_run by (apply fits_str_small; reflexivity).
  reflexivity.
Qed.

End RaisedExamples.

(** ** The shape of every request *)

Section RequestShape.
Context {F : PyFloat}.

(** As [call_issues], with the keyword arguments and the verify_ssl
    argument the tool passes. *)
Lemma call_issues_shape s (Q : request -> Prop) (c : tool_call) :
  (forall method path kw,
     In method (methods c) -> kw_headers kw = None ->
     (kw_params kw = None \/ kw_json kw = None) ->
     Q (match service_of c with
        | Confluence => confluence_request_of s method path (verify_of c) kw
        | Jira => jira_request_of s method path (verify_of c) kw
        end)) ->
  issues s Q (call c).
Proof.
  intros HQ.
  destruct c; cbn [service_of verify_of methods call] in *.
  - unfold confluence_tools.confluence_search, confluence_tools.search_steps.
    repeat issues_step.
    apply HQ; cbn; auto.
  - unfold confluence_tools.confluence_get_page. repeat issues_step.
    all: apply HQ; cbn; auto.
  - unfold confluence_tools.confluence_create_page. repeat issues_step.
    apply HQ; cbn; auto.
  - unfold confluence_tools.confluence_update_page. repeat issues_step.
    all: apply HQ; cbn; auto.
  - unfold jira_tools.jira_search. repeat issues_step.
    all: apply HQ; cbn; auto.
  - unfold jira_tools.jira_get_issue. repeat issues_step.
    all: apply HQ; cbn; auto.
  - unfold jira_tools.jira_create_issue. repeat issues_step.
    all: apply HQ; cbn; auto.
  - unfold jira_tools.jira_update_issue. repeat issues_step.
    all: apply HQ; cbn; auto.
  - unfold jira_tools.jira_add_comment. repeat issues_step.
    all: apply HQ; cbn; auto.
  - unfold jira_tools.jira_transition_issue, jira_tools.transition_steps.
    repeat issues_step.
    all: apply HQ; cbn; auto.
Qed.

End RequestShape.

(** X5. Every HTTP request a tool call issues, the probe's included, has
    the timeout of 30 seconds, exactly the two headers
    [Content-Type: application/json] and [Accept: application/json],
    certificate verification as the call's verify_ssl argument says or,
    when that is [None], as the setting of the service says, one of the
    HTTP methods of the tool, and not both query parameters and a JSON
    body; and the call leaves the settings as they are. *)
Theorem requests_are_well_formed {F : PyFloat} :
  forall (c : tool_call) (w : world),
    exists l,
      sent (snd (call c w)) = (sent w ++ l)%list /\
      Forall (well_formed c (settings w)) l /\
      settings (snd (call c w)) = settings w.
Proof.
  intros c w.
  apply (call_issues_shape (settings w) (well_formed c (settings w)) c);
    [|reflexivity].
  intros method path kw Hm Hh Hkw. unfold well_formed, verify_for.
  destruct (service_of c);
    cbn [confluence_request_of jira_request_of req_timeout req_headers
         req_verify req_method req_params req_json];
    unfold json_headers; rewrite Hh;
    (split; [reflexivity|]; split; [reflexivity|];
     split; [destruct (verify_of c); reflexivity|];
     split; [exact Hm|exact Hkw]).
Qed.

(** ** What a call leaves of the state *)

Section OnlyLogs.
Context {F : PyFloat}.

Lemma only_logs_ret {A} (a : A) : only_logs (ret a).
Proof. intros w. now repeat split. Qed.

Lemma only_logs_raise {A} (e : exn) : only_logs (@raise F A e).
Proof. intros w. now repeat split. Qed.

Lemma only_logs_lift {A} (o : outcome A) : only_logs (lift o).
Proof. intros w. now repeat split. Qed.

Lemma only_logs_bind {A B} (m : M A) (k : A -> M B) :
  only_logs m -> (forall a, only_logs (k a)) -> only_logs (bind m k).
Proof.
  intros Hm Hk w. destruct (Hm w) as (Hs & Hv & Ht).
  unfold bind. destruct (m w) as [[a|e] w1]; cbn [snd] in *.
  - destruct (Hk a w1) as (Hs' & Hv' & Ht').
    now rewrite Hs', Hv', Ht'.
  - now repeat split.
Qed.

Lemma only_logs_try {A} (body : M A) (handler : exn -> option (M A)) :
  only_logs body -> (forall e h, handler e = Some h -> only_logs h) ->
  only_logs (try_except body handler).
Proof.
  intros Hm Hh w. destruct (Hm w) as (Hs & Hv & Ht).
  unfold try_except. destruct (body w) as [[a|e] w1]; cbn [snd] in *.
  - now repeat split.
  - destruct (handler e) as [h|] eqn:E; [|now repeat split].
    destruct (Hh e h E w1) as (Hs' & Hv' & Ht').
    now rewrite Hs', Hv', Ht'.
Qed.

Lemma only_logs_request (r : request) : only_logs (requests_request r).
Proof.
  intros w. unfold requests_request. destruct (transport w _); now repeat split.
Qed.

Lemma only_logs_confluence_request method path verify_ssl kw :
  only_logs (confluence_tools._confluence_request method path verify_ssl kw).
Proof.
  unfold confluence_tools._confluence_request.
  apply only_logs_bind; [intros w; now repeat split|intros s].
  destruct (negb (has_confluence s)); [apply only_logs_raise|].
  apply only_logs_bind; [apply only_logs_lift|intros ?].
  apply only_logs_request.
Qed.

Lemma only_logs_jira_request method path verify_ssl kw :
  only_logs (jira_tools._jira_request method path verify_ssl kw).
Proof.
  unfold jira_tools._jira_request.
  apply only_logs_bind; [intros w; now repeat split|intros s].
  destruct (negb (has_jira s)); [apply only_logs_raise|].
  apply only_logs_bind; [apply only_logs_lift|intros ?].
  apply only_logs_request.
Qed.

Lemma only_logs_handlers_confluence e h :
  confluence_tools.handlers e = Some h -> only_logs h.
Proof.
  unfold confluence_tools.handlers.
  destruct (is_ValueError e); [intros [= <-]; apply only_logs_ret|].
  destruct (is_RequestException e); [intros [= <-]; apply only_logs_ret|discriminate].
Qed.

Lemma only_logs_handlers_jira e h :
  jira_tools.handlers e = Some h -> only_logs h.
Proof.
  unfold jira_tools.handlers.
  destruct (is_ValueError e); [intros [= <-]; apply only_logs_ret|].
  destruct (is_RequestException e); [intros [= <-]; apply only_logs_ret|discriminate].
Qed.

Lemma only_logs_handlers_first {A} e (h : M (value + A)) :
  option_map (fun h : M value => r <- h ;; ret (inl r))
    (confluence_tools.handlers e) = Some h ->
  only_logs h.
Proof.
  destruct (confluence_tools.handlers e) as [h0|] eqn:E; [|discriminate].
  intros [= <-]. apply only_logs_bind.
  - eapply only_logs_handlers_confluence, E.
  - intros r. apply only_logs_ret.
Qed.

End OnlyLogs.

Ltac only_logs_step :=
  match goal with
  | |- only_logs (bind _ _) => apply only_logs_bind; [|intros ?]
  | |- only_logs (try_except _ confluence_tools.handlers) =>
      apply only_logs_try; [|apply only_logs_handlers_confluence]
  | |- only_logs (try_except _ jira_tools.handlers) =>
      apply only_logs_try; [|apply only_logs_handlers_jira]
  | |- only_logs (try_except _ (fun e => option_map _ _)) =>
      apply only_logs_try; [|apply only_logs_handlers_first]
  | |- only_logs (ret _) => apply only_logs_ret
  | |- only_logs (lift _) => apply only_logs_lift
  | |- only_logs (raise _) => apply only_logs_raise
  | |- only_logs (confluence_tools._confluence_request _ _ _ _) =>
      apply only_logs_confluence_request
  | |- only_logs (jira_tools._jira_request _ _ _ _) =>
      apply only_logs_jira_request
  | |- only_logs _ => progress cbv beta zeta
  | |- only_logs (if ?b then _ else _) => destruct b
  | |- only_logs (match ?x with _ => _ end) => destruct x
  end.

Section CallFrames.
Context {F : PyFloat}.

Lemma append_inj_l (a b c : string) : (a ++ b = a ++ c)%string -> b = c.
Proof. induction a as [|x a IH]; cbn; [auto|]. intros [= H]. auto. Qed.

Lemma confluence_call_only_logs (c : tool_call) :
  service_of c = Confluence -> only_logs (call c).
Proof.
  intros Hsv. destruct c; try discriminate Hsv; cbn [call].
  - unfold confluence_tools.confluence_search, confluence_tools.search_steps.
    repeat only_logs_step.
  - unfold confluence_tools.confluence_get_page. repeat only_logs_step.
  - unfold confluence_tools.confluence_create_page. repeat only_logs_step.
  - unfold confluence_tools.confluence_update_page. repeat only_logs_step.
Qed.

(** A JIRA tool is the probe followed by a computation that changes
    nothing but the log and sends its requests to the tool's own path. *)
Lemma jira_call_after_detect (c : tool_call) (s : Settings) :
  service_of c = Jira ->
  exists k : string -> M value,
    call c = bind (jira_tools._detect_api_version (verify_of c)) k /\
    (forall a, only_logs (k a)) /\
    (forall a, at_most (own_requests c) (k a)) /\
    (forall a, issues s (own_request c s) (k a)).
Proof.
  intros Hsv.
  assert (Hown : forall method path verify_ssl kw,
             (exists tail, path = ("/rest/api/2/s" ++ "e" ++ "a" ++ tail)%string
                        \/ path = ("/rest/api/2/i" ++ tail)%string) ->
             own_path c = path ->
             own_request c s (jira_request_of s method path verify_ssl kw)).
  { intros method path verify_ssl kw [tail Hp] Ho. split.
    - cbn [jira_request_of req_url]. now rewrite Ho.
    - cbn [jira_request_of req_url]. unfold probe_url. intros H.
      apply append_inj_l in H. destruct Hp as [-> | ->]; discriminate H. }
  destruct c; try discriminate Hsv; cbn [call verify_of own_requests];
    (eexists; split; [reflexivity|]); (split; [|split]); intros a;
    unfold jira_tools.transition_steps.
  all: try (repeat only_logs_step; fail).
  all: try (repeat at_most_step; fail).
  all: repeat issues_step.
  all: apply Hown; [eexists; (left; reflexivity) || (right; reflexivity)
                   |reflexivity].
Qed.

(** The state a call leaves, but for the log. *)
Lemma call_frame (c : tool_call) (w : world) :
  settings (snd (call c w)) = settings w /\
  transport (snd (call c w)) = transport w /\
  _api_version (snd (call c w))
  = match service_of c with
    | Confluence => _api_version w
    | Jira => Some (cached_version w)
    end.
Proof.
  destruct (service_of c) eqn:Hsv.
  - destruct (confluence_call_only_logs c Hsv w) as (Hs & Hv & Ht).
    repeat split; assumption.
  - destruct (jira_call_after_detect c (settings w) Hsv) as (k & -> & Hk & _ & _).
    unfold bind. rewrite detect_api_version_run. unfold cached_version.
    destruct (_api_version w) as [v|] eqn:Ev;
      match goal with
      | |- context [k ?a ?w1] => destruct (Hk a w1) as (Hs & Hv & Ht)
      end;
      rewrite Hs, Hv, Ht; [now rewrite Ev|].
    unfold after_probe. cbn [settings transport _api_version]. now rewrite Ev.
Qed.

End CallFrames.

(** X6. A tool call changes neither the settings nor the environment.  A
    Confluence tool leaves the cached API version of the JIRA module as
    it is; a JIRA tool leaves a version cached, whatever happened: the
    version that was cached before, else [2], also when JIRA is not
    configured or the probe failed. *)
Theorem call_leaves_version_cached {F : PyFloat} :
  forall (c : tool_call) (w : world),
    settings (snd (call c w)) = settings w /\
    transport (snd (call c w)) = transport w /\
    _api_version (snd (call c w))
    = match service_of c with
      | Confluence => _api_version w
      | Jira => Some (match _api_version w with Some v => v | None => "2" end)
      end.
Proof. intros c w. exact (call_frame c w). Qed.

(** X7. Of two JIRA calls in a row the second one sends no probe: each
    of its requests goes to the API path of the tool's own, none to
    [/rest/api/2/serverInfo], and there are at most two of them for
    [jira_transition_issue] and at most one for every other tool. *)
Theorem second_jira_call_sends_no_probe {F : PyFloat} :
  forall (c1 c2 : tool_call) (w : world),
    service_of c1 = Jira -> service_of c2 = Jira ->
    exists l,
      sent (snd (call c2 (snd (call c1 w))))
      = (sent (snd (call c1 w)) ++ l)%list /\
      Forall (own_request c2 (settings w)) l /\
      (List.length l <= own_requests c2)%nat.
Proof.
  intros c1 c2 w H1 H2.
  destruct (call_frame c1 w) as (Hs & _ & Hv). rewrite H1 in Hv.
  set (w1 := snd (call c1 w)) in *.
  destruct (jira_call_after_detect c2 (settings w) H2) as (k & E & _ & Hn & Hk).
  assert (Ek : call c2 w1 = k (cached_version w) w1).
  { rewrite E. unfold bind. rewrite detect_api_version_run, Hv. reflexivity. }
  destruct (Hk (cached_version w) w1 Hs) as (l & Hl & HQ & _).
  exists l. rewrite Ek. split; [exact Hl|]. split; [exact HQ|].
  destruct (Hn (cached_version w) w1) as (l' & Hl' & Hlen).
  rewrite Hl in Hl'. apply app_inv_head in Hl'. now subst l'.
Qed.

Section CacheExamples.
#[local] Existing Instance no_float.

Lemma second_jira_call_sends_no_probe_witness :
  exists l,
    sent (snd (call (JiraAddComment "PROJ-1" "Looks good" None)
                 (snd (call (JiraGetIssue "PROJ-1" None None)
                         (world_with not_found)))))
    = (sent (snd (call (JiraGetIssue "PROJ-1" None None) (world_with not_found)))
       ++ l)%list /\
    Forall (own_request (JiraAddComment "PROJ-1" "Looks good" None)
              example_settings) l /\
    (List.length l <= 1)%nat.
Proof.
  apply (second_jira_call_sends_no_probe
           (JiraGetIssue "PROJ-1" None None)
           (JiraAddComment "PROJ-1" "Looks good" None)
           (world_with not_found)); reflexivity.
Defined.

End CacheExamples.

(** X8. [jira_configure] empties the version cache: the JIRA call that
    follows it starts with the probe, a GET of
    [<url>/rest/api/2/serverInfo] with the new credentials, also when a
    version was cached before. *)
Theorem jira_configure_resets_the_probe {F : PyFloat} :
  forall (c : tool_call) (url username password : string) (w : world),
    service_of c = Jira ->
    exists r l,
      sent (snd (call c (snd (jira_tools.jira_configure url username password w))))
      = (sent w ++ r :: l)%list /\
      req_method r = "GET" /\
      req_url r = PyStr.rstrip_slash url ++ "/rest/api/2/serverInfo" /\
      req_auth r = (Some username, Some password).
Proof.
  intros c url username password w Hsv.
  set (w1 := snd (jira_tools.jira_configure url username password w)).
  destruct (jira_call_after_detect c (settings w1) Hsv) as (k & -> & _ & _ & Hk).
  unfold bind. rewrite detect_api_version_run.
  change (_api_version w1) with (@None string).
  destruct (Hk "2" (after_probe (verify_of c) w1) eq_refl) as (l & Hl & _ & _).
  exists (probe_request (settings w1) (verify_of c)), l.
  rewrite Hl. unfold after_probe, probes.
  change (_api_version w1) with (@None string).
  change (has_jira (settings w1)) with true. cbn [andb sent].
  change (sent w1) with (sent w). rewrite <- app_assoc.
  split; [reflexivity|]. split; [reflexivity|]. split; [|reflexivity].
  cbn [probe_request jira_request_of req_url]. unfold w1.
  cbn [jira_tools.jira_configure snd settings jira_url fmt].
  unfold PyStr.rstrip_slash. now rewrite PyStrFacts.rstrip_with_idem.
Qed.

Section ConfigureProbeExamples.
#[local] Existing Instance no_float.

(** A world in which JIRA is configured and a version is cached. *)
Lemma jira_configure_resets_the_probe_witness :
  exists r l,
    sent (snd (call (JiraGetIssue "PROJ-1" None None)
                 (snd (jira_tools.jira_configure "https://jira.example.org/" "bob"
                         "pw"
                         (snd (call (JiraGetIssue "PROJ-1" None None)
                                 (world_with not_found)))))))
    = (sent (snd (call (JiraGetIssue "PROJ-1" None None) (world_with not_found)))
       ++ r :: l)%list /\
    req_method r = "GET" /\
    req_url r = PyStr.rstrip_slash "https://jira.example.org/"
                ++ "/rest/api/2/serverInfo" /\
    req_auth r = (Some "bob", Some "pw").
Proof.
  apply (jira_configure_resets_the_probe
           (JiraGetIssue "PROJ-1" None None) "https://jira.example.org/" "bob" "pw"
           (snd (call (JiraGetIssue "PROJ-1" None None) (world_with not_found))));
    reflexivity.
Defined.

End ConfigureProbeExamples.

(** ** [confluence_update_page] after the version is read *)

Section UpdatePageWrites.
Context {F : PyFloat}.

(** The function after a successful read of the version. *)
Lemma update_page_version_read page_id title body version_comment verify_ssl
    (w : world) (resp : response) (data version current : value) :
  has_confluence (settings w) = true ->
  transport w (List.length (sent w)) = Replies resp ->
  ok resp = true -> resp_json resp = Some data ->
  py_get data "version" (VDict []) = Returned version ->
  py_get version "number" (VInt 0) = Returned current ->
  confluence_tools.confluence_update_page page_id title body version_comment
    verify_ssl w
  = match py_add_int current 1 with
    | Raised e => (Raised e, logged (version_request (settings w) page_id verify_ssl) w)
    | Returned number =>
        try_except
          (resp <- requests_request
                     (confluence_request_of (settings w) "PUT"
                        ("/rest/api/content/" ++ page_id) verify_ssl
                        (with_json (confluence_tools.update_payload title body
                                      number version_comment))) ;;
           if negb (ok resp) then ret (_resp_err "Failed to update page" resp)
           else
             lift (let! data := json resp in
                   let! id := py_get data "id" VNone in
                   let! title := py_get data "title" VNone in
                   let! version := py_get data "version" (VDict []) in
                   let! number := py_get version "number" VNone in
                   let! links := py_get data "_links" (VDict []) in
                   let! url := py_get links "webui" VNone in
                   Returned (VDict [("success", VBool true); ("id", id);
                                    ("title", title); ("version", number);
                                    ("url", url)])))
          confluence_tools.handlers
          (logged (version_request (settings w) page_id verify_ssl) w)
    end.
Proof.
  intros Hc Hreply Hok Hjson Hver Hnum.
  unfold confluence_tools.confluence_update_page, bind at 1, try_except at 1,
    bind at 1.
  rewrite confluence_request_configured by exact Hc.
  unfold requests_request at 1. rewrite Hreply, Hok. cbn [negb].
  unfold lift at 1, json. rewrite Hjson. cbn [bind_o]. rewrite Hver.
  cbn [bind_o]. rewrite Hnum. cbn [bind_o].
  unfold bind at 1, lift at 1.
  fold (logged (version_request (settings w) page_id verify_ssl) w).
  destruct (py_add_int current 1) as [number|e]; [|reflexivity].
  unfold try_except, bind at 1.
  rewrite confluence_request_configured by exact Hc. reflexivity.
Qed.

Lemma update_payload_body title body n version_comment :
  confluence_tools.update_payload title body (VInt n) version_comment
  = update_body title body n version_comment.
Proof.
  unfold confluence_tools.update_payload, update_body.
  destruct version_comment as [[|c rest]|]; reflexivity.
Qed.

End UpdatePageWrites.

(** X9. [confluence_update_page], when Confluence is configured and the
    read of the page succeeds with the version number [n] (0 when the
    page object has no version or the version no number), sends as its
    second and last request a PUT to [/rest/api/content/<page_id>] whose
    body carries the title, the content in storage representation and
    the version number [n + 1], with the version comment as the
    version's [message] if and only if a non-empty comment was given. *)
Theorem update_page_writes_next_version {F : PyFloat} :
  forall (page_id title body : string) (version_comment : option string)
         (verify_ssl : option bool) (w : world) (resp : response)
         (data version : value) (n : Z),
    has_confluence (settings w) = true ->
    transport w (List.length (sent w)) = Replies resp ->
    ok resp = true -> resp_json resp = Some data ->
    py_get data "version" (VDict []) = Returned version ->
    py_get version "number" (VInt 0) = Returned (VInt n) ->
    sent (snd (confluence_tools.confluence_update_page page_id title body
                 version_comment verify_ssl w))
    = (sent w ++ [version_request (settings w) page_id verify_ssl;
                  update_request (settings w) page_id title body (n + 1)
                    version_comment verify_ssl])%list.
Proof.
  intros page_id title body version_comment verify_ssl w resp data version n
    Hc Hreply Hok Hjson Hver Hnum.
  rewrite (update_page_version_read _ _ _ _ _ w resp data version (VInt n)
             Hc Hreply Hok Hjson Hver Hnum).
  cbn [py_add_int]. rewrite update_payload_body.
  rewrite (try_request_once _ _ confluence_tools.handlers).
  - cbn [logged sent]. rewrite <- app_assoc. reflexivity.
  - intros resp'. repeat issues_step.
  - apply issues_handlers_confluence.
Qed.

(** X10. The increment of the version number stands outside both [try]
    statements of [confluence_update_page]: when the page's version
    number is JSON null, a string, an array or an object, the call raises
    the TypeError of [current_version + 1] instead of returning an
    error, and the read stays the only request: nothing is written. *)
Theorem update_page_version_not_a_number {F : PyFloat} :
  forall (page_id title body : string) (version_comment : option string)
         (verify_ssl : option bool) (w : world) (resp : response)
         (data version current : value),
    has_confluence (settings w) = true ->
    transport w (List.length (sent w)) = Replies resp ->
    ok resp = true -> resp_json resp = Some data ->
    py_get data "version" (VDict []) = Returned version ->
    py_get version "number" (VInt 0) = Returned current ->
    not_a_number current ->
    (exists e,
       fst (confluence_tools.confluence_update_page page_id title body
              version_comment verify_ssl w) = Raised e /\
       exn_class_of e = TypeError) /\
    sent (snd (confluence_tools.confluence_update_page page_id title body
                 version_comment verify_ssl w))
    = (sent w ++ [version_request (settings w) page_id verify_ssl])%list.
Proof.
  intros page_id title body version_comment verify_ssl w resp data version
    current Hc Hreply Hok Hjson Hver Hnum Hnan.
  rewrite (update_page_version_read _ _ _ _ _ w resp data version current
             Hc Hreply Hok Hjson Hver Hnum).
  destruct current; try contradiction; cbn [py_add_int];
    (split; [eexists; split; reflexivity|reflexivity]).
Qed.

Section UpdatePageWriteExamples.
#[local] Existing Instance no_float.

Lemma update_page_writes_next_version_witness :
  sent (snd (confluence_tools.confluence_update_page "4711" "Runbook"
               "<p>new</p>" (Some "") None (world_with bare_page_replies)))
  = [version_request example_settings "4711" None;
     update_request example_settings "4711" "Runbook" "<p>new</p>" 1
       (Some "") None] /\
  req_json (update_request example_settings "4711" "Runbook" "<p>new</p>" 1
              (Some "") None)
  = Some (VDict [("type", VStr "page"); ("title", VStr "Runbook");
                 ("body",
                  VDict [("storage",
                          VDict [("value", VStr "<p>new</p>");
                                 ("representation", VStr "storage")])]);
                 ("version", VDict [("number", VInt 1)])]).
Proof.
  split; [|reflexivity].
  apply (update_page_writes_next_version "4711" "Runbook" "<p>new</p>" (Some "")
           None (world_with bare_page_replies)
           {| status_code := 200; ok := true; text := "{}";
              resp_json := Some (VDict []) |}
           (VDict []) (VDict []) 0); reflexivity.
Defined.

Lemma update_page_version_not_a_number_witness :
  (exists e,
     fst (confluence_tools.confluence_update_page "4711" "Runbook" "<p>new</p>"
            None None (world_with string_version_replies)) = Raised e /\
     exn_class_of e = TypeError) /\
  sent (snd (confluence_tools.confluence_update_page "4711" "Runbook"
               "<p>new</p>" None None (world_with string_version_replies)))
  = [version_request example_settings "4711" None].
Proof.
  apply (update_page_version_not_a_number "4711" "Runbook" "<p>new</p>" None None
           (world_with string_version_replies)
           {| status_code := 200; ok := true; text := "";
              resp_json := Some (VDict [("version",
                                         VDict [("number", VStr "7")])]) |}
           (VDict [("version", VDict [("number", VStr "7")])])
           (VDict [("number", VStr "7")]) (VStr "7"));
    first [reflexivity | exact I].
Defined.

End UpdatePageWriteExamples.

(** ** What [_strip_html_tags] returns *)

Module NormalizerFacts.
Import PyStr Re.
#[local] Arguments Ascii.eqb : simpl never.

Lemma settled_app_r a b : settled (a ++ b) = true -> settled b = true.
Proof.
  induction a as [|c a IH]; [trivial|]. cbn [append]. intros H.
  apply IH. exact (ReFacts.settled_tail _ _ H).
Qed.

Lemma calm_app_r a b : calm (a ++ b) = true -> calm b = true.
Proof.
  induction a as [|c a IH]; [trivial|]. cbn [append]. intros H.
  apply IH. exact (ReFacts.calm_tail _ _ H).
Qed.

(** No tag pattern matches at the start of a settled text. *)
Lemma settled_no_match (m : matcher) s :
  (forall t rest, m t = Some rest -> tag_start t = true) ->
  settled s = true -> m s = None.
Proof.
  intros Hm Hs. destruct (m s) as [rest|] eqn:E; [|reflexivity].
  apply Hm in E. rewrite (ReFacts.settled_no_tag _ Hs) in E. discriminate.
Qed.

Lemma calm_no_match s : calm s = true -> newlines3 s = None.
Proof.
  destruct s as [|c r]; [reflexivity|]. intros Ht.
  rewrite ReFacts.calm_cons in Ht. apply andb_true_iff in Ht.
  destruct Ht as [Ht _]. apply Nat.ltb_lt in Ht. rewrite ReFacts.newlines3_spec.
  destruct (3 <=? _)%nat eqn:E; [|reflexivity]. apply Nat.leb_le in E. lia.
Qed.

(** A pattern that starts with [<] matches nowhere in a text without
    [<]. *)
Lemma no_lt_sub_fix (m : matcher) repl s :
  (forall t, chr lt_c t = None -> m t = None) ->
  mem_char lt_c s = false -> sub m repl s = s.
Proof.
  intros Hm Hs.
  apply (ReFacts.sub_fix m (fun t => negb (mem_char lt_c t))).
  - intros c r. cbn [mem_char]. rewrite negb_orb. intros H.
    apply andb_true_iff in H. tauto.
  - intros [|c r]; [intros _; now apply Hm|]. cbn [mem_char].
    rewrite negb_orb. intros H. apply andb_true_iff in H. destruct H as [H _].
    apply Hm. unfold chr. apply negb_true_iff in H. now rewrite H.
  - now rewrite Hs.
Qed.

Lemma br_tag_lt t : chr lt_c t = None -> br_tag t = None.
Proof. unfold br_tag. now intros ->. Qed.

Lemma block_close_lt t : chr lt_c t = None -> block_close t = None.
Proof. unfold block_close. now intros ->. Qed.

Lemma block_open_lt t : chr lt_c t = None -> block_open t = None.
Proof. unfold block_open. now intros ->. Qed.

Lemma any_tag_lt t : chr lt_c t = None -> any_tag t = None.
Proof. unfold any_tag. now intros ->. Qed.

End NormalizerFacts.

(** X11. In the text [_strip_html_tags] returns, none of the five
    patterns of the function matches at any position: not [<br\s*/?>],
    not a closing or an opening block tag, not [<[^>]+>] and not
    [\n{3,}]; and the text has no white space at its ends: stripping it
    again changes nothing. *)
Theorem strip_html_tags_leaves_no_match :
  forall html a b : string,
    _strip_html_tags html = a ++ b ->
    Re.br_tag b = None /\ Re.block_close b = None /\ Re.block_open b = None /\
    Re.any_tag b = None /\ Re.newlines3 b = None /\
    PyStr.strip (_strip_html_tags html) = _strip_html_tags html.
Proof.
  intros html a b E.
  pose proof (ReFacts.strip_html_settled html) as Hs.
  pose proof (ReFacts.strip_html_calm html) as Hc.
  rewrite E in Hs, Hc.
  apply NormalizerFacts.settled_app_r in Hs.
  apply NormalizerFacts.calm_app_r in Hc.
  split; [apply NormalizerFacts.settled_no_match;
          [apply ReFacts.br_tag_start|exact Hs]|].
  split; [apply NormalizerFacts.settled_no_match;
          [apply ReFacts.block_close_start|exact Hs]|].
  split; [apply NormalizerFacts.settled_no_match;
          [apply ReFacts.block_open_start|exact Hs]|].
  split; [apply NormalizerFacts.settled_no_match;
          [apply ReFacts.any_tag_start|exact Hs]|].
  split; [exact (NormalizerFacts.calm_no_match b Hc)|].
  unfold _strip_html_tags. cbv zeta. apply PyStrFacts.strip_idem.
Qed.

Lemma strip_html_tags_leaves_no_match_witness :
  Re.br_tag "lo<br" = None /\ Re.block_close "lo<br" = None /\
  Re.block_open "lo<br" = None /\ Re.any_tag "lo<br" = None /\
  Re.newlines3 "lo<br" = None /\
  PyStr.strip (_strip_html_tags "<p> Hel<b>lo<br</p>")
  = _strip_html_tags "<p> Hel<b>lo<br</p>".
Proof.
  apply (strip_html_tags_leaves_no_match "<p> Hel<b>lo<br</p>" "Hel" "lo<br").
  reflexivity.
Defined.

(** X12. Of a text without [<], [_strip_html_tags] changes only the
    white space: runs of three or more newlines become two newlines and
    the ends are stripped; without such a run the result is the text
    stripped. *)
Theorem strip_html_tags_of_plain_text :
  forall text : string,
    PyStr.mem_char PyStr.lt_c text = false ->
    _strip_html_tags text
    = PyStr.strip (Re.sub Re.newlines3 Re.two_nl text) /\
    (Re.calm text = true -> _strip_html_tags text = PyStr.strip text).
Proof.
  intros text Hlt.
  assert (E : _strip_html_tags text
              = PyStr.strip (Re.sub Re.newlines3 Re.two_nl text)).
  { unfold _strip_html_tags. cbv zeta.
    rewrite (NormalizerFacts.no_lt_sub_fix Re.br_tag _ text
               NormalizerFacts.br_tag_lt Hlt).
    rewrite (NormalizerFacts.no_lt_sub_fix Re.block_close _ text
               NormalizerFacts.block_close_lt Hlt).
    rewrite (NormalizerFacts.no_lt_sub_fix Re.block_open _ text
               NormalizerFacts.block_open_lt Hlt).
    rewrite (NormalizerFacts.no_lt_sub_fix Re.any_tag _ text
               NormalizerFacts.any_tag_lt Hlt).
    reflexivity. }
  split; [exact E|]. intros Hcalm. rewrite E.
  now rewrite ReFacts.calm_sub_fix.
Qed.

Lemma strip_html_tags_of_plain_text_witness :
  _strip_html_tags "  a > b  " = "a > b".
Proof.
  apply (proj2 (strip_html_tags_of_plain_text "  a > b  " eq_refl)).
  reflexivity.
Defined.

(** ** What [confluence_get_page] returns *)

Section PageReturns.
Context {F : PyFloat}.

Lemma returns_handlers_page e h :
  confluence_tools.handlers e = Some h -> returns page_result h.
Proof.
  unfold confluence_tools.handlers.
  destruct (is_ValueError e); [intros [= <-]; apply returns_ret; left; eauto|].
  destruct (is_RequestException e); [|discriminate].
  intros [= <-]. apply returns_ret. left. eauto.
Qed.

End PageReturns.

Ltac page_pure :=
  repeat match goal with
         | |- bind_o ?o _ = Returned _ -> _ =>
             destruct o eqn:?; cbn [bind_o]; [|discriminate]
         end;
  intros [= <-];
  match goal with
  | H : strip_html_tags_of ?b = Returned _ |- _ =>
      destruct b; try discriminate H; injection H as <-
  end;
  right; repeat eexists.

Ltac page_step :=
  match goal with
  | |- returns _ (try_except _ confluence_tools.handlers) =>
      apply returns_try; [|apply returns_handlers_page]
  | |- returns _ (bind _ _) =>
      eapply returns_bind; [apply returns_any|intros ? _]
  | |- returns _ (ret (_err _)) => apply returns_ret; left; eauto
  | |- returns _ (ret (_resp_err _ _)) =>
      apply returns_ret; left; unfold _resp_err; eauto
  | |- returns _ (lift _) => apply returns_lift; intros ?; page_pure
  | |- returns _ _ => progress cbv beta zeta
  | |- returns _ (if ?b then _ else _) => destruct b
  end.

(** X13. When [confluence_get_page] returns something that is not an
    error, it is the object with the eight keys [success], [id],
    [title], [space_key], [version], [body_html], [body_text], [url], in
    this order, in which [body_html] is a string, the body as stored,
    and [body_text] is exactly [_strip_html_tags] of it.  A body that
    is not a string makes the call raise: it is never returned. *)
Theorem get_page_body_text {F : PyFloat} :
  forall (page_id title space_key : option string) (verify_ssl : option bool)
         (w : world) (v : value),
    fst (confluence_tools.confluence_get_page page_id title space_key
           verify_ssl w) = Returned v ->
    (exists msg, v = _err msg) \/
    (exists id title' space_key' version html url,
       v = VDict [("success", VBool true); ("id", id); ("title", title');
                  ("space_key", space_key'); ("version", version);
                  ("body_html", VStr html);
                  ("body_text", VStr (_strip_html_tags html)); ("url", url)]).
Proof.
  intros page_id title space_key verify_ssl w v H.
  assert (Hr : returns page_result
                 (confluence_tools.confluence_get_page page_id title space_key
                    verify_ssl)).
  { unfold confluence_tools.confluence_get_page. repeat page_step. }
  destruct (confluence_tools.confluence_get_page page_id title space_key
              verify_ssl w) as [o w'] eqn:E.
  cbn [fst] in H. subst o.
  exact (Hr w v w' E).
Qed.

Section PageExamples.
#[local] Existing Instance no_float.

Lemma get_page_body_text_witness :
  (exists msg,
     VDict [("success", VBool true); ("id", VStr "4711");
            ("title", VStr "Runbook"); ("space_key", VStr "DEV");
            ("version", VInt 7); ("body_html", VStr hello_world_html);
            ("body_text", VStr hello_world_text);
            ("url", VStr "/display/DEV/Runbook")] = _err msg) \/
  (exists id title' space_key' version html url,
     VDict [("success", VBool true); ("id", VStr "4711");
            ("title", VStr "Runbook"); ("space_key", VStr "DEV");
            ("version", VInt 7); ("body_html", VStr hello_world_html);
            ("body_text", VStr hello_world_text);
            ("url", VStr "/display/DEV/Runbook")]
     = VDict [("success", VBool true); ("id", id); ("title", title');
              ("space_key", space_key'); ("version", version);
              ("body_html", VStr html);
              ("body_text", VStr (_strip_html_tags html)); ("url", url)]).
Proof.
  apply (get_page_body_text (Some "4711") None None None
           (world_with (fun _ => respond 200 "" (Some page_4711)))).
  reflexivity.
Defined.

End PageExamples.

(** ** The CQL string outside the free-text case *)

Module CqlFacts.
Import PyStr.
#[local] Arguments Ascii.eqb : simpl never.

Lemma startswith_lower p s :
  startswith p s = true -> startswith (lower p) (lower s) = true.
Proof.
  revert s. induction p as [|a p IH]; intros s; [reflexivity|].
  destruct s as [|b s]; [discriminate|]. cbn [startswith lower].
  intros H. apply andb_true_iff in H. destruct H as [Hab Hps].
  apply Ascii.eqb_eq in Hab. subst b.
  rewrite Ascii.eqb_refl. cbn [andb]. now apply IH.
Qed.

Lemma contains_cons p c s :
  contains p (String c s) = startswith p (String c s) || contains p s.
Proof. reflexivity. Qed.

Lemma contains_lower p s :
  contains p s = true -> contains (lower p) (lower s) = true.
Proof.
  induction s as [|c s IH].
  - cbn [contains lower]. rewrite !orb_false_r. apply (startswith_lower p "").
  - rewrite contains_cons. intros H. apply orb_true_iff in H.
    cbn [lower]. rewrite contains_cons. apply orb_true_iff.
    destruct H as [H|H].
    + left. exact (startswith_lower p (String c s) H).
    + right. now apply IH.
Qed.

End CqlFacts.

(** X14. A query that mentions [space] is sent as the CQL string as it
    is, whatever the space key: the word counts as a CQL operator, so the
    query is not wrapped as free text, and as a scope of its own, so no
    [space = ...] is put in front. *)
Theorem search_cql_query_with_space {F : PyFloat} :
  forall (query : string) (space_key : option string),
    PyStr.contains "space" query = true ->
    confluence_tools.search_cql query space_key = query.
Proof.
  intros query space_key H. unfold confluence_tools.search_cql.
  assert (Hop : existsb (fun op => PyStr.contains op query)
                  confluence_tools.cql_ops = true).
  { apply existsb_exists. exists "space". split; [|exact H].
    unfold confluence_tools.cql_ops. cbn [In]. tauto. }
  rewrite Hop. cbn [negb].
  pose proof (CqlFacts.contains_lower "space" query H) as Hl.
  change (PyStr.lower "space") with "space" in Hl. rewrite Hl. cbn [negb].
  now rewrite andb_false_r.
Qed.

Section CqlExamples.
#[local] Existing Instance no_float.

Lemma search_cql_query_with_space_witness :
  confluence_tools.search_cql "space = DEV AND title ~ runbook" (Some "OPS")
  = "space = DEV AND title ~ runbook".
Proof.
  apply (search_cql_query_with_space "space = DEV AND title ~ runbook"
           (Some "OPS")).
  reflexivity.
Defined.

End CqlExamples.

(** X15. With a non-empty space key and a query that does not mention
    [space] in any spelling, the CQL string starts with
    [space = "<space_key>" AND ], and the query follows in it as it was
    given: in parentheses when it holds one of the CQL operators, in the
    text search [type = page AND text ~ "<query>"] when it holds none. *)
Theorem search_cql_scoped_to_space {F : PyFloat} :
  forall (query space_key : string),
    space_key <> "" ->
    PyStr.contains "space" (PyStr.lower query) = false ->
    confluence_tools.search_cql query (Some space_key)
    = "space = " ++ quoted space_key ++ " AND "
      ++ (if existsb (fun op => PyStr.contains op query) confluence_tools.cql_ops
          then "(" ++ query ++ ")"
          else "type = page AND text ~ " ++ quoted query).
Proof.
  intros query space_key Hk Hs. unfold confluence_tools.search_cql.
  apply String.eqb_neq in Hk. cbn [given fmt]. rewrite Hk, Hs. cbn [negb andb].
  destruct (existsb _ confluence_tools.cql_ops); reflexivity.
Qed.

Section CqlScopeExamples.
#[local] Existing Instance no_float.

Lemma search_cql_scoped_to_space_witness :
  confluence_tools.search_cql "title ~ runbook" (Some "DEV")
  = "space = " ++ quoted "DEV" ++ " AND (title ~ runbook)" /\
  confluence_tools.search_cql "runbook" (Some "DEV")
  = "space = " ++ quoted "DEV" ++ " AND type = page AND text ~ "
    ++ quoted "runbook".
Proof.
  split.
  - apply (search_cql_scoped_to_space "title ~ runbook" "DEV");
      [discriminate|reflexivity].
  - apply (search_cql_scoped_to_space "runbook" "DEV");
      [discriminate|reflexivity].
Defined.

End CqlScopeExamples.

(** ** The first request of every tool *)

Section FirstRequestSent.
Context {F : PyFloat}.

(** A [try] statement that starts with a request logs it, whatever the
    reply, before anything else. *)
Lemma try_request_first n {A} (r : request) (k : response -> M A)
    (handler : exn -> option (M A)) (w : world) :
  (forall resp, at_most n (k resp)) ->
  (forall e h, handler e = Some h -> at_most 0 h) ->
  exists l,
    sent (snd (try_except (resp <- requests_request r ;; k resp) handler w))
    = (sent w ++ r :: l)%list /\ (List.length l < S n)%nat.
Proof.
  intros Hk Hh.
  assert (E : try_except (resp <- requests_request r ;; k resp) handler w
              = match transport w (List.length (sent w)) with
                | Replies resp => try_except (k resp) handler (logged r w)
                | Fails e => match handler e with
                             | Some h => h (logged r w)
                             | None => (Raised e, logged r w)
                             end
                end).
  { unfold try_except, bind, requests_request.
    destruct (transport w _); reflexivity. }
  rewrite E. destruct (transport w _) as [resp|e].
  - destruct (at_most_try n (k resp) handler (Hk resp) Hh (logged r w))
      as (l & Hl & Hn).
    exists l. rewrite Hl. cbn [logged sent]. rewrite <- app_assoc.
    split; [reflexivity|lia].
  - destruct (handler e) as [h|] eqn:Eh.
    + destruct (Hh e h Eh (logged r w)) as (l & Hl & Hn).
      exists l. rewrite Hl. cbn [logged sent]. rewrite <- app_assoc.
      split; [reflexivity|lia].
    + exists []. split; [reflexivity|cbn; lia].
Qed.

(** A computation that sends one request and goes on. *)
Lemma bind_after_one n {A B} (m : M A) (k : A -> M B) (w : world) r :
  sent (snd (m w)) = (sent w ++ [r])%list ->
  (forall a, at_most n (k a)) ->
  exists l, sent (snd (bind m k w)) = (sent w ++ r :: l)%list /\
            (List.length l < S n)%nat.
Proof.
  intros Hm Hk. unfold bind. destruct (m w) as [[a|e] w1]; cbn [snd] in *.
  - destruct (Hk a w1) as (l & Hl & Hn). exists l.
    rewrite Hl, Hm, <- app_assoc. split; [reflexivity|lia].
  - exists []. split; [exact Hm|cbn; lia].
Qed.

Lemma create_page_payload space_key title body parent_id :
  VDict (if given parent_id
         then dict_set "ancestors" (VList [VDict [("id", VStr (fmt parent_id))]])
                [("type", VStr "page"); ("title", VStr title);
                 ("space", VDict [("key", VStr space_key)]);
                 ("body", VDict [("storage",
                                  VDict [("value", VStr body);
                                         ("representation", VStr "storage")])])]
         else [("type", VStr "page"); ("title", VStr title);
               ("space", VDict [("key", VStr space_key)]);
               ("body", VDict [("storage",
                                VDict [("value", VStr body);
                                       ("representation", VStr "storage")])])])
  = create_page_body space_key title body parent_id.
Proof. destruct parent_id as [[|c rest]|]; reflexivity. Qed.

Lemma get_issue_params expand :
  (if given expand then [("expand", fmt expand)] else [])
  = match expand with
    | Some (String c rest) => [("expand", String c rest)]
    | _ => []
    end.
Proof. destruct expand as [[|c rest]|]; reflexivity. Qed.

(** The state in which a JIRA tool sends its first request. *)
Lemma probed_state verify_ssl (w : world) :
  has_jira (settings w) = true ->
  exists w1,
    jira_tools._detect_api_version verify_ssl w = (Returned (cached_version w), w1) /\
    settings w1 = settings w /\ has_jira (settings w1) = true.
Proof.
  intros Hc. rewrite detect_api_version_run. eexists. split; [reflexivity|].
  destruct (_api_version w); cbn [settings after_probe]; now split.
Qed.

Ltac first_of_confluence Hc :=
  unfold try_except, bind at 1;
  rewrite confluence_request_configured by exact Hc;
  apply (try_request_first 0 _ _ confluence_tools.handlers);
  [intros resp; repeat at_most_step|apply at_most_handlers_confluence].

Ltac first_of_jira verify_ssl w Hc :=
  let w1 := fresh "w1" in
  let E := fresh "E" in
  let Hs := fresh "Hs" in
  let Hc1 := fresh "Hc1" in
  destruct (probed_state verify_ssl w Hc) as (w1 & E & Hs & Hc1);
  unfold bind at 1; rewrite E; cbn [snd]; rewrite <- Hs;
  cbv zeta; unfold try_except, bind at 1;
  rewrite jira_request_configured by exact Hc1.

Lemma call_first_request (c : tool_call) (w : world) :
  is_configured (service_of c) (settings w) = true ->
  rejected c = None -> limit_fits c = true ->
  exists l,
    sent (snd (call c w))
    = (sent (at_own_request c w) ++ first_request c (settings w) :: l)%list /\
    (List.length l < own_requests c)%nat.
Proof.
  intros Hc Hrej Hfit.
  destruct c;
    cbn [service_of is_configured call at_own_request verify_of rejected
         first_request own_requests limit_fits] in *.
  - rewrite confluence_search_run by exact Hfit.
    unfold confluence_tools.search_steps. cbv zeta.
    first_of_confluence Hc.
  - unfold confluence_tools.confluence_get_page. cbv zeta.
    destruct (given page_id); cbn [orb] in Hrej;
      [|destruct (given title && given space_key); [|discriminate]];
      first_of_confluence Hc.
  - unfold confluence_tools.confluence_create_page. cbv zeta.
    rewrite create_page_payload. first_of_confluence Hc.
  - unfold confluence_tools.confluence_update_page.
    apply (bind_after_one 1).
    + unfold try_except, bind at 1.
      rewrite confluence_request_configured by exact Hc.
      apply (try_request_once _ _ _ w).
      * intros resp. repeat issues_step.
      * apply issues_handlers_first.
    + intros first. repeat at_most_step.
  - unfold jira_tools.jira_search. first_of_jira verify_ssl w Hc.
    apply (try_request_first 0 _ _ jira_tools.handlers);
      [intros resp; repeat at_most_step|apply at_most_handlers_jira].
  - unfold jira_tools.jira_get_issue. first_of_jira verify_ssl w Hc.
    rewrite get_issue_params.
    apply (try_request_first 0 _ _ jira_tools.handlers);
      [intros resp; repeat at_most_step|apply at_most_handlers_jira].
  - unfold jira_tools.jira_create_issue. first_of_jira verify_ssl w Hc.
    apply (try_request_first 0 _ _ jira_tools.handlers);
      [intros resp; repeat at_most_step|apply at_most_handlers_jira].
  - unfold jira_tools.jira_update_issue.
    destruct (probed_state verify_ssl w Hc) as (w1 & E & Hs & Hc1).
    unfold bind at 1. rewrite E. cbn [snd]. rewrite <- Hs. cbv zeta.
    rewrite update_fields_truthy.
    destruct (nothing_to_update _ _ _ _ _ _); [discriminate Hrej|]. cbn [negb].
    unfold try_except, bind at 1.
    rewrite jira_request_configured by exact Hc1.
    apply (try_request_first 0 _ _ jira_tools.handlers);
      [intros resp; repeat at_most_step|apply at_most_handlers_jira].
  - unfold jira_tools.jira_add_comment. first_of_jira verify_ssl w Hc.
    apply (try_request_first 0 _ _ jira_tools.handlers);
      [intros resp; repeat at_most_step|apply at_most_handlers_jira].
  - unfold jira_tools.jira_transition_issue, jira_tools.transition_steps.
    first_of_jira verify_ssl w Hc.
    apply (try_request_first 1 _ _ jira_tools.handlers);
      [intros resp; repeat at_most_step|apply at_most_handlers_jira].
Qed.

End FirstRequestSent.

(** ** A call after [configure] *)

Section AfterConfigure.
Context {F : PyFloat}.

(** The probe only adds to the log. *)
Lemma at_own_request_sent (c : tool_call) (w : world) :
  exists p, sent (at_own_request c w) = (sent w ++ p)%list.
Proof.
  unfold at_own_request. destruct (service_of c).
  - exists []. now rewrite app_nil_r.
  - destruct (probed_sent (verify_of c) w) as (p & Hp & _). now exists p.
Qed.

Lemma configure_configures (sv : service) url username password (w : world) :
  is_configured sv (settings (snd (configure sv url username password w)))
  = true.
Proof. destruct sv; reflexivity. Qed.

End AfterConfigure.

(** C8. After [configure(url, username, password)] of a service, every
    HTTP request the next call of one of its tools issues goes to [url],
    its trailing slashes stripped, followed by an API path of the tool,
    with HTTP Basic authentication by exactly that username and password;
    and the first request of the tool's own is among them, unless the
    call is turned down for its arguments or stops at
    [str(max_results)], which raises for a [max_results] of more than
    4300 digits. *)
Theorem configure_then_call {F : PyFloat} :
  forall (c : tool_call) (url username password : string) (w : world),
    exists l,
      sent (snd (call c (snd (configure (service_of c) url username password w))))
      = (sent (snd (configure (service_of c) url username password w)) ++ l)%list /\
      Forall (addressed url username password c) l /\
      (rejected c = None -> limit_fits c = true ->
       In (first_request c
             (settings (snd (configure (service_of c) url username password w))))
          l).
Proof.
  intros c url username password w.
  set (w1 := snd (configure (service_of c) url username password w)).
  assert (HQ : forall method path verify_ssl kw, In path (api_paths c) ->
             addressed url username password c
               (match service_of c with
                | Confluence =>
                    confluence_request_of (settings w1) method path verify_ssl kw
                | Jira => jira_request_of (settings w1) method path verify_ssl kw
                end)).
  { intros method path verify_ssl kw Hin. exists path. split; [exact Hin|].
    unfold w1. destruct (service_of c); cbn;
      unfold PyStr.rstrip_slash; rewrite PyStrFacts.rstrip_with_idem;
      now split. }
  destruct (call_issues (settings w1) _ c HQ w1 eq_refl) as (l & Hl & Hall & _).
  exists l. split; [exact Hl|]. split; [exact Hall|].
  intros Hrej Hfit.
  destruct (call_first_request c w1
              (configure_configures (service_of c) url username password w)
              Hrej Hfit) as (l' & Hl' & _).
  destruct (at_own_request_sent c w1) as (p & Hp).
  rewrite Hl, Hp, <- app_assoc in Hl'. apply app_inv_head in Hl'.
  rewrite Hl'. apply in_or_app. right. now left.
Qed.

Section ConfigureExamples.
#[local] Existing Instance no_float.

Lemma configure_then_call_witness :
  exists l,
    sent (snd (call (JiraGetIssue "PROJ-1" None None)
                 (snd (configure Jira "https://jira.example.com//" "bob" "pw"
                         fresh_world))))
    = l /\
    Forall (addressed "https://jira.example.com//" "bob" "pw"
              (JiraGetIssue "PROJ-1" None None)) l /\
    map req_url l = ["https://jira.example.com/rest/api/2/serverInfo";
                     "https://jira.example.com/rest/api/2/issue/PROJ-1"] /\
    In (first_request (JiraGetIssue "PROJ-1" None None)
          (settings (snd (configure Jira "https://jira.example.com//" "bob" "pw"
                            fresh_world)))) l.
Proof.
  destruct (configure_then_call (JiraGetIssue "PROJ-1" None None)
              "https://jira.example.com//" "bob" "pw" fresh_world)
    as (l & Hl & Hall & Hin).
  exists l. split; [exact Hl|]. split; [exact Hall|].
  split; [|exact (Hin eq_refl eq_refl)].
  cbn in Hl. rewrite <- Hl. reflexivity.
Defined.

End ConfigureExamples.

(** X16. A call whose service is configured, that is not turned down
    for its arguments and, for [confluence_search], whose [max_results]
    has at most 4300 digits (so that [str(max_results)] does not raise
    before the [try] statement) sends the first request of its own
    whatever follows: the method, the path, the query parameters or the
    JSON body are those of [first_request], built from the arguments
    alone.  After it comes at most one more request, and only for
    [confluence_update_page] and [jira_transition_issue]. *)
Theorem call_sends_its_first_request {F : PyFloat} :
  forall (c : tool_call) (w : world),
    is_configured (service_of c) (settings w) = true ->
    rejected c = None -> limit_fits c = true ->
    exists l,
      sent (snd (call c w))
      = (sent (at_own_request c w) ++ first_request c (settings w) :: l)%list /\
      (List.length l < own_requests c)%nat.
Proof.
  intros c w Hc Hrej Hfit. exact (call_first_request c w Hc Hrej Hfit).
Qed.

Section FirstRequestExamples.
#[local] Existing Instance no_float.

Lemma call_sends_its_first_request_witness :
  exists l,
    sent (snd (call (JiraGetIssue "PROJ-1" (Some "changelog") (Some false))
                 (world_with not_found)))
    = (sent (at_own_request (JiraGetIssue "PROJ-1" (Some "changelog") (Some false))
               (world_with not_found))
       ++ {| req_method := "GET";
             req_url := "https://jira.example.com/rest/api/2/issue/PROJ-1";
             req_auth := (Some "alice", Some "s3cret");
             req_headers := default_headers;
             req_verify := false;
             req_timeout := 30;
             req_params := Some [("expand", "changelog")];
             req_json := None |} :: l)%list /\
    (List.length l < 1)%nat.
Proof.
  apply (call_sends_its_first_request
           (JiraGetIssue "PROJ-1" (Some "changelog") (Some false))
           (world_with not_found)); reflexivity.
Defined.

End FirstRequestExamples.

(** ** The fields objects of the JIRA tools *)

Section FieldFacts.
Context {F : PyFloat}.

Lemma dict_lookup_set k k' v (d : dict) :
  dict_lookup k (dict_set k' v d)
  = if String.eqb k' k then Some v else dict_lookup k d.
Proof.
  induction d as [|[k0 v0] rest IH]; [reflexivity|].
  cbn [dict_set]. destruct (String.eqb_spec k0 k') as [->|Hne].
  - cbn [dict_lookup]. destruct (String.eqb k' k); reflexivity.
  - cbn [dict_lookup]. rewrite IH.
    destruct (String.eqb_spec k0 k) as [->|H0]; [|reflexivity].
    destruct (String.eqb_spec k' k) as [->|H1]; [contradiction|reflexivity].
Qed.

Lemma dict_lookup_app k (a b : dict) :
  dict_lookup k (a ++ b)%list
  = match dict_lookup k a with
    | Some v => Some v
    | None => dict_lookup k b
    end.
Proof.
  induction a as [|[k0 v0] a IH]; [reflexivity|].
  cbn [app dict_lookup]. destruct (String.eqb k0 k); [reflexivity|exact IH].
Qed.

Lemma dict_lookup_update k (d extra : dict) :
  dict_lookup k (dict_update d extra)
  = match dict_lookup k (rev extra) with
    | Some v => Some v
    | None => dict_lookup k d
    end.
Proof.
  unfold dict_update. revert d.
  induction extra as [|[k1 v1] extra IH]; intros d; [reflexivity|].
  cbn [fold_left fst snd rev]. rewrite IH, dict_lookup_app, dict_lookup_set.
  destruct (dict_lookup k (rev extra)); [reflexivity|].
  cbn [dict_lookup]. destruct (String.eqb k1 k); reflexivity.
Qed.

Lemma dict_lookup_update_if k custom_fields (d : dict) :
  dict_lookup k (jira_tools.update_if custom_fields d)
  = match custom_field custom_fields k with
    | Some v => Some v
    | None => dict_lookup k d
    end.
Proof.
  unfold jira_tools.update_if, custom_field.
  destruct custom_fields as [[|kv more]|]; [reflexivity| |reflexivity].
  apply dict_lookup_update.
Qed.

End FieldFacts.

Ltac by_key k :=
  repeat match goal with
         | |- context [String.eqb ?a k] =>
             destruct (String.eqb_spec a k) as [<-|?]; [reflexivity|]
         end;
  try reflexivity.

(** X17. The fields object [jira_create_issue] sends, read by key: a
    key of [custom_fields] has the value [custom_fields] gives it, also
    when it is one of the standard keys, which it then replaces; any
    other key is one of [project], [summary], [issuetype], always
    present, or one of [description], [priority], [assignee], [labels],
    present when the argument is not [None] (priority and assignee as
    [{name: ...}]); there is no other key.  An empty string or list is
    not [None]: it is sent. *)
Theorem create_issue_fields_by_key {F : PyFloat} :
  forall (project_key summary issue_type : string)
         (description priority assignee : option string)
         (labels : option (list string)) (custom_fields : option dict)
         (k : string),
    dict_lookup k (jira_tools.create_fields project_key summary issue_type
                     description priority assignee labels custom_fields)
    = match custom_field custom_fields k with
      | Some v => Some v
      | None => create_field project_key summary issue_type description
                  priority assignee labels k
      end.
Proof.
  intros. unfold jira_tools.create_fields. rewrite dict_lookup_update_if.
  destruct (custom_field custom_fields k); [reflexivity|].
  unfold create_field, jira_tools.named, jira_tools.labels_value.
  destruct description, priority, assignee, labels;
    cbn [jira_tools.set_if option_map]; rewrite ?dict_lookup_set;
    cbn [dict_lookup]; by_key k.
Qed.

(** X18. The fields object [jira_update_issue] sends, read by key: a
    key of [custom_fields] has the value [custom_fields] gives it; any
    other key is one of [summary], [description], [assignee], [labels],
    [priority] whose argument is not [None]; a field whose argument is
    [None] is not in the object, so the update leaves it alone. *)
Theorem update_issue_fields_by_key {F : PyFloat} :
  forall (summary description assignee : option string)
         (labels : option (list string)) (priority : option string)
         (custom_fields : option dict) (k : string),
    dict_lookup k (jira_tools.update_fields summary description assignee
                     labels priority custom_fields)
    = match custom_field custom_fields k with
      | Some v => Some v
      | None => update_field summary description assignee labels priority k
      end.
Proof.
  intros. unfold jira_tools.update_fields. rewrite dict_lookup_update_if.
  destruct (custom_field custom_fields k); [reflexivity|].
  unfold update_field, jira_tools.named, jira_tools.labels_value.
  destruct summary, description, assignee, labels, priority;
    cbn [jira_tools.set_if option_map]; rewrite ?dict_lookup_set;
    cbn [dict_lookup]; by_key k.
Qed.

(** ** The transition that is executed *)

(** X19. [jira_transition_issue] executes the first transition of the
    listing whose name equals [transition_name] up to case: when the
    transitions before it have other names, the call sends, after the
    GET of the listing, the POST with the [id] of that transition, also
    when a later transition has the same name; these two are the
    requests of its own. *)
Theorem transition_issue_first_match {F : PyFloat} :
  forall (issue_key transition_name : string) (verify_ssl : option bool)
         (w : world) (resp : response) (data : value)
         (pre post : list value) (d : dict) (name : string) (id : value),
    has_jira (settings w) = true ->
    transport w (List.length (sent (probed verify_ssl w))) = Replies resp ->
    ok resp = true -> resp_json resp = Some data ->
    py_get data "transitions" (VList [])
    = Returned (VList (pre ++ VDict d :: post)) ->
    Forall (fun t => exists n, has_name t n /\
                               PyStr.lower n <> PyStr.lower transition_name) pre ->
    dict_lookup "name" d = Some (VStr name) ->
    PyStr.lower name = PyStr.lower transition_name ->
    dict_lookup "id" d = Some id ->
    sent (snd (jira_tools.jira_transition_issue issue_key transition_name
                 verify_ssl w))
    = (sent (probed verify_ssl w)
       ++ [transitions_request (settings w) issue_key verify_ssl;
           transition_post (settings w) issue_key verify_ssl id])%list.
Proof.
  intros issue_key transition_name verify_ssl w resp data pre post d name id
    Hc Hreply Hok Hjson Htr Hpre Hname Hlow Hid.
  exact (transition_first_match_log issue_key transition_name verify_ssl w
           resp data pre post d name id Hc Hreply Hok Hjson Htr Hpre Hname
           Hlow Hid).
Qed.

Section FirstMatchExamples.
#[local] Existing Instance no_float.

Lemma transition_issue_first_match_witness :
  sent (snd (jira_tools.jira_transition_issue "PROJ-1" "DONE" None
               (world_with listing_twice_replies)))
  = (sent (probed None (world_with listing_twice_replies))
     ++ [transitions_request example_settings "PROJ-1" None;
         transition_post example_settings "PROJ-1" None (VStr "31")])%list.
Proof.
  apply (transition_issue_first_match "PROJ-1" "DONE" None
           (world_with listing_twice_replies)
           {| status_code := 200; ok := true; text := "";
              resp_json := Some listing_twice |}
           listing_twice [to_do] [done_again]
           [("id", VStr "31"); ("name", VStr "Done");
            ("to", VDict [("name", VStr "Done")])]
           "Done" (VStr "31")); try reflexivity.
  repeat constructor. exists "To Do". split.
  - eexists. split; reflexivity.
  - discriminate.
Defined.

End FirstMatchExamples.

(** ** Reading a decoded body *)

Section PureFacts.
Context {F : PyFloat}.

Lemma bind_o_raised {A B} (P : exn -> Prop) (o : outcome A)
    (k : A -> outcome B) e :
  (o = Raised e -> P e) -> (forall a, k a = Raised e -> P e) ->
  bind_o o k = Raised e -> P e.
Proof.
  intros Ho Hk. destruct o as [a|e0]; cbn [bind_o]; [apply Hk|].
  intros [= ->]. now apply Ho.
Qed.

Lemma py_get_raises v key default e :
  py_get v key default = Raised e -> unhandled e.
Proof. destruct v; cbn; try discriminate; intros [= <-]; now split. Qed.

Lemma py_iter_raises v e : py_iter v = Raised e -> unhandled e.
Proof. destruct v; cbn; try discriminate; intros [= <-]; now split. Qed.

Lemma map_o_raises {A B} (P : exn -> Prop) (f : A -> outcome B) l e :
  (forall a e, f a = Raised e -> P e) -> map_o f l = Raised e -> P e.
Proof.
  intros Hf. induction l as [|a l IH]; cbn [map_o]; [discriminate|].
  apply bind_o_raised; [apply Hf|]. intros b.
  apply bind_o_raised; [exact IH|]. discriminate.
Qed.

Lemma map_o_returned {A B} (f : A -> outcome B) l l' :
  map_o f l = Returned l' -> Forall2 (fun a b => f a = Returned b) l l'.
Proof.
  revert l'. induction l as [|a l IH]; intros l'; cbn [map_o].
  - intros [= <-]. constructor.
  - destruct (f a) as [b|e] eqn:Ea; cbn [bind_o]; [|discriminate].
    destruct (map_o f l) as [bs|e]; cbn [bind_o]; [|discriminate].
    intros [= <-]. constructor; [exact Ea|now apply IH].
Qed.

Lemma get_nested_raises d key nested_key e :
  jira_tools._get_nested d key nested_key = Raised e -> unhandled e.
Proof.
  unfold jira_tools._get_nested.
  apply bind_o_raised; [apply py_get_raises|]. intros val.
  destruct (truthy val); [apply py_get_raises|discriminate].
Qed.

End PureFacts.

Ltac pure_raises :=
  repeat (apply bind_o_raised;
          [first [ apply py_get_raises | apply py_iter_raises
                 | apply get_nested_raises | idtac ]
          |intros ?]);
  try discriminate.

Ltac invert_chain H :=
  repeat match type of H with
         | bind_o ?o _ = Returned _ =>
             let E := fresh "E" in
             destruct o eqn:E; cbn [bind_o] in H; [|discriminate H]
         end;
  injection H as <-.

Section SearchFacts.
Context {F : PyFloat}.

Lemma search_item_raises item e :
  confluence_tools.search_item item = Raised e -> unhandled e.
Proof.
  unfold confluence_tools.search_item. pure_raises.
  - destruct (truthy _); [|discriminate].
    apply bind_o_raised; [apply py_iter_raises|]. intros lbls.
    apply map_o_raises. intros lbl e0. apply py_get_raises.
  - destruct (truthy _); [apply py_get_raises|discriminate].
Qed.

Lemma search_item_returned item r :
  confluence_tools.search_item item = Returned r -> search_result_of item r.
Proof.
  unfold confluence_tools.search_item. intros H. invert_chain H.
  unfold search_result_of. repeat eexists; eassumption.
Qed.

Lemma search_issue_raises issue e :
  jira_tools.search_issue issue = Raised e -> unhandled e.
Proof. unfold jira_tools.search_issue. pure_raises. Qed.

Lemma search_issue_returned issue r :
  jira_tools.search_issue issue = Returned r -> issue_result_of issue r.
Proof.
  unfold jira_tools.search_issue. intros H. invert_chain H.
  unfold issue_result_of. repeat eexists; eassumption.
Qed.

Lemma unhandled_confluence e (w : world) :
  unhandled e ->
  match confluence_tools.handlers e with
  | Some h => h w
  | None => (Raised e, w)
  end = (Raised e, w).
Proof. intros [Hv Hr]. unfold confluence_tools.handlers. now rewrite Hv, Hr. Qed.

Lemma unhandled_jira e (w : world) :
  unhandled e ->
  match jira_tools.handlers e with
  | Some h => h w
  | None => (Raised e, w)
  end = (Raised e, w).
Proof. intros [Hv Hr]. unfold jira_tools.handlers. now rewrite Hv, Hr. Qed.

Lemma Forall2_impl {A B} (R R' : A -> B -> Prop) l l' :
  (forall a b, R a b -> R' a b) -> Forall2 R l l' -> Forall2 R' l l'.
Proof. intros H HR. induction HR; constructor; auto. Qed.

End SearchFacts.

(** X20. [confluence_search], when the response is a success whose body
    is an object with a [results] array, returns either nothing (it
    raises, for an item it cannot read) or the success object with
    - [total]: the [totalSize] of the body, or 0 when the body has
      none; it is not the number of results;
    - [results]: one result for each item of the array, in its order,
      each with the keys [id], [title], [type], [space_key], [labels],
      [url], the first three as the item has them.
    It never returns an error then. *)
Theorem confluence_search_results {F : PyFloat} :
  forall (query : string) (max_results : Z) (space_key : option string)
         (verify_ssl : option bool) (w : world) (resp : response)
         (d : dict) (items : list value) (v : value),
    has_confluence (settings w) = true ->
    transport w (List.length (sent w)) = Replies resp ->
    ok resp = true -> resp_json resp = Some (VDict d) ->
    dict_lookup "results" d = Some (VList items) ->
    fst (confluence_tools.confluence_search query max_results space_key
           verify_ssl w) = Returned v ->
    exists results,
      v = VDict [("success", VBool true);
                 ("total", get_or d "totalSize" (VInt 0));
                 ("results", VList results)] /\
      Forall2 search_result_of items results.
Proof.
  intros query max_results space_key verify_ssl w resp d items v
    Hc Hreply Hok Hjson Hres H.
  destruct (PyStr.fits_str max_results) eqn:Hfit.
  2:{ destruct (confluence_search_refuses query max_results space_key
                  verify_ssl w Hfit) as (e & _ & E).
      rewrite E in H. discriminate H. }
  rewrite confluence_search_run in H by exact Hfit.
  unfold confluence_tools.search_steps in H. cbv zeta in H.
  unfold try_except, bind at 1 in H.
  rewrite confluence_request_configured in H by exact Hc.
  unfold requests_request in H. rewrite Hreply, Hok in H. cbn [negb] in H.
  unfold lift, json in H. rewrite Hjson in H. cbn [bind_o py_get] in H.
  rewrite Hres in H. cbn [py_iter bind_o] in H.
  destruct (map_o confluence_tools.search_item items) as [results|e] eqn:Hmap;
    cbn [bind_o] in H.
  - cbn [fst] in H. injection H as <-. exists results. split; [reflexivity|].
    apply (Forall2_impl _ _ _ _ search_item_returned), map_o_returned, Hmap.
  - rewrite unhandled_confluence in H; [discriminate H|].
    exact (map_o_raises _ _ _ _ search_item_raises Hmap).
Qed.

(** X21. [jira_search], when the response to its POST is a success whose
    body is an object with an [issues] array, returns either nothing (it
    raises, for an issue it cannot read) or the success object with
    - [total]: the [total] of the body, or 0 when the body has none;
    - [issues]: one result for each issue of the array, in its order,
      each with the keys [key], [summary], [status], [assignee],
      [priority], [created], [updated], read from the issue and its
      [fields]. *)
Theorem jira_search_results {F : PyFloat} :
  forall (jql : string) (max_results : Z) (fields : option (list string))
         (verify_ssl : option bool) (w : world) (resp : response)
         (d : dict) (items : list value) (v : value),
    has_jira (settings w) = true ->
    transport w (List.length (sent (probed verify_ssl w))) = Replies resp ->
    ok resp = true -> resp_json resp = Some (VDict d) ->
    dict_lookup "issues" d = Some (VList items) ->
    fst (jira_tools.jira_search jql max_results fields verify_ssl w)
    = Returned v ->
    exists issues,
      v = VDict [("success", VBool true); ("total", get_or d "total" (VInt 0));
                 ("issues", VList issues)] /\
      Forall2 issue_result_of items issues.
Proof.
  intros jql max_results fields verify_ssl w resp d items v
    Hc Hreply Hok Hjson Hres H.
  unfold probed in Hreply.
  unfold jira_tools.jira_search in H.
  destruct (detect_keeps verify_ssl w) as [Hs Ht].
  unfold bind at 1 in H.
  rewrite (surjective_pairing (jira_tools._detect_api_version verify_ssl w)) in H.
  set (w1 := snd (jira_tools._detect_api_version verify_ssl w)) in *.
  rewrite detect_api_version_run in H. cbn [fst] in H.
  rewrite <- Hs in Hc. rewrite <- Ht in Hreply.
  cbv zeta in H. unfold try_except, bind at 1 in H.
  rewrite jira_request_configured in H by exact Hc.
  unfold requests_request in H. rewrite Hreply, Hok in H. cbn [negb] in H.
  unfold lift, json in H. rewrite Hjson in H. cbn [bind_o py_get] in H.
  rewrite Hres in H. cbn [py_iter bind_o] in H.
  destruct (map_o jira_tools.search_issue items) as [issues|e] eqn:Hmap;
    cbn [bind_o] in H.
  - cbn [fst] in H. injection H as <-. exists issues. split; [reflexivity|].
    apply (Forall2_impl _ _ _ _ search_issue_returned), map_o_returned, Hmap.
  - rewrite unhandled_jira in H; [discriminate H|].
    exact (map_o_raises _ _ _ _ search_issue_raises Hmap).
Qed.

Section SearchResultExamples.
#[local] Existing Instance no_float.

Lemma confluence_search_results_witness :
  exists results,
    VDict [("success", VBool true); ("total", VInt 25);
           ("results", VList [found_page_result])]
    = VDict [("success", VBool true);
             ("total", get_or found_pages "totalSize" (VInt 0));
             ("results", VList results)] /\
    Forall2 search_result_of [found_page] results.
Proof.
  apply (confluence_search_results "runbook" 10 None None
           (world_with (fun _ => respond 200 "" (Some (VDict found_pages))))
           {| status_code := 200; ok := true; text := "";
              resp_json := Some (VDict found_pages) |}
           found_pages [found_page]);
    try rewrite confluence_search_run by (apply fits_str_small; reflexivity);
    reflexivity.
Defined.

Lemma jira_search_results_witness :
  exists issues,
    VDict [("success", VBool true); ("total", VInt 0);
           ("issues", VList [issue_1_result])]
    = VDict [("success", VBool true);
             ("total", get_or [("issues", VList [issue_1])] "total" (VInt 0));
             ("issues", VList issues)] /\
    Forall2 issue_result_of [issue_1] issues.
Proof.
  apply (jira_search_results "project = PROJ" 20 None None
           (world_with
              (fun _ => respond 200 "" (Some (VDict [("issues", VList [issue_1])]))))
           {| status_code := 200; ok := true; text := "";
              resp_json := Some (VDict [("issues", VList [issue_1])]) |}
           [("issues", VList [issue_1])] [issue_1]); reflexivity.
Defined.

End SearchResultExamples.

(** X22. [_get_nested(d, key, nested_key)] on an object [d]: a missing
    key gives [None]; a value that is an object gives its
    [nested_key], or [None] when it has none (so for the empty object
    too); any other value gives [None] when it is falsy (null, false,
    0, the empty string, the empty array) and raises the
    AttributeError of [.get] when it is truthy: a status that comes as a
    plain string is not read safely. *)
Theorem get_nested_by_cases {F : PyFloat} :
  forall (d : dict) (key nested_key : string),
    jira_tools._get_nested (VDict d) key nested_key
    = match dict_lookup key d with
      | None => Returned VNone
      | Some (VDict inner) => Returned (get_or inner nested_key VNone)
      | Some v => if truthy v then Raised (no_attribute v "get")
                  else Returned VNone
      end.
Proof.
  intros d key nested_key. unfold jira_tools._get_nested, get_or.
  cbn [py_get bind_o]. destruct (dict_lookup key d) as [v|]; [|reflexivity].
  destruct v as [| b | n | x | s | l | inner]; cbn [truthy py_get];
    try reflexivity.
  destruct inner; reflexivity.
Qed.

(** ** The keys of a result *)

Section Keyed.
Context {F : PyFloat}.

Lemma keyed_err keys msg : keyed keys (_err msg).
Proof. left. eauto. Qed.

Lemma returns_handlers_keyed_confluence keys e h :
  confluence_tools.handlers e = Some h -> returns (keyed keys) h.
Proof.
  unfold confluence_tools.handlers.
  destruct (is_ValueError e); [intros [= <-]; apply returns_ret, keyed_err|].
  destruct (is_RequestException e); [|discriminate].
  intros [= <-]. apply returns_ret, keyed_err.
Qed.

Lemma returns_handlers_error e h :
  confluence_tools.handlers e = Some h ->
  returns (fun r => exists msg, r = _err msg) h.
Proof.
  unfold confluence_tools.handlers.
  destruct (is_ValueError e); [intros [= <-]; apply returns_ret; eauto|].
  destruct (is_RequestException e); [|discriminate].
  intros [= <-]. apply returns_ret. eauto.
Qed.

Lemma returns_handlers_keyed_jira keys e h :
  jira_tools.handlers e = Some h -> returns (keyed keys) h.
Proof.
  unfold jira_tools.handlers.
  destruct (is_ValueError e); [intros [= <-]; apply returns_ret, keyed_err|].
  destruct (is_RequestException e); [|discriminate].
  intros [= <-]. apply returns_ret, keyed_err.
Qed.

End Keyed.

Ltac keyed_step :=
  match goal with
  | |- returns _ (try_except _ confluence_tools.handlers) =>
      apply returns_try; [|apply returns_handlers_keyed_confluence]
  | |- returns _ (try_except _ jira_tools.handlers) =>
      apply returns_try; [|apply returns_handlers_keyed_jira]
  | |- returns _ (bind _ _) =>
      eapply returns_bind; [apply returns_any|intros ? _]
  | |- returns _ (ret (_err _)) => apply returns_ret, keyed_err
  | |- returns _ (ret (_resp_err _ _)) =>
      apply returns_ret; unfold _resp_err; apply keyed_err
  | |- returns _ (ret (VDict _)) =>
      apply returns_ret; right; eexists; split; reflexivity
  | |- returns _ (lift _) =>
      apply returns_lift; intros ?;
      repeat (apply bind_o_returned; intros ?);
      intros [= <-]; right; eexists; split; reflexivity
  | |- returns _ _ => progress cbv beta zeta
  | |- returns _ (if ?b then _ else _) => destruct b
  end.

Section KeyedTools.
Context {F : PyFloat}.

Lemma call_keyed (c : tool_call) : returns (keyed (result_keys c)) (call c).
Proof.
  destruct c; cbn [call result_keys].
  - unfold confluence_tools.confluence_search, confluence_tools.search_steps.
    repeat keyed_step.
  - unfold confluence_tools.confluence_get_page. repeat keyed_step.
  - unfold confluence_tools.confluence_create_page. repeat keyed_step.
  - unfold confluence_tools.confluence_update_page.
    apply (returns_bind
             (fun first => match first with
                           | inl r => exists msg, r = _err msg
                           | inr _ => True
                           end)).
    + apply returns_try.
      * eapply returns_bind; [apply returns_any|intros get_resp _].
        destruct (negb (ok get_resp)).
        -- apply returns_ret. unfold _resp_err. eauto.
        -- apply returns_lift. intros [r|v]; [|trivial].
           intros Ha. exfalso. revert Ha.
           do 3 (apply (bind_o_returned (fun _ => False)); intros ?).
           discriminate.
      * intros e h. destruct (confluence_tools.handlers e) as [h0|] eqn:E;
          [|discriminate].
        intros [= <-]. eapply returns_bind.
        -- eapply returns_handlers_error, E.
        -- intros r Hr. apply returns_ret. exact Hr.
    + intros [result|current_version] Hq;
        [apply returns_ret; left; exact Hq|].
      repeat keyed_step.
  - unfold jira_tools.jira_search. repeat keyed_step.
  - unfold jira_tools.jira_get_issue. repeat keyed_step.
  - unfold jira_tools.jira_create_issue. repeat keyed_step.
  - unfold jira_tools.jira_update_issue. repeat keyed_step.
  - unfold jira_tools.jira_add_comment. repeat keyed_step.
  - unfold jira_tools.jira_transition_issue, jira_tools.transition_steps.
    repeat keyed_step.
Qed.

End KeyedTools.

(** X23. What a call returns has one of two shapes, in every state and
    whatever the server replies: the error envelope
    [{success: False, error: msg}], or an object that starts with
    [success: True] and has exactly the keys of its tool, in their
    order: [success], [total], [results] for [confluence_search];
    [success], [key] for [jira_update_issue]; and so on for the ten
    tools.  No tool returns a part of its result, and none adds a key. *)
Theorem results_have_the_keys_of_the_tool {F : PyFloat} :
  forall (c : tool_call) (w : world) (v : value),
    fst (call c w) = Returned v ->
    (exists msg, v = _err msg) \/
    (exists rest, v = VDict (("success", VBool true) :: rest) /\
                  "success" :: map fst rest = result_keys c).
Proof.
  intros c w v H. destruct (call c w) as [o w'] eqn:E. cbn in H. subst o.
  exact (call_keyed c w v w' E).
Qed.

Section KeyedExamples.
#[local] Existing Instance no_float.

Lemma results_have_the_keys_of_the_tool_witness :
  (exists msg,
     VDict [("success", VBool true); ("id", VNone); ("author", VNone);
            ("body", VNone); ("created", VNone)] = _err msg) \/
  (exists rest,
     VDict [("success", VBool true); ("id", VNone); ("author", VNone);
            ("body", VNone); ("created", VNone)]
     = VDict (("success", VBool true) :: rest) /\
     "success" :: map fst rest = ["success"; "id"; "author"; "body"; "created"]).
Proof.
  apply (results_have_the_keys_of_the_tool
           (JiraAddComment "PROJ-1" "Looks good" None)
           (world_with bare_page_replies)).
  reflexivity.
Defined.

End KeyedExamples.

(** X24. What [jira_transition_issue] reports of an executed transition
    comes from the listing, not from the response to the POST, whose
    body is not read: when the POST has a success status, the result
    holds the issue key, as [transition] the name of the transition as
    the listing spells it (not as the caller did) and as [to_status]
    the [name] of its [to] object, [None] when the listing has none. *)
Theorem transition_issue_reports_the_listing {F : PyFloat} :
  forall (issue_key transition_name : string) (verify_ssl : option bool)
         (w : world) (resp posted : response) (data : value)
         (pre post : list value) (d : dict) (name : string)
         (id to_status : value),
    has_jira (settings w) = true ->
    transport w (List.length (sent (probed verify_ssl w))) = Replies resp ->
    ok resp = true -> resp_json resp = Some data ->
    py_get data "transitions" (VList [])
    = Returned (VList (pre ++ VDict d :: post)) ->
    Forall (fun t => exists n, has_name t n /\
                               PyStr.lower n <> PyStr.lower transition_name) pre ->
    dict_lookup "name" d = Some (VStr name) ->
    PyStr.lower name = PyStr.lower transition_name ->
    dict_lookup "id" d = Some id ->
    py_get (get_or d "to" (VDict [])) "name" VNone = Returned to_status ->
    transport w (S (List.length (sent (probed verify_ssl w)))) = Replies posted ->
    ok posted = true ->
    fst (jira_tools.jira_transition_issue issue_key transition_name
           verify_ssl w)
    = Returned (VDict [("success", VBool true); ("key", VStr issue_key);
                       ("transition", VStr name); ("to_status", to_status)]).
Proof.
  intros issue_key transition_name verify_ssl w resp posted data pre post d
    name id to_status Hc Hreply Hok Hjson Htr Hpre Hname Hlow Hid Hto
    Hposted Hok2.
  rewrite transition_after_probe.
  destruct (detect_keeps verify_ssl w) as [Hs Ht].
  fold (probed verify_ssl w) in Hs, Ht.
  set (w0 := probed verify_ssl w) in *.
  rewrite <- Hs in Hc. rewrite <- Ht in Hreply, Hposted.
  unfold jira_tools.transition_steps, try_except.
  unfold bind at 1. rewrite jira_request_configured by exact Hc.
  unfold requests_request at 1. rewrite Hreply, Hok. cbn [negb].
  rewrite bind_lift. unfold json. rewrite Hjson.
  rewrite bind_lift, Htr. cbv zeta. rewrite bind_lift. cbn [py_iter bind_o].
  rewrite (find_transition_first _ pre d post name Hpre Hname Hlow).
  assert (Htruthy : truthy (VDict d) = true).
  { destruct d; [discriminate Hname|reflexivity]. }
  rewrite Htruthy. cbn [negb]. rewrite bind_lift. cbn [py_item]. rewrite Hid.
  unfold bind at 1.
  match goal with
  | |- context [jira_tools._jira_request ?m ?p ?v ?kw ?w1] =>
      rewrite (jira_request_configured m p v kw w1) by exact Hc
  end.
  unfold requests_request. cbn [settings sent transport].
  rewrite length_app. cbn [List.length]. rewrite Nat.add_1_r, Hposted, Hok2.
  cbn [negb lift py_get bind_o]. rewrite Hname. cbn [bind_o].
  unfold get_or in Hto.
  destruct (dict_lookup "to" d) as [to|]; rewrite Hto; reflexivity.
Qed.

Section ReportExamples.
#[local] Existing Instance no_float.

Lemma transition_issue_reports_the_listing_witness :
  fst (jira_tools.jira_transition_issue "PROJ-1" "DONE" None
         (world_with listing_twice_replies))
  = Returned (VDict [("success", VBool true); ("key", VStr "PROJ-1");
                     ("transition", VStr "Done"); ("to_status", VStr "Done")]).
Proof.
  apply (transition_issue_reports_the_listing "PROJ-1" "DONE" None
           (world_with listing_twice_replies)
           {| status_code := 200; ok := true; text := "";
              resp_json := Some listing_twice |}
           {| status_code := 204; ok := true; text := ""; resp_json := None |}
           listing_twice [to_do] [done_again]
           [("id", VStr "31"); ("name", VStr "Done");
            ("to", VDict [("name", VStr "Done")])]
           "Done" (VStr "31") (VStr "Done")); try reflexivity.
  repeat constructor. exists "To Do". split.
  - eexists. split; reflexivity.
  - discriminate.
Defined.

End ReportExamples.

(** ** [confluence_get_page] by title *)

Section ByTitle.
Context {F : PyFloat}.

(** A [try] statement that starts with a request, after the reply. *)
Lemma try_confluence_request_replied {A} method path verify_ssl kw
    (k : response -> M A) (handler : exn -> option (M A)) (w : world) resp :
  has_confluence (settings w) = true ->
  transport w (List.length (sent w)) = Replies resp ->
  try_except
    (resp <- confluence_tools._confluence_request method path verify_ssl kw ;;
     k resp) handler w
  = try_except (k resp) handler
      (logged (confluence_request_of (settings w) method path verify_ssl kw) w).
Proof.
  intros Hc Hreply. unfold try_except, bind.
  rewrite confluence_request_configured by exact Hc.
  unfold requests_request. rewrite Hreply. reflexivity.
Qed.

(** What a [try] statement makes of a computation without effects does
    not depend on the state. *)
Lemma fst_try_lift (o : outcome value) (w w' : world) :
  fst (try_except (lift o) confluence_tools.handlers w)
  = fst (try_except (lift o) confluence_tools.handlers w').
Proof.
  unfold try_except, lift. destruct o as [v|e]; [reflexivity|].
  unfold confluence_tools.handlers.
  destruct (is_ValueError e); [reflexivity|].
  destruct (is_RequestException e); reflexivity.
Qed.

End ByTitle.

(** X25. A lookup by title reads the first page of the listing and
    nothing else of it: when the listing answers with a non-empty
    [results] array, [confluence_get_page(title=..., space_key=...)]
    returns (or raises) exactly what [confluence_get_page(page_id=...)]
    does for a response whose body is the first element of the array;
    the further elements are ignored. *)
Theorem get_page_by_title_reads_first_result {F : PyFloat} :
  forall (title space_key page_id : string) (verify_ssl verify_ssl' : option bool)
         (w w' : world) (resp resp' : response) (d : dict)
         (first : value) (rest : list value),
    title <> "" -> space_key <> "" -> page_id <> "" ->
    has_confluence (settings w) = true ->
    transport w (List.length (sent w)) = Replies resp ->
    ok resp = true -> resp_json resp = Some (VDict d) ->
    dict_lookup "results" d = Some (VList (first :: rest)) ->
    has_confluence (settings w') = true ->
    transport w' (List.length (sent w')) = Replies resp' ->
    ok resp' = true -> resp_json resp' = Some first ->
    fst (confluence_tools.confluence_get_page None (Some title)
           (Some space_key) verify_ssl w)
    = fst (confluence_tools.confluence_get_page (Some page_id) None None
             verify_ssl' w').
Proof.
  intros title space_key page_id verify_ssl verify_ssl' w w' resp resp' d
    first rest Ht Hk Hp Hc Hreply Hok Hjson Hres Hc' Hreply' Hok' Hjson'.
  apply String.eqb_neq in Ht, Hk, Hp.
  unfold confluence_tools.confluence_get_page. cbv zeta.
  cbn [given]. rewrite Ht, Hk, Hp. cbn [negb andb].
  rewrite (try_confluence_request_replied _ _ _ _ _ _ w resp Hc Hreply).
  rewrite (try_confluence_request_replied _ _ _ _ _ _ w' resp' Hc' Hreply').
  rewrite Hok, Hok'. cbn [negb].
  unfold json. rewrite Hjson, Hjson'.
  match goal with
  | |- fst (try_except ?m _ ?w1) = fst (try_except ?m' _ ?w1') =>
      assert (E : exists o, (forall x, m x = lift o x) /\
                            (forall x, m' x = lift o x))
  end.
  { eexists. split; intros x.
    - rewrite bind_lift. rewrite bind_lift. cbn [py_get]. rewrite Hres.
      cbn [truthy is_nil negb]. rewrite bind_lift. cbn [py_first].
      reflexivity.
    - rewrite bind_lift. reflexivity. }
  destruct E as (o & E1 & E2).
  unfold try_except. rewrite E1, E2. apply (fst_try_lift o).
Qed.

Section ByTitleExamples.
#[local] Existing Instance no_float.

Lemma get_page_by_title_reads_first_result_witness :
  fst (confluence_tools.confluence_get_page None (Some "Runbook") (Some "DEV")
         None
         (world_with
            (fun _ => respond 200 ""
                        (Some (VDict [("results", VList [page_4711; VNone])])))))
  = fst (confluence_tools.confluence_get_page (Some "4711") None None None
           (world_with (fun _ => respond 200 "" (Some page_4711)))).
Proof.
  apply (get_page_by_title_reads_first_result "Runbook" "DEV" "4711" None None
           (world_with
              (fun _ => respond 200 ""
                          (Some (VDict [("results", VList [page_4711; VNone])]))))
           (world_with (fun _ => respond 200 "" (Some page_4711)))
           {| status_code := 200; ok := true; text := "";
              resp_json := Some (VDict [("results", VList [page_4711; VNone])]) |}
           {| status_code := 200; ok := true; text := "";
              resp_json := Some page_4711 |}
           [("results", VList [page_4711; VNone])] page_4711 [VNone]);
    first [discriminate | reflexivity].
Defined.

End ByTitleExamples.
